(** * CarbonSequestration: the Earth Engine client and its dashboard

    A shallow embedding of [data_processor.py] and [app.py].

    The Python code never computes on pixels itself.  Every [ee] method call
    builds a node of a computation graph, and the graph is shipped to the
    remote service by [getInfo()] (or by a map-tile request).  The embedding
    follows that split:

    - the query builders of [CarbonSequestrationProcessor] are plain functions
      producing expression trees ([img_expr], [coll_expr], [computed]);
    - code that talks to the service or to the page runs in a small
      trace-and-exception monad [M], against an arbitrary scripted [world];
    - the service's reading of an expression is an executable evaluator over a
      catalogue of scenes, with per-pixel arithmetic idealised to exact
      rationals ([Q]);
    - Python's own float arithmetic, in the statistics view of [app.py],
      rounds every result to the nearest double ([binary64]). *)

From Stdlib Require Import List String Ascii Bool Arith ZArith QArith Lia.
From Stdlib Require Import Qround Qabs DecimalString Lqa.
From Stdlib Require Import Sorted Permutation.
Import ListNotations.

Set Warnings "-register-all".

Open Scope string_scope.
Open Scope list_scope.
Open Scope Z_scope.

Infix "+++" := String.append (right associativity, at level 60).

(** ** Plain data *)

(** [ee.Geometry.Rectangle([west, south, east, north])]. *)
Record geometry := Rectangle {
  west : Q; south : Q; east : Q; north : Q
}.

(** A [datetime.date] as the date picker returns it. *)
Record date := mkDate { year : nat; month : nat; day : nat }.

Definition two_digits (n : nat) : string :=
  String (ascii_of_nat (48 + (n / 10) mod 10))
    (String (ascii_of_nat (48 + n mod 10)) EmptyString).

(** [d.strftime('%Y-%m-%d')] *)
Definition strftime_Ymd (d : date) : string :=
  NilEmpty.string_of_uint (Nat.to_uint (year d)) +++ "-" +++
  two_digits (month d) +++ "-" +++ two_digits (day d).

(** ** The computation graph built by the [ee] client library *)

Inductive img_expr : Type :=
| IArg                                              (* the argument of a mapped function *)
| IConstant (c : Z)                                 (* a number promoted to an image *)
| ISelect (i : img_expr) (band : string)            (* image.select(band) *)
| ISubtract (a b : img_expr)                        (* a.subtract(b) *)
| IAdd (a b : img_expr)                             (* a.add(b) *)
| IDivide (a b : img_expr)                          (* a.divide(b) *)
| IMultiply (a b : img_expr)                        (* a.multiply(b) *)
| IRename (i : img_expr) (name : string)            (* image.rename(name) *)
| IAddBands (i extra : img_expr)                    (* image.addBands(extra) *)
| ICollMean (c : coll_expr)                         (* collection.mean() *)
| IListGet (c : coll_expr) (count : Z) (index : nat) (* ee.Image(c.toList(count).get(index)) *)
with coll_expr : Type :=
| CLoad (id : string)                               (* ee.ImageCollection(id) *)
| CFilterBounds (c : coll_expr) (g : geometry)      (* .filterBounds(g) *)
| CFilterDate (c : coll_expr) (start stop : string) (* .filterDate(start, stop) *)
| CSort (c : coll_expr) (property : string)         (* .sort(property) *)
| CMap (body : img_expr) (c : coll_expr)            (* .map(f), body = f applied to IArg *)
| CSelect (c : coll_expr) (band : string).          (* .select(band) *)

Inductive reducer := ReducerMean.                   (* ee.Reducer.mean() *)

(** Objects on which the code calls [getInfo()]. *)
Inductive computed : Type :=
| QSize (c : coll_expr)
    (* collection.size() *)
| QDateFormat (i : img_expr) (property : string) (pattern : string)
    (* ee.Date(image.get(property)).format(pattern) *)
| QReduceRegion (i : img_expr) (r : reducer) (g : geometry) (scale : Z) (maxPixels : Z)
    (* image.reduceRegion(reducer=, geometry=, scale=, maxPixels=) *)
| QArea (g : geometry).
    (* geometry.area() *)

(** ** Python values, exceptions and the outside world *)

(** What [getInfo()] hands back to Python. *)
Inductive pyval : Type :=
| PyNone
| PyInt (n : Z)
| PyFloat (q : Q)                 (* a finite double, by its value; zero is +0.0 *)
| PyStr (s : string)
| PyDict (d : list (string * pyval)).

Inductive exn : Type :=
| EEException (msg : string)     (* ee.EEException: any failure of a remote call *)
| KeyError (key : string)
| TypeError (msg : string)
| ValueError (msg : string)
| IndexError (msg : string)
| ZeroDivisionError (msg : string)
| OverflowError (msg : string)
| StopException.                 (* raised by st.stop(); not a subclass of Exception *)

(** [isinstance(e, Exception)] *)
Definition is_Exception (e : exn) : bool :=
  match e with StopException => false | _ => true end.

(** [str(e)] *)
Definition str_exn (e : exn) : string :=
  match e with
  | EEException msg | TypeError msg | ValueError msg | IndexError msg
  | ZeroDivisionError msg | OverflowError msg => msg
  | KeyError key => "'" +++ key +++ "'"
  | StopException => ""
  end.

Inductive vis_params : Type :=
| VisRamp (vmin vmax : Z) (palette : list string)
| VisColor (color : string).

Inductive map_object : Type :=
| LayerImage (i : img_expr)
| LayerGeometry (g : geometry).

(** Every round-trip to the remote service. *)
Inductive call : Type :=
| EeInitialize
| EeAuthenticate
| GetInfo (c : computed)
| GetMapId (obj : map_object) (vis : vis_params).

Record DataFrame := mkDataFrame {
  Date : list pyval;
  Carbon_Storage : list pyval
}.

(** [len(df)] *)
Definition df_len (df : DataFrame) : nat := List.length (Date df).

Definition df_rows (df : DataFrame) : list (pyval * pyval) :=
  combine (Date df) (Carbon_Storage df).

Record figure := mkFigure {
  fig_data : DataFrame; fig_x : string; fig_y : string;
  fig_title : string; fig_labels : list (string * string)
}.

(** What the script writes to the page (or to stdout). *)
Inductive output : Type :=
| StError (body : string)
| StInfo (body : string)
| StSetPageConfig (page_title page_icon layout : string)
| StTitle (body : string)
| StMarkdown (body : string)
| StSidebarHeader (body : string)
| StSidebarDateInput (label : string)
| StColumns (n : nat)
| StSubheader (body : string)
| StMetric (label value : string)
| StMap (layers : list string) (height : Z)
| StPlotlyChart (fig : figure)
| Print (line : string).

Inductive event : Type :=
| Remote (c : call)
| Shown (o : output).

Definition trace := list event.

Fixpoint calls_of (tr : trace) : list call :=
  match tr with
  | [] => []
  | Remote c :: tr' => c :: calls_of tr'
  | Shown _ :: tr' => calls_of tr'
  end.

(** An answer of the service: a value, or the message of a failure. *)
Definition response := (string + pyval)%type.

(** The service as the client sees it: an answer to each call, which may
    depend on everything asked before. *)
Definition world := list call -> call -> response.

(** ** A trace-and-exception monad *)

Definition M (A : Type) : Type := world -> trace -> trace * (exn + A).

Definition ret {A} (a : A) : M A := fun _ tr => (tr, inr a).

Definition bind {A B} (m : M A) (k : A -> M B) : M B :=
  fun w tr =>
    match m w tr with
    | (tr', inr a) => k a w tr'
    | (tr', inl e) => (tr', inl e)
    end.

Definition raise {A} (e : exn) : M A := fun _ tr => (tr, inl e).

(** A round-trip; the client library raises [ee.EEException] on failure. *)
Definition remote (c : call) : M pyval :=
  fun w tr =>
    (tr ++ [Remote c],
     match w (calls_of tr) c with
     | inr v => inr v
     | inl msg => inl (EEException msg)
     end).

Definition show (o : output) : M unit :=
  fun _ tr => (tr ++ [Shown o], inr tt).

(** [try: body  except Exception as e: handler e] *)
Definition try_except {A} (body : M A) (handler : exn -> M A) : M A :=
  fun w tr =>
    match body w tr with
    | (tr', inl e) => if is_Exception e then handler e w tr' else (tr', inl e)
    | r => r
    end.

(** [try: body  except: handler] (a bare except catches everything) *)
Definition try_except_bare {A} (body : M A) (handler : M A) : M A :=
  fun w tr =>
    match body w tr with
    | (tr', inl _) => handler w tr'
    | r => r
    end.

Declare Scope monad_scope.
Delimit Scope monad_scope with monad.
Notation "x <- m ;; k" := (bind m (fun x => k))
  (at level 61, m at next level, right associativity) : monad_scope.
Notation "m ;;; k" := (bind m (fun _ => k))
  (at level 61, right associativity) : monad_scope.
Open Scope monad_scope.

(** [for x in xs: body], threading the local variables [s]. *)
Fixpoint for_in {X S} (xs : list X) (body : X -> S -> M S) (s : S) : M S :=
  match xs with
  | [] => ret s
  | x :: rest => s' <- body x s ;; for_in rest body s'
  end.

Definition run {A} (m : M A) (w : world) : trace * (exn + A) := m w [].

(** ** The Python operators the scripts apply to service results *)

(** Python expressions that touch neither the service nor the page: a value
    or an exception. *)
Definition lift {A} (r : exn + A) : M A := fun _ tr => (tr, r).

(** [obj.getInfo()] *)
Definition getInfo (c : computed) : M pyval := remote (GetInfo c).

(** [range(v)] *)
Definition py_range (v : pyval) : exn + list nat :=
  match v with
  | PyInt n => inr (seq 0 (Z.to_nat n))
  | PyNone => inl (TypeError "'NoneType' object cannot be interpreted as an integer")
  | PyFloat _ => inl (TypeError "'float' object cannot be interpreted as an integer")
  | PyStr _ => inl (TypeError "'str' object cannot be interpreted as an integer")
  | PyDict _ => inl (TypeError "'dict' object cannot be interpreted as an integer")
  end.

Fixpoint dict_get {V} (d : list (string * V)) (key : string) : option V :=
  match d with
  | [] => None
  | (k, v) :: d' => if String.eqb k key then Some v else dict_get d' key
  end.

(** [v[key]] for a string key *)
Definition py_getitem (v : pyval) (key : string) : exn + pyval :=
  match v with
  | PyDict d =>
      match dict_get d key with
      | Some x => inr x
      | None => inl (KeyError key)
      end
  | PyNone => inl (TypeError "'NoneType' object is not subscriptable")
  | PyInt _ => inl (TypeError "'int' object is not subscriptable")
  | PyFloat _ => inl (TypeError "'float' object is not subscriptable")
  | PyStr _ => inl (TypeError "string indices must be integers")
  end.

(** Nearest integer, ties to even. *)
Definition round_half_even (q : Q) : Z :=
  let f := Qfloor q in
  let twice_rest := (2 * (q - inject_Z f))%Q in
  match (twice_rest ?= 1)%Q with
  | Lt => f
  | Gt => f + 1
  | Eq => if Z.even f then f else f + 1
  end.

(** The largest finite double. *)
Definition max_double : Q := inject_Z ((2 ^ 53 - 1) * 2 ^ 971).

(** The IEEE 754 double nearest to a rational, ties to even, with an
    exponent that is bounded below (subnormals) and not above: a result
    beyond [max_double] is where the double operation overflows.  The
    result is in lowest terms. *)
Definition binary64 (q : Q) : Q :=
  let x := Qred q in
  if Qeq_bool x 0 then 0%Q
  else
    let a := Qabs x in
    let guess := Z.log2 (Qnum a) - Z.log2 (Zpos (Qden a)) in
    let e := if Qle_bool (Qpower 2 guess) a then guess else guess - 1 in
    let ulp := Qpower 2 (Z.max (e - 52) (-1074)) in
    let r := Qred (inject_Z (round_half_even (a / ulp)) * ulp) in
    if Qle_bool 0 x then r else (- r)%Q.

(** A finite double. *)
Definition finite (q : Q) : bool :=
  Qeq_bool (binary64 q) q && Qle_bool (Qabs q) max_double.

(** [float(n)] on an int. *)
Definition float_of_int (n : Z) : exn + Q :=
  let r := binary64 (inject_Z n) in
  if Qle_bool (Qabs r) max_double then inr r
  else inl (OverflowError "int too large to convert to float").

(** The operand of a float operation. *)
Definition py_float (v : pyval) : option (exn + Q) :=
  match v with
  | PyInt n => Some (float_of_int n)
  | PyFloat q => Some (inr q)
  | _ => None
  end.

(** A float operation on two numbers, one of them a float.  A result
    beyond [max_double] is an infinity in Python; [PyFloat] has finite
    values only, and the model keeps the rounded value there. *)
Definition float_op (symbol : string) (op : Q -> Q -> exn + Q) (a b : pyval) : exn + pyval :=
  match py_float a, py_float b with
  | Some (inl e), Some _ => inl e
  | Some (inr _), Some (inl e) => inl e
  | Some (inr x), Some (inr y) =>
      match op x y with
      | inl e => inl e
      | inr r => inr (PyFloat (binary64 r))
      end
  | _, _ => inl (TypeError ("unsupported operand type(s) for " +++ symbol))
  end.

(** [a / b]: the correctly rounded quotient of two ints, the rounded
    quotient of two floats otherwise. *)
Definition py_truediv (a b : pyval) : exn + pyval :=
  match a, b with
  | PyInt x, PyInt y =>
      if y =? 0 then inl (ZeroDivisionError "division by zero")
      else
        let r := binary64 (inject_Z x / inject_Z y) in
        if Qle_bool (Qabs r) max_double then inr (PyFloat r)
        else inl (OverflowError "integer division result too large for a float")
  | _, _ =>
      float_op "/"
        (fun x y =>
           if Qeq_bool y 0 then inl (ZeroDivisionError "float division by zero")
           else inr (x / y)%Q)
        a b
  end.

(** [a * b] on numbers: exact on two ints, rounded on floats. *)
Definition py_mul (a b : pyval) : exn + pyval :=
  match a, b with
  | PyInt x, PyInt y => inr (PyInt (x * y))
  | _, _ => float_op "*" (fun x y => inr (x * y)%Q) a b
  end.

(** ** data_processor.py: the query builders *)

Module Processor.

(** Lines 25-28. *)
Definition collection (roi : geometry) (start_date end_date : string) : coll_expr :=
  CSort
    (CFilterDate
       (CFilterBounds (CLoad "LANDSAT/LC08/C02/T1_L2") roi)
       start_date end_date)
    "CLOUD_COVER".

(** Lines 30-35. *)
Definition add_ndvi (image : img_expr) : img_expr :=
  let nir := ISelect image "SR_B5" in
  let red := ISelect image "SR_B4" in
  let ndvi := IRename (IDivide (ISubtract nir red) (IAdd nir red)) "NDVI" in
  IAddBands image ndvi.

(** Lines 20-43. *)
Definition get_ndvi_time_series (roi : geometry) (start_date end_date : string)
  : coll_expr :=
  let with_ndvi := CMap (add_ndvi IArg) (collection roi start_date end_date) in
  let ndvi_collection := CSelect with_ndvi "NDVI" in
  ndvi_collection.

(** Lines 45-52. *)
Definition estimate_carbon_storage (ndvi : img_expr) : img_expr :=
  let carbon := IMultiply ndvi (IConstant 200) in
  carbon.

(** Lines 54-75.  The method returns the (still unevaluated) dictionary. *)
Definition get_area_statistics (roi : geometry) (start_date end_date : string)
  : computed :=
  let ndvi_series := get_ndvi_time_series roi start_date end_date in
  let mean_ndvi := ICollMean ndvi_series in
  let carbon_storage := estimate_carbon_storage mean_ndvi in
  let stats := QReduceRegion carbon_storage ReducerMean roi 30 (10 ^ 9) in
  stats.

(** Lines 8-18. *)
Definition init : M unit :=
  try_except_bare
    (remote EeInitialize ;;; ret tt)
    (try_except
       (remote EeAuthenticate ;;;
        remote EeInitialize ;;;
        ret tt)
       (fun e =>
          show (Print ("Error initializing Earth Engine: " +++ str_exn e)) ;;;
          raise e)).

(** Lines 92-106: one turn of the loop; [dates] and [carbon_values] are the
    two lists being appended to. *)
Definition time_series_step (roi : geometry) (ndvi_series : coll_expr) (count : Z)
    (i : nat) (lists : list pyval * list pyval) : M (list pyval * list pyval) :=
  let '(dates, carbon_values) := lists in
  let image := IListGet ndvi_series count i in
  date <- getInfo (QDateFormat image "system:time_start" "YYYY-MM-dd") ;;
  let carbon := estimate_carbon_storage image in
  let stats := QReduceRegion carbon ReducerMean roi 30 (10 ^ 9) in
  let dates := dates ++ [date] in
  info <- getInfo stats ;;
  value <- lift (py_getitem info "NDVI") ;;
  let carbon_values := carbon_values ++ [value] in
  ret (dates, carbon_values).

(** Lines 77-114. *)
Definition create_time_series_data (roi : geometry) (start_date end_date : string)
  : M DataFrame :=
  let ndvi_series := get_ndvi_time_series roi start_date end_date in
  let dates := [] in
  let carbon_values := [] in
  count <- getInfo (QSize ndvi_series) ;;
  indices <- lift (py_range count) ;;
  let count_arg := match count with PyInt n => n | _ => 0 end in
  lists <- for_in indices (time_series_step roi ndvi_series count_arg)
             (dates, carbon_values) ;;
  let df := mkDataFrame (fst lists) (snd lists) in
  ret df.

End Processor.

(** ** Number formatting for the metric cards *)

Definition digit (n : Z) : ascii := ascii_of_nat (48 + Z.to_nat (n mod 10)).

(** The last [d] decimal digits of [n], zero-padded. *)
Fixpoint last_digits (d : nat) (n : Z) : string :=
  match d with
  | O => EmptyString
  | S d' => last_digits d' (n / 10) +++ String (digit n) EmptyString
  end.

(** [format(q, '.<d>f')] *)
Definition format_fixed (d : nat) (q : Q) : string :=
  let scaled := round_half_even (Qabs q * inject_Z (10 ^ Z.of_nat d)) in
  let sign := match (q ?= 0)%Q with Lt => "-" | _ => "" end in
  let whole := NilZero.string_of_uint (N.to_uint (Z.to_N (scaled / 10 ^ Z.of_nat d))) in
  match d with
  | O => sign +++ whole
  | _ => sign +++ whole +++ "." +++ last_digits d scaled
  end.

(** [f"{v:.<d>f}"] *)
Definition py_format_f (d : nat) (v : pyval) : exn + string :=
  match v with
  | PyInt n =>
      match float_of_int n with
      | inl e => inl e
      | inr q => inr (format_fixed d q)
      end
  | PyFloat q => inr (format_fixed d q)
  | PyNone => inl (TypeError "unsupported format string passed to NoneType.__format__")
  | PyStr _ => inl (ValueError "Unknown format code 'f' for object of type 'str'")
  | PyDict _ => inl (TypeError "unsupported format string passed to dict.__format__")
  end.

(** [t[i]] on the tuple returned by the date picker *)
Definition tuple_getitem (t : list date) (i : nat) : exn + date :=
  match nth_error t i with
  | Some d => inr d
  | None => inl (IndexError "tuple index out of range")
  end.

(** ** app.py: the dashboard script *)

Module App.

(** [st.stop()] *)
Definition st_stop {A} : M A := raise StopException.

(** The message of lines 15-31, with [details] in place of the braces. *)
Definition authentication_required (details : string) : string :=
  "
        ### Earth Engine Authentication Required
        
        To use this dashboard, you need to:
        
        1. Sign up for Google Earth Engine at https://earthengine.google.com/
        2. Register your project at https://console.cloud.google.com/
        3. Enable the Earth Engine API
        4. Create service account credentials
        
        After completing these steps, run:
        ```bash
        earthengine authenticate --force
        ```
        
        Error details: " +++ details +++ "
        ".

(** Lines 11-32. *)
Definition initialize_earth_engine : M unit :=
  try_except
    (remote EeInitialize ;;; ret tt)
    (fun e =>
       show (StError (authentication_required (str_exn e))) ;;;
       st_stop).

(** Lines 52-54.  The processor object carries no data of its own. *)
Definition init_processor : M unit := Processor.init.

(** Line 57. *)
Definition roi : geometry := Rectangle (-735 # 10) (42 # 1) (-73 # 1) (425 # 10).

(** Lines 88-105: the map view. *)
Definition map_view (start_date end_date : string) : M unit :=
  try_except
    (let ndvi_series := Processor.get_ndvi_time_series roi start_date end_date in
     let mean_ndvi := ICollMean ndvi_series in
     let carbon_storage := Processor.estimate_carbon_storage mean_ndvi in
     remote (GetMapId (LayerImage carbon_storage)
               (VisRamp 0 200 ["red"; "yellow"; "green"])) ;;;
     remote (GetMapId (LayerGeometry roi) (VisColor "blue")) ;;;
     show (StMap ["Carbon Storage"; "Study Area"] 400))
    (fun e => show (StError ("Error generating map: " +++ str_exn e))).

(** Lines 110-133: the two metric cards. *)
Definition statistics_view (start_date end_date : string) : M unit :=
  try_except
    (let stats := Processor.get_area_statistics roi start_date end_date in
     stats_dict <- getInfo stats ;;
     density <- lift (py_getitem stats_dict "NDVI") ;;
     shown <- lift (py_format_f 1 density) ;;
     show (StMetric "Average Carbon Storage" (shown +++ " tons/ha")) ;;;
     square_metres <- getInfo (QArea roi) ;;
     area <- lift (py_truediv square_metres (PyInt 10000)) ;;
     density <- lift (py_getitem stats_dict "NDVI") ;;
     total_carbon <- lift (py_mul density area) ;;
     shown <- lift (py_format_f 0 total_carbon) ;;
     show (StMetric "Total Carbon Storage" (shown +++ " tons")))
    (fun e => show (StError ("Error calculating statistics: " +++ str_exn e))).

(** Lines 137-153: the line chart. *)
Definition time_series_view (start_date end_date : string) : M unit :=
  try_except
    (df <- Processor.create_time_series_data roi start_date end_date ;;
     let fig :=
       mkFigure df "Date" "Carbon_Storage" "Carbon Storage Trends"
         [("Carbon_Storage", "Carbon Storage (tons/ha)")] in
     show (StPlotlyChart fig))
    (fun e => show (StError ("Error generating time series: " +++ str_exn e))).

(** The whole script, run once; [date_range] is what the date picker of
    lines 61-68 returned. *)
Definition main (date_range : list date) : M unit :=
  initialize_earth_engine ;;;
  show (StSetPageConfig "Carbon Sequestration Dashboard" "🌳" "wide") ;;;
  show (StTitle "🌳 Carbon Sequestration Dashboard") ;;;
  show (StMarkdown "
This dashboard estimates and visualizes carbon sequestration in the Berkshire Taconic Landscape 
using satellite imagery and AI-powered analysis.
") ;;;
  show (StSidebarHeader "Controls") ;;;
  show (StSidebarDateInput "Select Date Range") ;;;
  try_except init_processor
    (fun e =>
       show (StError ("Error initializing Earth Engine: " +++ str_exn e)) ;;;
       show (StInfo "Please follow the authentication steps above.") ;;;
       st_stop) ;;;
  show (StColumns 2) ;;;
  show (StSubheader "Carbon Storage Map") ;;;
  last <- lift (tuple_getitem date_range 1) ;;
  let end_date := strftime_Ymd last in
  first <- lift (tuple_getitem date_range 0) ;;
  let start_date := strftime_Ymd first in
  map_view start_date end_date ;;;
  show (StSubheader "Carbon Storage Statistics") ;;;
  statistics_view start_date end_date ;;;
  show (StSubheader "Carbon Storage Over Time") ;;;
  time_series_view start_date end_date ;;;
  show (StMarkdown "---") ;;;
  show (StMarkdown "
<div style='text-align: center'>
    <p>Data source: Landsat 8 via Google Earth Engine</p>
    <p>Developed by Xunia Labs for TNC</p>
</div>
").

End App.

(** ** The service's reading of the computation graph

    An executable model of what the hosted service computes for the
    operations the scripts use.  Pixels are the cells of the sampling grid;
    a raster is undefined ([None]) where the pixel is masked. *)

Module Service.

Definition pixel : Type := (Z * Z)%type.
Definition raster : Type := pixel -> option Q.

Record image := mkImage {
  properties : list (string * Q);
  footprint : geometry -> bool;          (* does the image intersect a geometry? *)
  bands : list (string * raster)
}.

(** One Landsat 8 capture, with the attributes the scripts consume. *)
Record scene := mkScene {
  time_start : Z;                        (* milliseconds since 1970-01-01 *)
  cloud_cover : Q;
  intersects : geometry -> bool;
  SR_B4 : raster;                        (* red *)
  SR_B5 : raster                         (* near infrared *)
}.

Record service := mkService {
  landsat8 : list scene;                 (* LANDSAT/LC08/C02/T1_L2, in catalogue order *)
  grid : geometry -> Z -> list pixel;    (* cells of a region at a sampling scale *)
  area_m2 : geometry -> Q
}.

Definition image_of_scene (s : scene) : image :=
  mkImage
    [("system:time_start", inject_Z (time_start s)); ("CLOUD_COVER", cloud_cover s)]
    (intersects s)
    [("SR_B4", SR_B4 s); ("SR_B5", SR_B5 s)].

Definition result (A : Type) : Type := (string + A)%type.

Definition ok {A} (a : A) : result A := inr a.
Definition fail {A} (msg : string) : result A := inl msg.

Definition and_then {A B} (r : result A) (k : A -> result B) : result B :=
  match r with
  | inr a => k a
  | inl e => inl e
  end.

Fixpoint traverse {A B} (f : A -> result B) (xs : list A) : result (list B) :=
  match xs with
  | [] => ok []
  | x :: rest =>
      and_then (f x) (fun y =>
      and_then (traverse f rest) (fun ys => ok (y :: ys)))
  end.

(** *** Calendar dates *)

Definition days_from_civil (y m d : Z) : Z :=
  let y' := if m <=? 2 then y - 1 else y in
  let era := y' / 400 in
  let yoe := y' - era * 400 in
  let doy := (153 * (if 2 <? m then m - 3 else m + 9) + 2) / 5 + d - 1 in
  let doe := yoe * 365 + yoe / 4 - yoe / 100 + doy in
  era * 146097 + doe - 719468.

Definition civil_from_days (days : Z) : Z * Z * Z :=
  let z := days + 719468 in
  let era := z / 146097 in
  let doe := z - era * 146097 in
  let yoe := (doe - doe / 1460 + doe / 36524 - doe / 146096) / 365 in
  let doy := doe - (365 * yoe + yoe / 4 - yoe / 100) in
  let mp := (5 * doy + 2) / 153 in
  let d := doy - (153 * mp + 2) / 5 + 1 in
  let m := if mp <? 10 then mp + 3 else mp - 9 in
  let y := yoe + era * 400 in
  (if m <=? 2 then y + 1 else y, m, d).

Definition ms_per_day : Z := 86400000.

Definition digit_value (c : ascii) : option Z :=
  let n := Z.of_nat (nat_of_ascii c) in
  if (48 <=? n) && (n <=? 57) then Some (n - 48) else None.

Fixpoint number_value (acc : Z) (s : string) : option Z :=
  match s with
  | EmptyString => Some acc
  | String c rest =>
      match digit_value c with
      | Some v => number_value (10 * acc + v) rest
      | None => None
      end
  end.

Definition is_leap (y : Z) : bool :=
  ((y mod 4 =? 0) && negb (y mod 100 =? 0)) || (y mod 400 =? 0).

Definition days_in_month (y m : Z) : Z :=
  if m =? 2 then (if is_leap y then 29 else 28)
  else if (m =? 4) || (m =? 6) || (m =? 9) || (m =? 11) then 30
  else 31.

(** A date string of the form YYYY-MM-DD, as milliseconds since the epoch. *)
Definition parse_date (s : string) : option Z :=
  if negb (Nat.eqb (String.length s) 10) then None
  else if negb (String.eqb (substring 4 1 s) "-" && String.eqb (substring 7 1 s) "-")
  then None
  else
    match number_value 0 (substring 0 4 s),
          number_value 0 (substring 5 2 s),
          number_value 0 (substring 8 2 s) with
    | Some y, Some m, Some d =>
        if (1 <=? m) && (m <=? 12) && (1 <=? d) && (d <=? days_in_month y m)
        then Some (days_from_civil y m d * ms_per_day)
        else None
    | _, _, _ => None
    end.

(** [ee.Date(ms).format('YYYY-MM-dd')] *)
Definition format_date (ms : Z) : string :=
  let '(y, m, d) := civil_from_days (ms / ms_per_day) in
  last_digits 4 y +++ "-" +++ last_digits 2 m +++ "-" +++ last_digits 2 d.

(** *** Images *)

Definition select (img : image) (band : string) : result image :=
  match filter (fun b => String.eqb (fst b) band) (bands img) with
  | [] => fail ("Image.select: Pattern '" +++ band +++ "' did not match any bands.")
  | chosen => ok (mkImage (properties img) (footprint img) chosen)
  end.

Definition pointwise (f : Q -> Q -> Q) (a b : raster) : raster :=
  fun p =>
    match a p, b p with
    | Some x, Some y => Some (f x y)
    | _, _ => None
    end.

(** Band matching of the binary image operators: a one-band operand is used
    against every band of the other; otherwise bands are paired in order.
    The result is named after the first operand, or after the longer one. *)
Definition binary (f : Q -> Q -> Q) (a b : image) : result image :=
  match bands a, bands b with
  | _, [(_, rb)] =>
      ok (mkImage [] (footprint a)
            (map (fun band => (fst band, pointwise f (snd band) rb)) (bands a)))
  | [(_, ra)], _ =>
      ok (mkImage [] (footprint a)
            (map (fun band => (fst band, pointwise f ra (snd band))) (bands b)))
  | _, _ =>
      if Nat.eqb (List.length (bands a)) (List.length (bands b)) then
        ok (mkImage [] (footprint a)
              (map (fun ab => (fst (fst ab), pointwise f (snd (fst ab)) (snd (snd ab))))
                   (combine (bands a) (bands b))))
      else fail "Images must contain the same number of bands or only 1 band."
  end.

(** [divide] returns 0 for division by 0, as does [Qdiv]. *)
Definition subtract := binary Qminus.
Definition add := binary Qplus.
Definition divide := binary Qdiv.
Definition multiply := binary Qmult.

Definition constant (c : Z) : image :=
  mkImage [] (fun _ => true) [("constant", fun _ => Some (inject_Z c))].

Definition rename (img : image) (name : string) : result image :=
  match bands img with
  | [(_, r)] => ok (mkImage (properties img) (footprint img) [(name, r)])
  | _ => fail "Image.rename: The number of names must match the number of bands."
  end.

Definition has_band (name : string) (bs : list (string * raster)) : bool :=
  existsb (fun b => String.eqb (fst b) name) bs.

(** [addBands] keeps the first image's properties; a band whose name is
    already taken gets the suffix [_1]. *)
Definition addBands (img extra : image) : image :=
  mkImage (properties img) (footprint img)
    (bands img ++
     map (fun b => (if has_band (fst b) (bands img) then fst b +++ "_1" else fst b, snd b))
         (bands extra)).

Definition Qsum (xs : list Q) : Q := fold_right Qplus 0%Q xs.

(** Mean of the available values; nothing if there is none. *)
Definition mean (xs : list Q) : option Q :=
  match xs with
  | [] => None
  | _ => Some (Qsum xs / inject_Z (Z.of_nat (List.length xs)))%Q
  end.

(** The defined entries of a list of optional values. *)
Fixpoint present {A} (xs : list (option A)) : list A :=
  match xs with
  | [] => []
  | Some x :: rest => x :: present rest
  | None :: rest => present rest
  end.

Definition band_of (name : string) (img : image) : raster :=
  match dict_get (bands img) name with
  | Some r => r
  | None => fun _ => None
  end.

(** [collection.mean()]: per band of the first image and per pixel, the mean
    over the images in which that pixel is not masked. *)
Definition collection_mean (imgs : list image) : image :=
  match imgs with
  | [] => mkImage [] (fun _ => false) []
  | first :: _ =>
      mkImage [] (fun g => existsb (fun i => footprint i g) imgs)
        (map (fun band =>
                (fst band,
                 fun p => mean (present (map (fun i => band_of (fst band) i p) imgs))))
             (bands first))
  end.

(** *** Collections *)

Definition property_le (name : string) (a b : image) : bool :=
  match dict_get (properties a) name, dict_get (properties b) name with
  | Some x, Some y => Qle_bool x y
  | None, _ => true
  | Some _, None => false
  end.

Fixpoint insert_by (le : image -> image -> bool) (x : image) (xs : list image)
  : list image :=
  match xs with
  | [] => [x]
  | y :: rest => if le x y then x :: xs else y :: insert_by le x rest
  end.

(** Ascending and stable. *)
Definition sort_by (name : string) (imgs : list image) : list image :=
  fold_right (insert_by (property_le name)) [] imgs.

Definition in_window (start stop : Z) (img : image) : bool :=
  match dict_get (properties img) "system:time_start" with
  | Some t => Qle_bool (inject_Z start) t && negb (Qle_bool (inject_Z stop) t)
  | None => false
  end.

Definition filter_date (imgs : list image) (start stop : string) : result (list image) :=
  match parse_date start, parse_date stop with
  | Some a, Some b =>
      if b <=? a
      then fail "Collection.filterDate: Empty date ranges not supported for the current operation."
      else ok (filter (in_window a b) imgs)
  | _, _ => fail "Invalid date."
  end.

Section Evaluation.

Variable sv : service.

Fixpoint eval_image (e : img_expr) (arg : option image) {struct e} : result image :=
  match e with
  | IArg =>
      match arg with
      | Some img => ok img
      | None => fail "Unbound argument."
      end
  | IConstant c => ok (constant c)
  | ISelect i band => and_then (eval_image i arg) (fun img => select img band)
  | ISubtract a b =>
      and_then (eval_image a arg) (fun x =>
      and_then (eval_image b arg) (fun y => subtract x y))
  | IAdd a b =>
      and_then (eval_image a arg) (fun x =>
      and_then (eval_image b arg) (fun y => add x y))
  | IDivide a b =>
      and_then (eval_image a arg) (fun x =>
      and_then (eval_image b arg) (fun y => divide x y))
  | IMultiply a b =>
      and_then (eval_image a arg) (fun x =>
      and_then (eval_image b arg) (fun y => multiply x y))
  | IRename i name => and_then (eval_image i arg) (fun img => rename img name)
  | IAddBands i extra =>
      and_then (eval_image i arg) (fun x =>
      and_then (eval_image extra arg) (fun y => ok (addBands x y)))
  | ICollMean c => and_then (eval_collection c) (fun imgs => ok (collection_mean imgs))
  | IListGet c count index =>
      and_then (eval_collection c) (fun imgs =>
        match nth_error (firstn (Z.to_nat count) imgs) index with
        | Some img => ok img
        | None => fail "List.get: List index out of range."
        end)
  end
with eval_collection (c : coll_expr) {struct c} : result (list image) :=
  match c with
  | CLoad id =>
      if String.eqb id "LANDSAT/LC08/C02/T1_L2"
      then ok (map image_of_scene (landsat8 sv))
      else fail ("ImageCollection.load: ImageCollection asset '" +++ id +++ "' not found.")
  | CFilterBounds c' g =>
      and_then (eval_collection c') (fun imgs => ok (filter (fun i => footprint i g) imgs))
  | CFilterDate c' start stop =>
      and_then (eval_collection c') (fun imgs => filter_date imgs start stop)
  | CSort c' name =>
      and_then (eval_collection c') (fun imgs => ok (sort_by name imgs))
  | CMap body c' =>
      and_then (eval_collection c') (fun imgs =>
        traverse (fun img => eval_image body (Some img)) imgs)
  | CSelect c' band =>
      and_then (eval_collection c') (fun imgs =>
        traverse (fun img => select img band) imgs)
  end.

(** [reduceRegion] with the mean reducer: one entry per band, [None] (null)
    when every sampled pixel is masked. *)
Definition region_mean (pixels : list pixel) (img : image) : list (string * pyval) :=
  map (fun band =>
         (fst band,
          match mean (present (map (snd band) pixels)) with
          | Some v => PyFloat v
          | None => PyNone
          end))
      (bands img).

Definition eval_computed (q : computed) : result pyval :=
  match q with
  | QSize c =>
      and_then (eval_collection c) (fun imgs => ok (PyInt (Z.of_nat (List.length imgs))))
  | QDateFormat i property pattern =>
      and_then (eval_image i None) (fun img =>
        match dict_get (properties img) property with
        | Some ms =>
            if String.eqb pattern "YYYY-MM-dd"
            then ok (PyStr (format_date (Qfloor ms)))
            else fail "Date.format: Unsupported pattern."
        | None => fail "Date: Parameter 'value' is required."
        end)
  | QReduceRegion i ReducerMean g scale maxPixels =>
      and_then (eval_image i None) (fun img =>
        let pixels := grid sv g scale in
        if maxPixels <? Z.of_nat (List.length pixels)
        then fail "Image.reduceRegion: Too many pixels in the region."
        else ok (PyDict (region_mean pixels img)))
  | QArea g => ok (PyFloat (area_m2 sv g))
  end.

(** The service as a [world]: it answers every call the same way whatever
    came before, and never refuses to initialise. *)
Definition answer : world :=
  fun _ c =>
    match c with
    | EeInitialize => inr PyNone
    | EeAuthenticate => inr PyNone
    | GetInfo q => eval_computed q
    | GetMapId _ _ => inr (PyStr "mapid")
    end.

End Evaluation.

End Service.

(** ** The specification's own words

    Definitions written from the specification's description of the
    aggregator, at the level of scenes and pixels, to be compared with what
    the service computes for the graphs the code builds. *)

Module Spec.

Import Service.

(** Vegetation index: (nearInfrared - red) / (nearInfrared + red). *)
Definition index_value (nir red : Q) : Q := ((nir - red) / (nir + red))%Q.

Definition index_raster (sc : scene) : raster :=
  fun p =>
    match SR_B5 sc p, SR_B4 sc p with
    | Some nir, Some red => Some (index_value nir red)
    | _, _ => None
    end.

(** Carbon estimate: vegetation index x 200. *)
Definition carbon_estimate (index : Q) : Q := (index * 200)%Q.

Definition carbon_raster (r : raster) : raster :=
  fun p => option_map carbon_estimate (r p).

(** Per-pixel temporal mean across the returned images. *)
Definition temporal_mean (series : list raster) : raster :=
  fun p => mean (present (map (fun r => r p) series)).

(** Spatial mean over the sampled pixels of the region. *)
Definition spatial_mean (pixels : list pixel) (r : raster) : option Q :=
  mean (present (map r pixels)).

Fixpoint insert_scene (x : scene) (xs : list scene) : list scene :=
  match xs with
  | [] => [x]
  | y :: rest =>
      if Qle_bool (cloud_cover x) (cloud_cover y) then x :: xs
      else y :: insert_scene x rest
  end.

(** Ascending cloud cover. *)
Definition by_cloud_cover (scs : list scene) : list scene :=
  fold_right insert_scene [] scs.

Definition qualifies (roi : geometry) (start stop : Z) (sc : scene) : bool :=
  intersects sc roi && ((start <=? time_start sc) && (time_start sc <? stop)).

(** All images intersecting the region within the window, ordered by
    ascending cloud cover. *)
Definition returned_scenes (sv : service) (roi : geometry) (start stop : string)
  : result (list scene) :=
  match parse_date start, parse_date stop with
  | Some a, Some b =>
      if b <=? a
      then fail "Collection.filterDate: Empty date ranges not supported for the current operation."
      else ok (by_cloud_cover (filter (qualifies roi a b) (landsat8 sv)))
  | _, _ => fail "Invalid date."
  end.

(** Area statistics: temporal mean of the index, converted to carbon, then
    the spatial mean at a 30-metre scale, capped at 10^9 sampled pixels. *)
Definition area_statistic (sv : service) (roi : geometry) (scs : list scene)
  : result (option Q) :=
  let pixels := grid sv roi 30 in
  if 10 ^ 9 <? Z.of_nat (List.length pixels)
  then fail "Image.reduceRegion: Too many pixels in the region."
  else ok (spatial_mean pixels (carbon_raster (temporal_mean (map index_raster scs)))).

(** The value of one time-series row: the spatial mean of one image's
    carbon estimate. *)
Definition row_value (sv : service) (roi : geometry) (sc : scene) : option Q :=
  spatial_mean (grid sv roi 30) (carbon_raster (index_raster sc)).

(** A number or null, as it travels back to Python. *)
Definition py_of (v : option Q) : pyval :=
  match v with
  | Some q => PyFloat q
  | None => PyNone
  end.

End Spec.

(** ** Vocabulary for the statements *)

(** Equality of optional rationals up to [Qeq]. *)
Definition opt_Qeq (a b : option Q) : Prop :=
  match a, b with
  | Some x, Some y => (x == y)%Q
  | None, None => True
  | _, _ => False
  end.

(** The two round-trips of loop turn [i]: the capture date, then the
    spatial reduction of the carbon estimate. *)
Definition date_call (series : coll_expr) (count : Z) (i : nat) : call :=
  GetInfo (QDateFormat (IListGet series count i) "system:time_start" "YYYY-MM-dd").

Definition reduce_call (roi : geometry) (series : coll_expr) (count : Z) (i : nat)
  : call :=
  GetInfo (QReduceRegion
             (Processor.estimate_carbon_storage (IListGet series count i))
             ReducerMean roi 30 (10 ^ 9)).

Definition turn_calls (roi : geometry) (series : coll_expr) (count : Z) (i : nat)
  : list call :=
  [date_call series count i; reduce_call roi series count i].

(** The round-trips of a complete time-series run over [n] images. *)
Definition time_series_calls (roi : geometry) (start_date end_date : string)
    (count : Z) (n : nat) : list call :=
  let series := Processor.get_ndvi_time_series roi start_date end_date in
  GetInfo (QSize series) :: flat_map (turn_calls roi series count) (seq 0 n).

(** Did the service answer every call of [cs], asked in this order after
    [history]? *)
Fixpoint all_answered (w : world) (history cs : list call) : bool :=
  match cs with
  | [] => true
  | c :: rest =>
      match w history c with
      | inr _ => all_answered w (history ++ [c]) rest
      | inl _ => false
      end
  end.

(** The date windows mentioned in a graph. *)
Fixpoint image_windows (e : img_expr) : list (string * string) :=
  match e with
  | IArg | IConstant _ => []
  | ISelect i _ | IRename i _ => image_windows i
  | ISubtract a b | IAdd a b | IDivide a b | IMultiply a b | IAddBands a b =>
      image_windows a ++ image_windows b
  | ICollMean c | IListGet c _ _ => collection_windows c
  end
with collection_windows (c : coll_expr) : list (string * string) :=
  match c with
  | CLoad _ => []
  | CFilterBounds c' _ | CSort c' _ | CSelect c' _ => collection_windows c'
  | CFilterDate c' start stop => (start, stop) :: collection_windows c'
  | CMap body c' => image_windows body ++ collection_windows c'
  end.

Definition call_windows (c : call) : list (string * string) :=
  match c with
  | GetInfo (QSize c') => collection_windows c'
  | GetInfo (QDateFormat i _ _) => image_windows i
  | GetInfo (QReduceRegion i _ _ _ _) => image_windows i
  | GetMapId (LayerImage i) _ => image_windows i
  | _ => []
  end.

(** A window whose start lies after its end. *)
Definition reversed_window (w : string * string) : bool :=
  match Service.parse_date (fst w), Service.parse_date (snd w) with
  | Some a, Some b => b <? a
  | _, _ => false
  end.

(** A query is malformed when it filters by a reversed window. *)
Definition malformed (c : call) : bool := existsb reversed_window (call_windows c).

Definition is_query (c : call) : bool :=
  match c with
  | GetInfo _ | GetMapId _ _ => true
  | _ => false
  end.

(** Dates in ascending order (ISO date strings compare as dates). *)
Fixpoint chronological (dates : list pyval) : bool :=
  match dates with
  | PyStr a :: ((PyStr b :: _) as rest) =>
      match Service.parse_date a, Service.parse_date b with
      | Some x, Some y => (x <=? y) && chronological rest
      | _, _ => false
      end
  | _ => true
  end.

(** The round-trips of the map view and of the statistics view. *)
Definition map_calls (start stop : string) : list call :=
  [GetMapId (LayerImage (Processor.estimate_carbon_storage
                           (ICollMean (Processor.get_ndvi_time_series App.roi start stop))))
     (VisRamp 0 200 ["red"; "yellow"; "green"]);
   GetMapId (LayerGeometry App.roi) (VisColor "blue")].

Definition statistics_calls (start stop : string) : list call :=
  [GetInfo (Processor.get_area_statistics App.roi start stop);
   GetInfo (QArea App.roi)].

(** The events up to the construction of the processor. *)
Definition preamble : trace :=
  [Remote EeInitialize;
   Shown (StSetPageConfig "Carbon Sequestration Dashboard" "🌳" "wide");
   Shown (StTitle "🌳 Carbon Sequestration Dashboard");
   Shown (StMarkdown "
This dashboard estimates and visualizes carbon sequestration in the Berkshire Taconic Landscape 
using satellite imagery and AI-powered analysis.
");
   Shown (StSidebarHeader "Controls");
   Shown (StSidebarDateInput "Select Date Range")].

(** Which view a query belongs to. *)
Definition view_of (c : call) : nat :=
  match c with
  | GetMapId _ _ => 1%nat
  | GetInfo (QArea _) => 2%nat
  | GetInfo (QReduceRegion (IMultiply (ICollMean _) _) _ _ _ _) => 2%nat
  | GetInfo _ => 3%nat
  | _ => 0%nat
  end.

(** [v] is the ['NDVI'] entry of an answer to some image's reduction request. *)
Definition read_from_NDVI (w : world) (roi : geometry) (series : coll_expr)
    (count : Z) (v : pyval) : Prop :=
  exists pre i info,
    w pre (reduce_call roi series count i) = inr info /\
    py_getitem info "NDVI" = inr v.

(** A call that failed and was made again later in the same run. *)
Definition retried (w : world) (cs : list call) : Prop :=
  exists pre c mid post msg,
    cs = pre ++ c :: mid ++ c :: post /\ w pre c = inl msg.

(** ** Sample services and worlds *)

Module Sample.

Import Service.

Definition flat (v : Q) : raster := fun _ => Some v.

(** Defined on the pixel [(0, 0)] only. *)
Definition only_origin (v : Q) : raster :=
  fun p => if (fst p =? 0) && (snd p =? 0) then Some v else None.

Definition two_pixels : geometry -> Z -> list pixel := fun _ _ => [(0, 0); (0, 1)].

Definition hectares_4300 : geometry -> Q := fun _ => 43000000 # 1.

(** Captured 2024-01-01, 50% cloud, index 0.5 everywhere. *)
Definition january : scene :=
  mkScene 1704067200000 (50 # 1) (fun _ => true) (flat (1000 # 1)) (flat (3000 # 1)).

(** Captured 2024-06-01, 10% cloud, index 0 everywhere. *)
Definition june : scene :=
  mkScene 1717200000000 (10 # 1) (fun _ => true) (flat (2000 # 1)) (flat (2000 # 1)).

(** Captured 2024-03-01, index 1 on pixel (0, 0), masked elsewhere. *)
Definition march_partial : scene :=
  mkScene 1709251200000 (5 # 1) (fun _ => true)
    (only_origin (0 # 1)) (only_origin (1000 # 1)).

(** Captured 2024-04-01, index 0 everywhere. *)
Definition april_even : scene :=
  mkScene 1711929600000 (20 # 1) (fun _ => true) (flat (1000 # 1)) (flat (1000 # 1)).

Definition two_scenes : service := mkService [january; june] two_pixels hectares_4300.

Definition masked_scenes : service :=
  mkService [march_partial; april_even] two_pixels hectares_4300.

Definition no_scenes : service := mkService [] two_pixels hectares_4300.

(** Initialisation fails the first time it is asked and works afterwards. *)
Definition flaky_start : world :=
  fun history c =>
    match c, history with
    | EeInitialize, [] => inl "Please authorize access to your Earth Engine account."
    | _, _ => inr PyNone
    end.

(** The start-up check passes, the constructor's first initialisation fails. *)
Definition flaky_constructor : world :=
  fun history c =>
    match c, history with
    | EeInitialize, [EeInitialize] => inl "Transient failure."
    | _, _ => inr PyNone
    end.

End Sample.

(** ** What the service returns for the index series *)

Module Denotation.

Import Service.

(** The index band as the graph of [add_ndvi] computes it. *)
Definition ndvi_raster (sc : scene) : raster :=
  pointwise Qdiv (pointwise Qminus (SR_B5 sc) (SR_B4 sc))
                 (pointwise Qplus (SR_B5 sc) (SR_B4 sc)).

(** One element of the index series. *)
Definition ndvi_image (sc : scene) : image :=
  mkImage (properties (image_of_scene sc)) (intersects sc) [("NDVI", ndvi_raster sc)].

(** The two cells of the time-series row of a scene. *)
Definition date_of (sc : scene) : pyval := PyStr (format_date (time_start sc)).

Definition value_of (sv : service) (roi : geometry) (sc : scene) : pyval :=
  Spec.py_of (Spec.row_value sv roi sc).

(** The index of a scene at a pixel, 0 where it is masked. *)
Definition sample (sc : scene) (p : pixel) : Q :=
  match Spec.index_raster sc p with
  | Some v => v
  | None => 0%Q
  end.

Definition count_of {A} (l : list A) : Q := inject_Z (Z.of_nat (List.length l)).

(** A one-band image holding the value [v] everywhere. *)
Definition uniform (name : string) (v : Q) : image :=
  mkImage [] (fun _ => true) [(name, fun _ => Some v)].

End Denotation.

(** ** Calendar dates, ordering and further samples *)

(** A date a [datetime.date] can hold, with a four-digit year. *)
Definition calendar_date (d : date) : bool :=
  (1000 <=? Z.of_nat (year d)) && (Z.of_nat (year d) <=? 9999) &&
  (1 <=? month d)%nat && (month d <=? 12)%nat &&
  (1 <=? day d)%nat &&
  (Z.of_nat (day d) <=? Service.days_in_month (Z.of_nat (year d)) (Z.of_nat (month d))).

(** Days since 1970-01-01. *)
Definition day_number (d : date) : Z :=
  Service.days_from_civil (Z.of_nat (year d)) (Z.of_nat (month d)) (Z.of_nat (day d)).

Definition less_cloudy (a b : Service.scene) : Prop :=
  (Service.cloud_cover a <= Service.cloud_cover b)%Q.

(** The exceptions [create_time_series_data] can raise. *)
Definition raised_by_time_series (e : exn) : Prop :=
  (exists msg, e = EEException msg) \/ (exists msg, e = TypeError msg) \/
  e = KeyError "NDVI".

(** Does the decimal string of a year have four digits that read back? *)
Definition year_reads_back (y : nat) : bool :=
  match NilEmpty.string_of_uint (Nat.to_uint y) with
  | String a (String b (String c (String e EmptyString))) =>
      match Service.number_value 0
              (String a (String b (String c (String e EmptyString)))) with
      | Some v => v =? Z.of_nat y
      | None => false
      end
  | _ => false
  end.

Definition two_digits_read_back (n : nat) : bool :=
  match Service.number_value 0 (two_digits n) with
  | Some v => v =? Z.of_nat n
  | None => false
  end.

Module MoreSamples.

Import Service.

(** Initialisation works, every query fails. *)
Definition unreachable : world :=
  fun _ c =>
    match c with
    | EeInitialize | EeAuthenticate => inr PyNone
    | _ => inl "Service unavailable."
    end.

(** Captured 2024-05-01, every pixel masked. *)
Definition overcast : scene :=
  mkScene 1714521600000 (100 # 1) (fun _ => true) (fun _ => None) (fun _ => None).

Definition overcast_only : service :=
  mkService [overcast] Sample.two_pixels Sample.hectares_4300.

(** The two images of [Sample.two_scenes] over a region sampled by
    10^9 + 1 pixels. *)
Definition crowded : service :=
  mkService [Sample.january; Sample.june]
    (fun _ _ => repeat (0, 0) (Z.to_nat (10 ^ 9 + 1))) Sample.hectares_4300.

(** The double written 100.00004148471615. *)
Definition density_100 : Q := 3518438668496889 # 35184372088832.

(** A density of [density_100] over 2290000000.0 square metres. *)
Definition wide_region : world :=
  fun _ c =>
    match c with
    | GetInfo (QArea _) => inr (PyFloat (2290000000 # 1))
    | _ => inr (PyDict [("NDVI", PyFloat density_100)])
    end.

End MoreSamples.

(** * Properties *)

(** ** The monad *)

Lemma calls_of_app (a b : trace) : calls_of (a ++ b) = calls_of a ++ calls_of b.
Proof.
  induction a as [|[c|o] a IH]; simpl; [reflexivity | now rewrite IH | exact IH].
Qed.

Lemma calls_of_remote (tr : trace) (c : call) :
  calls_of (tr ++ [Remote c]) = calls_of tr ++ [c].
Proof. now rewrite calls_of_app. Qed.

Lemma calls_of_shown (tr : trace) (o : output) :
  calls_of (tr ++ [Shown o]) = calls_of tr.
Proof. rewrite calls_of_app. simpl. apply app_nil_r. Qed.

(** ** The service *)

Module ServiceFacts.

Import Service Spec Denotation.

Lemma filter_map_comm {A B} (P : B -> bool) (f : A -> B) (l : list A) :
  filter P (map f l) = map f (filter (fun x => P (f x)) l).
Proof.
  induction l as [|x l IH]; simpl; [reflexivity|].
  destruct (P (f x)); simpl; now rewrite IH.
Qed.

Lemma filter_twice {A} (P R : A -> bool) (l : list A) :
  filter P (filter R l) = filter (fun x => R x && P x) l.
Proof.
  induction l as [|x l IH]; simpl; [reflexivity|].
  destruct (R x); simpl; [destruct (P x); now rewrite IH | exact IH].
Qed.

Lemma Qle_bool_inject_Z (a b : Z) : Qle_bool (inject_Z a) (inject_Z b) = (a <=? b).
Proof. unfold Qle_bool. simpl. now rewrite !Z.mul_1_r. Qed.

Lemma in_window_scene (a b : Z) (sc : scene) :
  in_window a b (image_of_scene sc) = ((a <=? time_start sc) && (time_start sc <? b)).
Proof.
  unfold in_window. simpl. rewrite !Qle_bool_inject_Z.
  now rewrite (Z.ltb_antisym b (time_start sc)).
Qed.

Lemma insert_by_scene (x : scene) (l : list scene) :
  insert_by (property_le "CLOUD_COVER") (image_of_scene x) (map image_of_scene l) =
  map image_of_scene (insert_scene x l).
Proof.
  induction l as [|y l IH]; simpl; [reflexivity|].
  change (property_le "CLOUD_COVER" (image_of_scene x) (image_of_scene y))
    with (Qle_bool (cloud_cover x) (cloud_cover y)).
  destruct (Qle_bool (cloud_cover x) (cloud_cover y)); simpl; [reflexivity|].
  now rewrite IH.
Qed.

Lemma sort_by_scenes (l : list scene) :
  sort_by "CLOUD_COVER" (map image_of_scene l) = map image_of_scene (by_cloud_cover l).
Proof.
  unfold sort_by, by_cloud_cover.
  induction l as [|x l IH]; simpl; [reflexivity|].
  rewrite IH. apply insert_by_scene.
Qed.

Lemma traverse_map_ok {A B C} (f : B -> result C) (g : A -> B) (h : A -> C)
    (l : list A) :
  (forall x, f (g x) = ok (h x)) -> traverse f (map g l) = ok (map h l).
Proof.
  intros H. induction l as [|x l IH]; simpl; [reflexivity|].
  now rewrite H, IH.
Qed.

Lemma ndvi_raster_index (sc : scene) (p : pixel) :
  ndvi_raster sc p = index_raster sc p.
Proof.
  unfold ndvi_raster, index_raster, pointwise, index_value.
  destruct (SR_B5 sc p), (SR_B4 sc p); reflexivity.
Qed.

Lemma eval_add_ndvi (sv : service) (sc : scene) :
  eval_image sv (Processor.add_ndvi IArg) (Some (image_of_scene sc)) =
  ok (mkImage (properties (image_of_scene sc)) (intersects sc)
        [("SR_B4", SR_B4 sc); ("SR_B5", SR_B5 sc); ("NDVI", ndvi_raster sc)]).
Proof. reflexivity. Qed.

(** Lines 25-28 select the qualifying scenes in ascending cloud cover. *)
Lemma eval_collection_selected (sv : service) (roi : geometry) (start stop : string) :
  eval_collection sv (Processor.collection roi start stop) =
  and_then (returned_scenes sv roi start stop)
    (fun scs => ok (map image_of_scene scs)).
Proof.
  unfold Processor.collection, returned_scenes. simpl.
  unfold filter_date.
  destruct (parse_date start) as [a|]; [|reflexivity].
  destruct (parse_date stop) as [b|]; [|reflexivity].
  destruct (b <=? a); [reflexivity|]. simpl.
  rewrite !filter_map_comm, sort_by_scenes. f_equal. f_equal. f_equal.
  rewrite filter_twice. apply filter_ext. intros sc.
  unfold qualifies. now rewrite in_window_scene.
Qed.

(** The index series holds one NDVI image per returned scene. *)
Lemma eval_index_series (sv : service) (roi : geometry) (start stop : string) :
  eval_collection sv (Processor.get_ndvi_time_series roi start stop) =
  and_then (returned_scenes sv roi start stop)
    (fun scs => ok (map ndvi_image scs)).
Proof.
  unfold Processor.get_ndvi_time_series.
  change (eval_collection sv
            (CSelect (CMap (Processor.add_ndvi IArg)
                        (Processor.collection roi start stop)) "NDVI"))
    with (and_then
            (and_then (eval_collection sv (Processor.collection roi start stop))
               (fun imgs =>
                  traverse (fun img => eval_image sv (Processor.add_ndvi IArg) (Some img))
                    imgs))
            (fun imgs => traverse (fun img => select img "NDVI") imgs)).
  rewrite eval_collection_selected.
  destruct (returned_scenes sv roi start stop) as [msg|scs]; [reflexivity|]. simpl.
  rewrite (traverse_map_ok
             (fun img => eval_image sv (Processor.add_ndvi IArg) (Some img))
             image_of_scene
             (fun sc => mkImage (properties (image_of_scene sc)) (intersects sc)
                [("SR_B4", SR_B4 sc); ("SR_B5", SR_B5 sc); ("NDVI", ndvi_raster sc)]))
    by (intros sc; apply eval_add_ndvi).
  simpl. apply traverse_map_ok. reflexivity.
Qed.

Lemma dict_get_map {V W} (g : V -> W) (d : list (string * V)) (key : string) :
  dict_get (map (fun b => (fst b, g (snd b))) d) key = option_map g (dict_get d key).
Proof.
  induction d as [|[k v] d IH]; simpl; [reflexivity|].
  destruct (String.eqb k key); [reflexivity | exact IH].
Qed.

Lemma multiply_constant (img : image) (c : Z) :
  multiply img (constant c) =
  ok (mkImage [] (footprint img)
        (map (fun band => (fst band, pointwise Qmult (snd band) (fun _ => Some (inject_Z c))))
             (bands img))).
Proof.
  unfold multiply, binary.
  destruct (bands img) as [|[n r] [|b l]]; reflexivity.
Qed.

Lemma eval_estimate_carbon_storage (sv : service) (e : img_expr) (arg : option image) :
  eval_image sv (Processor.estimate_carbon_storage e) arg =
  and_then (eval_image sv e arg) (fun img => multiply img (constant 200)).
Proof. simpl. destruct (eval_image sv e arg); reflexivity. Qed.

Lemma pointwise_times_200 (r : raster) (p : pixel) :
  pointwise Qmult r (fun _ => Some (inject_Z 200)) p = carbon_raster r p.
Proof. unfold pointwise, carbon_raster, carbon_estimate. destruct (r p); reflexivity. Qed.

Lemma index_value_bounds (nir red : Q) :
  (0 <= nir)%Q -> (0 <= red)%Q -> ~ (nir + red == 0)%Q ->
  (-1 <= index_value nir red <= 1)%Q.
Proof.
  intros Hn Hr Hs. unfold index_value.
  assert (Hpos : (0 < nir + red)%Q).
  { destruct (Qlt_le_dec 0 (nir + red)) as [H|H]; [exact H|].
    exfalso. apply Hs. lra. }
  split.
  - apply Qle_shift_div_l; [exact Hpos | lra].
  - apply Qle_shift_div_r; [exact Hpos | lra].
Qed.

End ServiceFacts.

(** ** The index and the carbon estimate *)

Section IndexAndCarbon.

Import Service Spec Denotation ServiceFacts.

(** C1.  [estimate_carbon_storage] multiplies every sample by exactly 200 and
    leaves names and masks alone; it cannot fail on an image that exists;
    an index of 0.5 gives 100; and since the index is not clamped, for every
    bound some index outside [0, 1] gives an estimate above it. *)
Theorem estimate_carbon_storage_times_200 :
  (forall (sv : service) (e : img_expr) (arg : option image) (img : image),
      eval_image sv e arg = inr img ->
      exists carbon,
        eval_image sv (Processor.estimate_carbon_storage e) arg = inr carbon /\
        map fst (bands carbon) = map fst (bands img) /\
        forall name p,
          band_of name carbon p =
          option_map (fun v => v * 200)%Q (band_of name img p)) /\
  (forall (sv : service) (p : pixel),
      exists carbon c,
        eval_image sv (Processor.estimate_carbon_storage IArg)
          (Some (uniform "NDVI" (1 # 2))) = inr carbon /\
        band_of "NDVI" carbon p = Some c /\ (c == 100)%Q) /\
  (forall (sv : service) (p : pixel) (bound : Q),
      exists v carbon c,
        (1 < v)%Q /\
        eval_image sv (Processor.estimate_carbon_storage IArg)
          (Some (uniform "NDVI" v)) = inr carbon /\
        band_of "NDVI" carbon p = Some c /\ (bound < c)%Q).
Proof.
  split; [|split].
  - intros sv e arg img H.
    rewrite eval_estimate_carbon_storage, H. simpl. rewrite multiply_constant.
    eexists. split; [reflexivity|]. simpl. split.
    + rewrite map_map. reflexivity.
    + intros name p. unfold band_of. simpl.
      rewrite (dict_get_map (fun r => pointwise Qmult r (fun _ => Some (inject_Z 200)))).
      destruct (dict_get (bands img) name) as [r|]; simpl; [|reflexivity].
      unfold pointwise. destruct (r p); reflexivity.
  - intros sv p. exists (mkImage [] (fun _ => true)
                           [("NDVI", pointwise Qmult (fun _ => Some (1 # 2))
                                       (fun _ => Some (inject_Z 200)))]).
    exists ((1 # 2) * 200)%Q. repeat split.
  - intros sv p bound.
    exists (Qabs bound + 2)%Q.
    exists (mkImage [] (fun _ => true)
              [("NDVI", pointwise Qmult (fun _ => Some (Qabs bound + 2)%Q)
                          (fun _ => Some (inject_Z 200)))]).
    exists ((Qabs bound + 2) * 200)%Q.
    pose proof (Qabs_nonneg bound) as Hn. pose proof (Qle_Qabs bound) as Hb.
    repeat split; try reflexivity; lra.
Qed.

Lemma estimate_carbon_storage_times_200_witness :
  exists carbon,
    eval_image Sample.two_scenes (Processor.estimate_carbon_storage IArg)
      (Some (uniform "NDVI" (1 # 2))) = inr carbon /\
    map fst (bands carbon) = map fst (bands (uniform "NDVI" (1 # 2))) /\
    forall name p,
      band_of name carbon p =
      option_map (fun v => v * 200)%Q (band_of name (uniform "NDVI" (1 # 2)) p).
Proof.
  apply (proj1 estimate_carbon_storage_times_200 Sample.two_scenes IArg
           (Some (uniform "NDVI" (1 # 2))) (uniform "NDVI" (1 # 2))).
  reflexivity.
Defined.

(** C6.  For non-negative band values with a nonzero sum, the NDVI sample the
    graph of [add_ndvi] produces is (nir - red) / (nir + red) and lies in
    [-1, 1]. *)
Theorem ndvi_within_minus_one_and_one
    (sv : service) (sc : scene) (p : pixel) (nir red : Q) :
  SR_B5 sc p = Some nir ->
  SR_B4 sc p = Some red ->
  (0 <= nir)%Q -> (0 <= red)%Q -> ~ (nir + red == 0)%Q ->
  exists img,
    eval_image sv (Processor.add_ndvi IArg) (Some (image_of_scene sc)) = inr img /\
    band_of "NDVI" img p = Some ((nir - red) / (nir + red))%Q /\
    (-1 <= (nir - red) / (nir + red) <= 1)%Q.
Proof.
  intros Hnir Hred Hn Hr Hs.
  rewrite eval_add_ndvi. eexists. split; [reflexivity|]. split.
  - unfold band_of. simpl. unfold ndvi_raster, pointwise. now rewrite Hnir, Hred.
  - apply (index_value_bounds nir red Hn Hr Hs).
Qed.

Lemma ndvi_within_minus_one_and_one_witness :
  exists img,
    eval_image Sample.two_scenes (Processor.add_ndvi IArg)
      (Some (image_of_scene Sample.january)) = inr img /\
    band_of "NDVI" img (0, 0) = Some (((3000 # 1) - (1000 # 1)) / ((3000 # 1) + (1000 # 1)))%Q /\
    (-1 <= ((3000 # 1) - (1000 # 1)) / ((3000 # 1) + (1000 # 1)) <= 1)%Q.
Proof.
  apply (ndvi_within_minus_one_and_one Sample.two_scenes Sample.january (0, 0)
           (3000 # 1) (1000 # 1)).
  - reflexivity.
  - reflexivity.
  - vm_compute. discriminate.
  - vm_compute. discriminate.
  - vm_compute. discriminate.
Defined.

End IndexAndCarbon.

(** ** Area statistics *)

Module AreaFacts.

Import Service Spec Denotation ServiceFacts.

Lemma series_samples (scs : list scene) (p : pixel) :
  map (fun i => band_of "NDVI" i p) (map ndvi_image scs) =
  map (fun r => r p) (map index_raster scs).
Proof.
  rewrite !map_map. apply map_ext. intros sc.
  unfold band_of. simpl. apply ndvi_raster_index.
Qed.

Lemma collection_mean_series (sc : scene) (rest : list scene) :
  collection_mean (map ndvi_image (sc :: rest)) =
  mkImage [] (fun g => existsb (fun i => footprint i g) (map ndvi_image (sc :: rest)))
    [("NDVI",
      fun p => mean (present (map (fun i => band_of "NDVI" i p)
                                (map ndvi_image (sc :: rest)))))].
Proof. reflexivity. Qed.

(** The carbon image of the temporal mean, for a non-empty series. *)
Lemma eval_mean_carbon (sv : service) (roi : geometry) (start stop : string)
    (sc : scene) (rest : list scene) :
  returned_scenes sv roi start stop = inr (sc :: rest) ->
  exists fp r,
    eval_image sv
      (Processor.estimate_carbon_storage
         (ICollMean (Processor.get_ndvi_time_series roi start stop))) None =
    inr (mkImage [] fp [("NDVI", r)]) /\
    forall p, r p = carbon_raster (temporal_mean (map index_raster (sc :: rest))) p.
Proof.
  intros H.
  rewrite eval_estimate_carbon_storage.
  change (eval_image sv (ICollMean (Processor.get_ndvi_time_series roi start stop)) None)
    with (and_then (eval_collection sv (Processor.get_ndvi_time_series roi start stop))
            (fun imgs => ok (collection_mean imgs))).
  rewrite eval_index_series, H. unfold and_then, ok.
  rewrite collection_mean_series, multiply_constant. cbn [bands map fst snd].
  eexists. eexists. split; [reflexivity|].
  intros p. rewrite pointwise_times_200.
  unfold carbon_raster, temporal_mean.
  do 3 f_equal. exact (series_samples (sc :: rest) p).
Qed.

Lemma region_mean_single (pixels : list pixel) (fp : geometry -> bool)
    (name : string) (r r' : raster) :
  (forall p, r p = r' p) ->
  region_mean pixels (mkImage [] fp [(name, r)]) =
  [(name, py_of (spatial_mean pixels r'))].
Proof.
  intros H. unfold region_mean, spatial_mean, py_of. simpl.
  now rewrite (map_ext r r' H).
Qed.

Lemma eval_area_statistics_error (sv : service) (roi : geometry) (start stop : string)
    (msg : string) :
  returned_scenes sv roi start stop = inl msg ->
  eval_computed sv (Processor.get_area_statistics roi start stop) = inl msg.
Proof.
  intros H.
  unfold Processor.get_area_statistics, eval_computed.
  rewrite eval_estimate_carbon_storage.
  change (eval_image sv (ICollMean (Processor.get_ndvi_time_series roi start stop)) None)
    with (and_then (eval_collection sv (Processor.get_ndvi_time_series roi start stop))
            (fun imgs => ok (collection_mean imgs))).
  rewrite eval_index_series, H. reflexivity.
Qed.

Lemma eval_area_statistics (sv : service) (roi : geometry) (start stop : string)
    (sc : scene) (rest : list scene) :
  returned_scenes sv roi start stop = inr (sc :: rest) ->
  eval_computed sv (Processor.get_area_statistics roi start stop) =
  and_then (area_statistic sv roi (sc :: rest))
    (fun v => ok (PyDict [("NDVI", py_of v)])).
Proof.
  intros H.
  destruct (eval_mean_carbon sv roi start stop sc rest H) as (fp & r & Hev & Hr).
  unfold Processor.get_area_statistics, eval_computed.
  rewrite Hev. unfold and_then at 1. unfold area_statistic.
  destruct (10 ^ 9 <? Z.of_nat (List.length (grid sv roi 30))); [reflexivity|].
  simpl. unfold ok. do 2 f_equal.
  apply region_mean_single. exact Hr.
Qed.

Lemma eval_mean_carbon_empty (sv : service) (roi : geometry) (start stop : string) :
  returned_scenes sv roi start stop = inr [] ->
  eval_image sv
    (Processor.estimate_carbon_storage
       (ICollMean (Processor.get_ndvi_time_series roi start stop))) None =
  inr (mkImage [] (fun _ => false) []).
Proof.
  intros H.
  rewrite eval_estimate_carbon_storage.
  change (eval_image sv (ICollMean (Processor.get_ndvi_time_series roi start stop)) None)
    with (and_then (eval_collection sv (Processor.get_ndvi_time_series roi start stop))
            (fun imgs => ok (collection_mean imgs))).
  rewrite eval_index_series, H. reflexivity.
Qed.

(** More sampled pixels than [maxPixels]: the reduction fails, with or
    without images. *)
Lemma eval_area_statistics_over_cap (sv : service) (roi : geometry) (start stop : string)
    (scs : list scene) :
  returned_scenes sv roi start stop = inr scs ->
  (10 ^ 9 <? Z.of_nat (List.length (grid sv roi 30))) = true ->
  eval_computed sv (Processor.get_area_statistics roi start stop) =
  inl "Image.reduceRegion: Too many pixels in the region.".
Proof.
  intros H Hcap.
  unfold Processor.get_area_statistics, eval_computed.
  destruct scs as [|sc rest].
  - rewrite (eval_mean_carbon_empty sv roi start stop H).
    unfold and_then. rewrite Hcap. reflexivity.
  - destruct (eval_mean_carbon sv roi start stop sc rest H) as (fp & r & Hev & _).
    rewrite Hev. unfold and_then. rewrite Hcap. reflexivity.
Qed.

Lemma eval_area_statistics_value (sv : service) (roi : geometry) (start stop : string)
    (sc : scene) (rest : list scene) :
  returned_scenes sv roi start stop = inr (sc :: rest) ->
  (10 ^ 9 <? Z.of_nat (List.length (grid sv roi 30))) = false ->
  eval_computed sv (Processor.get_area_statistics roi start stop) =
  inr (PyDict
         [("NDVI",
           py_of (spatial_mean (grid sv roi 30)
                    (carbon_raster (temporal_mean (map index_raster (sc :: rest))))))]).
Proof.
  intros H Hcap.
  rewrite (eval_area_statistics sv roi start stop sc rest H).
  unfold area_statistic. rewrite Hcap. reflexivity.
Qed.

(** No image in the window: the mean image has no band and the reduction
    answers the empty dictionary. *)
Lemma eval_area_statistics_empty (sv : service) (roi : geometry) (start stop : string) :
  returned_scenes sv roi start stop = inr [] ->
  (10 ^ 9 <? Z.of_nat (List.length (grid sv roi 30))) = false ->
  eval_computed sv (Processor.get_area_statistics roi start stop) = inr (PyDict []).
Proof.
  intros H Hcap.
  unfold Processor.get_area_statistics, eval_computed.
  rewrite (eval_mean_carbon_empty sv roi start stop H).
  unfold and_then. rewrite Hcap. reflexivity.
Qed.

Lemma eval_area_statistics_dict (sv : service) (roi : geometry) (start stop : string)
    (v : pyval) :
  eval_computed sv (Processor.get_area_statistics roi start stop) = inr v ->
  exists d, v = PyDict d.
Proof.
  unfold Processor.get_area_statistics, eval_computed.
  destruct (eval_image sv _ None) as [msg|img]; [discriminate|].
  unfold and_then.
  destruct (10 ^ 9 <? Z.of_nat (List.length (grid sv roi 30))); [discriminate|].
  intros H. inversion H. eexists. reflexivity.
Qed.

Lemma present_nil {A} (xs : list (option A)) :
  present xs = [] <-> (forall x, In x xs -> x = None).
Proof.
  induction xs as [|[a|] xs IH]; cbn [present].
  - split; [intros _ x []|reflexivity].
  - split; [discriminate|]. intros H. specialize (H (Some a) (or_introl eq_refl)).
    discriminate.
  - rewrite IH. split.
    + intros H x [<-|Hx]; [reflexivity|now apply H].
    + intros H x Hx. apply H. now right.
Qed.

Lemma mean_none (xs : list Q) : mean xs = None <-> xs = [].
Proof. destruct xs; split; intros H; try reflexivity; discriminate. Qed.

Lemma spatial_mean_none (pixels : list pixel) (r : raster) :
  spatial_mean pixels r = None <-> (forall p, In p pixels -> r p = None).
Proof.
  unfold spatial_mean. rewrite mean_none, present_nil. split.
  - intros H p Hp. apply H. now apply in_map.
  - intros H x Hx. apply in_map_iff in Hx. destruct Hx as (p & <- & Hp). now apply H.
Qed.

Lemma carbon_of_mean_none (rs : list raster) (p : pixel) :
  carbon_raster (temporal_mean rs) p = None <-> (forall r, In r rs -> r p = None).
Proof.
  unfold carbon_raster, temporal_mean.
  destruct (mean (present (map (fun r => r p) rs))) as [m|] eqn:Em; cbn [option_map].
  - split; [discriminate|]. intros H. exfalso.
    assert (Hn : mean (present (map (fun r => r p) rs)) = None).
    { apply mean_none, present_nil. intros x Hx.
      apply in_map_iff in Hx. destruct Hx as (r & <- & Hr). now apply H. }
    rewrite Hn in Em. discriminate.
  - split; [|reflexivity]. intros _ r Hr.
    apply mean_none in Em. apply (proj1 (present_nil _) Em).
    apply (in_map (fun r => r p)). exact Hr.
Qed.

(** The statistic is null exactly when no image has a value at any sampled
    pixel. *)
Lemma statistic_none (pixels : list pixel) (scs : list scene) :
  spatial_mean pixels (carbon_raster (temporal_mean (map index_raster scs))) = None <->
  (forall p sc, In p pixels -> In sc scs -> index_raster sc p = None).
Proof.
  rewrite spatial_mean_none. split.
  - intros H p sc Hp Hsc.
    apply (proj1 (carbon_of_mean_none _ p) (H p Hp)). now apply in_map.
  - intros H p Hp. apply carbon_of_mean_none. intros r Hr.
    apply in_map_iff in Hr. destruct Hr as (sc & <- & Hsc). now apply H.
Qed.

(** A row is null exactly when its image has no value at any sampled
    pixel. *)
Lemma row_value_none (sv : service) (roi : geometry) (sc : scene) :
  row_value sv roi sc = None <->
  (forall p, In p (grid sv roi 30) -> index_raster sc p = None).
Proof.
  unfold row_value. rewrite spatial_mean_none.
  split; intros H p Hp; specialize (H p Hp); unfold carbon_raster in *;
    destruct (index_raster sc p); try reflexivity; discriminate.
Qed.

End AreaFacts.

Section AreaStatistics.

Import Service Spec Denotation ServiceFacts AreaFacts.




End AreaStatistics.

(** ** The time-series loop *)

Module LoopFacts.

Lemma all_answered_app (w : world) (h a b : list call) :
  all_answered w h (a ++ b) = all_answered w h a && all_answered w (h ++ a) b.
Proof.
  revert h. induction a as [|c a IH]; intros h; simpl.
  - now rewrite app_nil_r.
  - destruct (w h c); [reflexivity|]. rewrite IH. now rewrite <- app_assoc.
Qed.

Lemma step_eq (roi : geometry) (series : coll_expr) (count : Z) (i : nat)
    (ds cs : list pyval) (w : world) (tr : trace) :
  Processor.time_series_step roi series count i (ds, cs) w tr =
  match w (calls_of tr) (date_call series count i) with
  | inl msg => (tr ++ [Remote (date_call series count i)], inl (EEException msg))
  | inr date =>
      let tr2 := (tr ++ [Remote (date_call series count i)]) ++
                 [Remote (reduce_call roi series count i)] in
      match w (calls_of tr ++ [date_call series count i])
              (reduce_call roi series count i) with
      | inl msg => (tr2, inl (EEException msg))
      | inr info =>
          match py_getitem info "NDVI" with
          | inl e => (tr2, inl e)
          | inr v => (tr2, inr (ds ++ [date], cs ++ [v]))
          end
      end
  end.
Proof.
  unfold Processor.time_series_step, date_call, reduce_call, bind, getInfo, remote,
    lift, ret.
  destruct (w (calls_of tr) _) as [msg|date]; [reflexivity|].
  rewrite calls_of_remote.
  destruct (w (calls_of tr ++ _) _) as [msg|info]; [reflexivity|].
  destruct (py_getitem info "NDVI"); reflexivity.
Qed.

Section Loop.

Variables (roi : geometry) (series : coll_expr) (count : Z) (w : world).

Local Abbreviation step := (Processor.time_series_step roi series count).
Local Abbreviation calls := (turn_calls roi series count).

Lemma loop_succeeds (idx : list nat) :
  forall (tr : trace) (ds cs : list pyval) (tr' : trace) (lists : list pyval * list pyval),
    for_in idx step (ds, cs) w tr = (tr', inr lists) ->
    calls_of tr' = calls_of tr ++ flat_map calls idx /\
    all_answered w (calls_of tr) (flat_map calls idx) = true /\
    List.length (fst lists) = (List.length ds + List.length idx)%nat /\
    List.length (snd lists) = (List.length cs + List.length idx)%nat.
Proof.
  induction idx as [|i idx IH]; intros tr ds cs tr' lists H.
  - cbn [for_in] in H. unfold ret in H. inversion H; subst. cbn.
    rewrite app_nil_r. repeat split; lia.
  - cbn [for_in] in H. unfold bind in H. rewrite step_eq in H.
    destruct (w (calls_of tr) _) as [msg|date] eqn:E1; [discriminate|].
    cbv zeta in H.
    destruct (w (calls_of tr ++ _) _) as [msg|info] eqn:E2; [discriminate|].
    destruct (py_getitem info "NDVI") as [e|v]; [discriminate|].
    apply IH in H. destruct H as (Hc & Ha & Hd & Hv).
    rewrite !calls_of_remote in Hc, Ha.
    cbn [flat_map]. unfold turn_calls at 1 3. cbn [app all_answered].
    rewrite E1, E2.
    rewrite !length_app in Hd, Hv. cbn [List.length] in *.
    rewrite <- !app_assoc in Hc.
    repeat split; [exact Hc | exact Ha | lia | lia].
Qed.

Lemma loop_prefix (idx : list nat) :
  forall (tr : trace) (acc : list pyval * list pyval) (tr' : trace) r,
    for_in idx step acc w tr = (tr', r) ->
    exists m, calls_of tr' = calls_of tr ++ firstn m (flat_map calls idx).
Proof.
  induction idx as [|i idx IH]; intros tr [ds cs] tr' r H.
  - cbn [for_in] in H. unfold ret in H. inversion H; subst. exists O. cbn.
    now rewrite app_nil_r.
  - cbn [for_in] in H. unfold bind in H. rewrite step_eq in H.
    cbn [flat_map]. unfold turn_calls at 1. cbn [app].
    destruct (w (calls_of tr) _) as [msg|date] eqn:E1.
    { inversion H; subst. exists 1%nat. now rewrite calls_of_remote. }
    cbv zeta in H.
    destruct (w (calls_of tr ++ _) _) as [msg|info] eqn:E2.
    { inversion H; subst. exists 2%nat. rewrite !calls_of_remote, <- app_assoc. reflexivity. }
    destruct (py_getitem info "NDVI") as [e|v].
    { inversion H; subst. exists 2%nat. rewrite !calls_of_remote, <- app_assoc. reflexivity. }
    apply IH in H. destruct H as [m Hm]. exists (S (S m)).
    rewrite Hm, !calls_of_remote, <- !app_assoc. reflexivity.
Qed.

Lemma app_eq_self_nil {A} (l m : list A) : l = l ++ m -> m = [].
Proof.
  intros H. rewrite <- (app_nil_r l) in H at 1. now apply app_inv_head in H.
Qed.

(** A round-trip that fails is the last one made, and its failure is the
    outcome of the loop. *)
Lemma loop_aborts (idx : list nat) :
  forall (tr : trace) (acc : list pyval * list pyval) (tr' : trace) r,
    for_in idx step acc w tr = (tr', r) ->
    forall pre c post msg,
      calls_of tr' = calls_of tr ++ pre ++ c :: post ->
      w (calls_of tr ++ pre) c = inl msg ->
      post = [] /\ r = inl (EEException msg).
Proof.
  induction idx as [|i idx IH]; intros tr [ds cs] tr' r H pre c post msg Hc Hw.
  - cbn [for_in] in H. unfold ret in H. inversion H; subst.
    apply app_eq_self_nil in Hc. now destruct pre.
  - cbn [for_in] in H. unfold bind in H. rewrite step_eq in H.
    destruct (w (calls_of tr) _) as [msg1|date] eqn:E1.
    { inversion H; subst. rewrite calls_of_remote in Hc.
      apply app_inv_head in Hc.
      destruct pre as [|a pre]; [|destruct pre; discriminate].
      inversion Hc; subst. rewrite app_nil_r in Hw. rewrite E1 in Hw.
      inversion Hw; subst. now split. }
    cbv zeta in H.
    destruct (w (calls_of tr ++ _) _) as [msg2|info] eqn:E2.
    { inversion H; subst. rewrite !calls_of_remote, <- app_assoc in Hc.
      apply app_inv_head in Hc.
      destruct pre as [|a [|b pre]].
      - inversion Hc; subst. rewrite app_nil_r in Hw. congruence.
      - inversion Hc; subst. rewrite E2 in Hw. inversion Hw; subst. now split.
      - destruct pre; discriminate. }
    destruct (py_getitem info "NDVI") as [e|v].
    { inversion H; subst. rewrite !calls_of_remote, <- app_assoc in Hc.
      apply app_inv_head in Hc.
      destruct pre as [|a [|b pre]].
      - inversion Hc; subst. rewrite app_nil_r in Hw. congruence.
      - inversion Hc; subst. congruence.
      - destruct pre; discriminate. }
    destruct (loop_prefix idx _ _ _ _ H) as [m Hm].
    rewrite !calls_of_remote in Hm.
    assert (Hsplit : pre ++ c :: post =
                     date_call series count i :: reduce_call roi series count i ::
                     firstn m (flat_map calls idx)).
    { apply (app_inv_head (calls_of tr)). rewrite <- Hc, Hm, <- !app_assoc. reflexivity. }
    destruct pre as [|a [|b pre]].
    + inversion Hsplit; subst. rewrite app_nil_r in Hw. congruence.
    + inversion Hsplit; subst. congruence.
    + inversion Hsplit; subst.
      apply (IH _ _ _ _ H pre c post msg).
      * rewrite Hc, !calls_of_remote, <- !app_assoc. reflexivity.
      * rewrite !calls_of_remote, <- !app_assoc. exact Hw.
Qed.

End Loop.
Lemma create_time_series_data_eq (roi : geometry) (start stop : string)
    (w : world) (tr : trace) :
  Processor.create_time_series_data roi start stop w tr =
  let series := Processor.get_ndvi_time_series roi start stop in
  match w (calls_of tr) (GetInfo (QSize series)) with
  | inl msg => (tr ++ [Remote (GetInfo (QSize series))], inl (EEException msg))
  | inr count =>
      match py_range count with
      | inl e => (tr ++ [Remote (GetInfo (QSize series))], inl e)
      | inr idx =>
          match for_in idx
                  (Processor.time_series_step roi series
                     (match count with PyInt n => n | _ => 0 end))
                  ([], []) w (tr ++ [Remote (GetInfo (QSize series))]) with
          | (tr', inr lists) => (tr', inr (mkDataFrame (fst lists) (snd lists)))
          | (tr', inl e) => (tr', inl e)
          end
      end
  end.
Proof.
  unfold Processor.create_time_series_data, bind, getInfo, remote, lift, ret.
  destruct (w (calls_of tr) _) as [msg|count]; [reflexivity|].
  destruct (py_range count) as [e|idx]; [reflexivity|].
  destruct (for_in idx _ _ w _) as [tr' [e|lists]]; reflexivity.
Qed.

Lemma length_flat_map_turns (roi : geometry) (series : coll_expr) (count : Z)
    (idx : list nat) :
  List.length (flat_map (turn_calls roi series count) idx) = (2 * List.length idx)%nat.
Proof. induction idx as [|i idx IH]; cbn [flat_map List.length app turn_calls]; lia. Qed.

End LoopFacts.

(** ** The time series against the service itself *)

Module HonestFacts.

Import Service Spec Denotation ServiceFacts AreaFacts LoopFacts.

Section Honest.

Variables (sv : service) (roi : geometry) (start stop : string) (scs : list scene).
Hypothesis Hscs : returned_scenes sv roi start stop = inr scs.
Hypothesis Hcap : (10 ^ 9 <? Z.of_nat (List.length (grid sv roi 30))) = false.

Local Abbreviation series := (Processor.get_ndvi_time_series roi start stop).
Local Abbreviation count := (Z.of_nat (List.length scs)).

Local Abbreviation value_of := (Denotation.value_of sv roi).

Lemma eval_size : eval_computed sv (QSize series) = ok (PyInt count).
Proof.
  unfold eval_computed. rewrite eval_index_series, Hscs. unfold and_then, ok.
  now rewrite length_map.
Qed.

Lemma eval_list_get (i : nat) (sc : scene) :
  nth_error scs i = Some sc ->
  eval_image sv (IListGet series count i) None = ok (ndvi_image sc).
Proof.
  intros Hi.
  change (eval_image sv (IListGet series count i) None)
    with (and_then (eval_collection sv series)
            (fun imgs =>
               match nth_error (firstn (Z.to_nat count) imgs) i with
               | Some img => ok img
               | None => fail "List.get: List index out of range."
               end)).
  rewrite eval_index_series, Hscs. unfold and_then, ok.
  rewrite Nat2Z.id, <- (length_map ndvi_image scs), firstn_all.
  now rewrite nth_error_map, Hi.
Qed.

Lemma eval_date (i : nat) (sc : scene) :
  nth_error scs i = Some sc ->
  eval_computed sv (QDateFormat (IListGet series count i) "system:time_start" "YYYY-MM-dd")
  = ok (date_of sc).
Proof.
  intros Hi. unfold eval_computed. rewrite (eval_list_get i sc Hi).
  unfold and_then, ok.
  change (dict_get (properties (ndvi_image sc)) "system:time_start")
    with (Some (inject_Z (time_start sc))).
  change (String.eqb "YYYY-MM-dd" "YYYY-MM-dd") with true.
  cbv iota. now rewrite Qfloor_Z.
Qed.

Lemma eval_reduce (i : nat) (sc : scene) :
  nth_error scs i = Some sc ->
  eval_computed sv
    (QReduceRegion (Processor.estimate_carbon_storage (IListGet series count i))
       ReducerMean roi 30 (10 ^ 9))
  = ok (PyDict [("NDVI", value_of sc)]).
Proof.
  intros Hi. unfold eval_computed.
  rewrite eval_estimate_carbon_storage, (eval_list_get i sc Hi).
  unfold and_then at 2. unfold ok at 1. rewrite multiply_constant.
  unfold and_then, ok. rewrite Hcap.
  cbn [ndvi_image bands map fst snd]. do 2 f_equal.
  apply region_mean_single. intros p.
  rewrite pointwise_times_200. unfold carbon_raster. now rewrite ndvi_raster_index.
Qed.

Lemma honest_loop (idx : list nat) :
  forall (tr : trace) (ds cs : list pyval),
    Forall (fun i => (i < List.length scs)%nat) idx ->
    snd (for_in idx (Processor.time_series_step roi series count) (ds, cs)
           (answer sv) tr) =
    inr (ds ++ map (fun i => match nth_error scs i with
                             | Some sc => date_of sc | None => PyNone end) idx,
         cs ++ map (fun i => match nth_error scs i with
                             | Some sc => value_of sc | None => PyNone end) idx).
Proof.
  induction idx as [|i idx IH]; intros tr ds cs Hall.
  - cbn. now rewrite !app_nil_r.
  - inversion Hall as [|? ? Hi Hrest]; subst.
    destruct (nth_error scs i) as [sc|] eqn:E;
      [|apply nth_error_None in E; lia].
    cbn [for_in]. unfold bind. rewrite step_eq.
    unfold answer at 1. unfold date_call. rewrite (eval_date i sc E). unfold ok.
    cbv zeta. unfold answer at 1. unfold reduce_call. rewrite (eval_reduce i sc E).
    unfold ok.
    change (py_getitem (PyDict [("NDVI", value_of sc)]) "NDVI")
      with (@inr exn _ (value_of sc)).
    cbv iota beta. rewrite IH by exact Hrest.
    cbn [map]. rewrite E, <- !app_assoc. reflexivity.
Qed.

Lemma map_nth_error_seq {A B} (f : option A -> B) (l : list A) :
  map (fun i => f (nth_error l i)) (seq 0 (List.length l)) = map (fun x => f (Some x)) l.
Proof.
  induction l as [|x l IH]; [reflexivity|].
  cbn [List.length seq map nth_error]. f_equal.
  rewrite <- seq_shift, map_map. exact IH.
Qed.

(** Against the service itself the loop cannot fail: one row per scene. *)
Lemma honest_time_series :
  snd (run (Processor.create_time_series_data roi start stop) (answer sv)) =
  inr (mkDataFrame (map date_of scs) (map value_of scs)).
Proof.
  unfold run. rewrite create_time_series_data_eq. cbv zeta. cbn [calls_of app].
  unfold answer at 1. rewrite eval_size. unfold ok.
  cbn [py_range]. rewrite Nat2Z.id.
  pose proof (honest_loop (seq 0 (List.length scs))
                [Remote (GetInfo (QSize series))] [] []) as H.
  destruct (for_in _ _ _ _ _) as [tr r].
  cbn [snd] in H. rewrite H.
  - cbn [snd fst app].
    rewrite (map_nth_error_seq
               (fun o => match o with Some sc => date_of sc | None => PyNone end)).
    rewrite (map_nth_error_seq
               (fun o => match o with Some sc => value_of sc | None => PyNone end)).
    reflexivity.
  - apply Forall_forall. intros i Hi. apply in_seq in Hi. lia.
Qed.

End Honest.
End HonestFacts.


Section TimeSeries.

Import Service Spec Denotation LoopFacts HonestFacts.

Variables (roi : geometry) (start stop : string).

Local Abbreviation series := (Processor.get_ndvi_time_series roi start stop).

(** C3.  Whatever the service answers, a returned time series has as many
    rows as the service counted images; when it counts none the result is the
    empty series, obtained without error after that single round-trip; and
    against the service itself the call does return, with one row per image
    of the window. *)
Theorem create_time_series_data_length :
  (forall (w : world) (tr : trace) (df : DataFrame),
      run (Processor.create_time_series_data roi start stop) w = (tr, inr df) ->
      exists count,
        w [] (GetInfo (QSize series)) = inr (PyInt count) /\
        df_len df = Z.to_nat count /\
        List.length (Carbon_Storage df) = Z.to_nat count) /\
  (forall (w : world),
      w [] (GetInfo (QSize series)) = inr (PyInt 0) ->
      run (Processor.create_time_series_data roi start stop) w =
      ([Remote (GetInfo (QSize series))], inr (mkDataFrame [] []))) /\
  (forall (sv : service) (scs : list scene),
      returned_scenes sv roi start stop = inr scs ->
      (10 ^ 9 <? Z.of_nat (List.length (grid sv roi 30))) = false ->
      exists df,
        snd (run (Processor.create_time_series_data roi start stop) (answer sv)) = inr df /\
        eval_computed sv (QSize series) = inr (PyInt (Z.of_nat (List.length scs))) /\
        df_len df = List.length scs).
Proof.
  split; [|split].
  - intros w tr df H. unfold run in H.
    rewrite create_time_series_data_eq in H. cbv zeta in H. cbn [calls_of app] in H.
    destruct (w [] _) as [msg|count]; [discriminate|].
    destruct count as [|n|q|s|d]; try discriminate.
    cbn [py_range] in H.
    destruct (for_in _ _ _ _ _) as [tr' [e|lists]] eqn:E; [discriminate|].
    inversion H; subst.
    destruct (loop_succeeds _ _ _ _ _ _ _ _ _ _ E) as (_ & _ & Hd & Hv).
    exists n. split; [reflexivity|].
    unfold df_len. cbn [Date Carbon_Storage].
    rewrite length_seq in Hd, Hv. cbn [List.length] in Hd, Hv. split; lia.
  - intros w H. unfold run. rewrite create_time_series_data_eq. cbv zeta.
    cbn [calls_of app]. rewrite H. reflexivity.
  - intros sv scs Hs Hcap.
    exists (mkDataFrame (map date_of scs) (map (value_of sv roi) scs)).
    split; [apply (honest_time_series sv roi start stop scs Hs Hcap)|].
    split; [apply (eval_size sv roi start stop scs Hs)|].
    unfold df_len. cbn [Date]. apply length_map.
Qed.

(** C5.  A run that returns made the size query and then, image by image,
    exactly the date request followed by the reduction request: two
    round-trips per image, all of them answered.  A round-trip that fails is
    the last one made and its failure is the outcome: no rows are returned. *)
Theorem create_time_series_data_round_trips (w : world) :
  let outcome := run (Processor.create_time_series_data roi start stop) w in
  (forall df,
      snd outcome = inr df ->
      exists count,
        w [] (GetInfo (QSize series)) = inr (PyInt count) /\
        calls_of (fst outcome) =
          time_series_calls roi start stop count (Z.to_nat count) /\
        List.length (calls_of (fst outcome)) = (1 + 2 * Z.to_nat count)%nat /\
        all_answered w [] (calls_of (fst outcome)) = true) /\
  (forall pre c post msg,
      calls_of (fst outcome) = pre ++ c :: post ->
      w pre c = inl msg ->
      post = [] /\ snd outcome = inl (EEException msg)).
Proof.
  intros outcome.
  destruct outcome as [tr r] eqn:H. unfold outcome in H. clear outcome.
  cbn [fst snd]. unfold run in H.
  rewrite create_time_series_data_eq in H. cbv zeta in H. cbn [calls_of app] in H.
  split.
  - intros df ->.
    destruct (w [] _) as [msg|count] eqn:E0; [discriminate|].
    destruct count as [|n|q|s|d]; try discriminate.
    cbn [py_range] in H.
    destruct (for_in _ _ _ _ _) as [tr' [e|lists]] eqn:E; [discriminate|].
    inversion H; subst.
    destruct (loop_succeeds _ _ _ _ _ _ _ _ _ _ E) as (Hc & Ha & _ & _).
    cbn [calls_of app] in Hc, Ha.
    exists n. split; [reflexivity|]. split; [exact Hc|]. split.
    + rewrite Hc. cbn [List.length]. rewrite length_flat_map_turns, length_seq. lia.
    + rewrite Hc. cbn [all_answered]. rewrite E0. exact Ha.
  - intros pre c post msg Hc Hw.
    destruct (w [] _) as [msg0|count] eqn:E0.
    { inversion H; subst. cbn [calls_of] in Hc.
      destruct pre as [|a pre]; [|destruct pre; discriminate].
      inversion Hc; subst. rewrite E0 in Hw. inversion Hw; subst. now split. }
    destruct (py_range count) as [e|idx] eqn:Er.
    { inversion H; subst. cbn [calls_of] in Hc.
      destruct pre as [|a pre]; [|destruct pre; discriminate].
      inversion Hc; subst. congruence. }
    destruct (for_in _ _ _ _ _) as [tr' r'] eqn:E.
    assert (Hr : forall e, r' = inl e -> r = inl e).
    { intros e ->. now inversion H. }
    assert (Htr : tr = tr') by (destruct r'; now inversion H). subst tr'.
    destruct (loop_prefix _ _ _ _ _ _ _ _ _ E) as [m Hm].
    cbn [calls_of app] in Hm.
    destruct pre as [|a pre].
    + rewrite Hm in Hc. inversion Hc; subst. congruence.
    + rewrite Hm in Hc. inversion Hc; subst a.
      destruct (loop_aborts _ _ _ _ _ _ _ _ _ E pre c post msg) as [Hp Hf].
      * cbn [calls_of app]. rewrite Hm. now f_equal.
      * exact Hw.
      * split; [exact Hp | apply Hr, Hf].
Qed.

End TimeSeries.

Lemma create_time_series_data_length_witness :
  exists df,
    snd (run (Processor.create_time_series_data App.roi "2024-01-01" "2024-12-31")
           (Service.answer Sample.two_scenes)) = inr df /\
    Service.eval_computed Sample.two_scenes
      (QSize (Processor.get_ndvi_time_series App.roi "2024-01-01" "2024-12-31")) =
    inr (PyInt (Z.of_nat (List.length [Sample.june; Sample.january]))) /\
    df_len df = List.length [Sample.june; Sample.january].
Proof.
  apply (proj2 (proj2 (create_time_series_data_length App.roi "2024-01-01" "2024-12-31"))
           Sample.two_scenes [Sample.june; Sample.january]).
  - vm_compute. reflexivity.
  - vm_compute. reflexivity.
Defined.

Lemma create_time_series_data_round_trips_witness :
  exists count,
    Service.answer Sample.two_scenes []
      (GetInfo (QSize (Processor.get_ndvi_time_series App.roi "2024-01-01" "2024-12-31")))
    = inr (PyInt count) /\
    calls_of (fst (run (Processor.create_time_series_data App.roi "2024-01-01" "2024-12-31")
                     (Service.answer Sample.two_scenes))) =
    time_series_calls App.roi "2024-01-01" "2024-12-31" count (Z.to_nat count) /\
    List.length
      (calls_of (fst (run (Processor.create_time_series_data App.roi
                             "2024-01-01" "2024-12-31")
                        (Service.answer Sample.two_scenes)))) =
    (1 + 2 * Z.to_nat count)%nat /\
    all_answered (Service.answer Sample.two_scenes) []
      (calls_of (fst (run (Processor.create_time_series_data App.roi
                             "2024-01-01" "2024-12-31")
                        (Service.answer Sample.two_scenes)))) = true.
Proof.
  apply (proj1 (create_time_series_data_round_trips App.roi "2024-01-01" "2024-12-31"
                  (Service.answer Sample.two_scenes))
           (mkDataFrame (map Denotation.date_of [Sample.june; Sample.january])
              (map (Denotation.value_of Sample.two_scenes App.roi)
                 [Sample.june; Sample.january]))).
  vm_compute. reflexivity.
Defined.

(** ** The dashboard script *)

Module AppFacts.
Import LoopFacts.

Lemma init_eq (w : world) (tr : trace) :
  Processor.init w tr =
  match w (calls_of tr) EeInitialize with
  | inr _ => (tr ++ [Remote EeInitialize], inr tt)
  | inl _ =>
      let tr2 := (tr ++ [Remote EeInitialize]) ++ [Remote EeAuthenticate] in
      match w (calls_of tr ++ [EeInitialize]) EeAuthenticate with
      | inl msg =>
          (tr2 ++ [Shown (Print ("Error initializing Earth Engine: " +++ msg))],
           inl (EEException msg))
      | inr _ =>
          match w ((calls_of tr ++ [EeInitialize]) ++ [EeAuthenticate]) EeInitialize with
          | inr _ => (tr2 ++ [Remote EeInitialize], inr tt)
          | inl msg =>
              ((tr2 ++ [Remote EeInitialize]) ++
               [Shown (Print ("Error initializing Earth Engine: " +++ msg))],
               inl (EEException msg))
          end
      end
  end.
Proof.
  unfold Processor.init, try_except_bare, try_except, bind, remote, show, raise, ret.
  destruct (w (calls_of tr) EeInitialize); [|reflexivity].
  rewrite !calls_of_remote.
  destruct (w (calls_of tr ++ [EeInitialize]) EeAuthenticate); [reflexivity|].
  rewrite ?calls_of_remote.
  destruct (w ((calls_of tr ++ [EeInitialize]) ++ [EeAuthenticate]) EeInitialize);
    reflexivity.
Qed.

Lemma map_view_never_raises (start stop : string) (w : world) (tr : trace) :
  exists tr' m,
    App.map_view start stop w tr = (tr', inr tt) /\ (1 <= m)%nat /\
    calls_of tr' = calls_of tr ++ firstn m (map_calls start stop).
Proof.
  unfold App.map_view, try_except, bind, remote, show, map_calls.
  destruct (w (calls_of tr) _) as [msg|v1].
  - cbn [is_Exception]. eexists. exists 1%nat. split; [reflexivity|]. split; [lia|].
    now rewrite calls_of_shown, calls_of_remote.
  - rewrite calls_of_remote. destruct (w (calls_of tr ++ _) _) as [msg|v2].
    + cbn [is_Exception]. eexists. exists 2%nat. split; [reflexivity|]. split; [lia|].
      now rewrite calls_of_shown, !calls_of_remote, <- app_assoc.
    + eexists. exists 2%nat. split; [reflexivity|]. split; [lia|].
      now rewrite calls_of_shown, !calls_of_remote, <- app_assoc.
Qed.

Lemma py_getitem_exception v key e : py_getitem v key = inl e -> is_Exception e = true.
Proof.
  destruct v; cbn; intros H; try (inversion H; reflexivity).
  destruct (dict_get d key); inversion H; reflexivity.
Qed.

Lemma float_of_int_exception n e : float_of_int n = inl e -> is_Exception e = true.
Proof.
  unfold float_of_int.
  destruct (Qle_bool _ _); intros H; inversion H; reflexivity.
Qed.

Lemma py_format_f_exception d v e : py_format_f d v = inl e -> is_Exception e = true.
Proof.
  destruct v as [|n|q|x|x]; cbn [py_format_f]; intros H; try (inversion H; reflexivity).
  destruct (float_of_int n) as [e'|q] eqn:En; inversion H; subst.
  eapply float_of_int_exception; eassumption.
Qed.

Lemma float_op_exception symbol op a b e :
  (forall x y e', op x y = inl e' -> is_Exception e' = true) ->
  float_op symbol op a b = inl e -> is_Exception e = true.
Proof.
  intros Hop. unfold float_op.
  destruct (py_float a) as [[ea|x]|] eqn:Ea.
  - destruct a; inversion Ea.
    destruct (py_float b); intros H; inversion H; subst;
      [eapply float_of_int_exception; eassumption | reflexivity].
  - destruct (py_float b) as [[eb|y]|] eqn:Eb.
    + destruct b; inversion Eb. intros H; inversion H; subst.
      eapply float_of_int_exception; eassumption.
    + destruct (op x y) as [e'|r] eqn:Eo; intros H; inversion H; subst.
      eapply Hop; eassumption.
    + intros H; inversion H; reflexivity.
  - intros H; inversion H; reflexivity.
Qed.

Lemma py_truediv_exception a b e : py_truediv a b = inl e -> is_Exception e = true.
Proof.
  assert (Hop : forall x y e',
             (if Qeq_bool y 0 then inl (ZeroDivisionError "float division by zero")
              else inr (x / y)%Q) = inl e' -> is_Exception e' = true).
  { intros x y e'. destruct (Qeq_bool y 0); intros H; inversion H; reflexivity. }
  unfold py_truediv.
  destruct a as [|x|x|x|x], b as [|y|y|y|y];
    try (apply float_op_exception; exact Hop).
  destruct (y =? 0); [intros H; inversion H; reflexivity|].
  destruct (Qle_bool _ _); intros H; inversion H; reflexivity.
Qed.

Lemma py_mul_exception a b e : py_mul a b = inl e -> is_Exception e = true.
Proof.
  assert (Hop : forall x y e', @inr exn Q (x * y)%Q = inl e' -> is_Exception e' = true).
  { intros x y e' H; inversion H. }
  unfold py_mul.
  destruct a as [|x|x|x|x], b as [|y|y|y|y];
    try (apply (float_op_exception "*" (fun x y => inr (x * y)%Q)); exact Hop).
  intros H; inversion H.
Qed.

Lemma py_range_exception v e : py_range v = inl e -> is_Exception e = true.
Proof. destruct v; cbn; intros H; inversion H; reflexivity. Qed.

Lemma statistics_view_never_raises (start stop : string) (w : world) (tr : trace) :
  exists tr' m,
    App.statistics_view start stop w tr = (tr', inr tt) /\ (1 <= m)%nat /\
    calls_of tr' = calls_of tr ++ firstn m (statistics_calls start stop).
Proof.
  unfold App.statistics_view, try_except, bind, getInfo, remote, show, lift,
    statistics_calls.
  destruct (w (calls_of tr) _) as [msg|stats_dict].
  { cbn [is_Exception]. eexists. exists 1%nat. split; [reflexivity|]. split; [lia|].
    now rewrite calls_of_shown, calls_of_remote. }
  destruct (py_getitem stats_dict "NDVI") as [e|density] eqn:Eg.
  { rewrite (py_getitem_exception _ _ _ Eg).
    eexists. exists 1%nat. split; [reflexivity|]. split; [lia|].
    now rewrite calls_of_shown, calls_of_remote. }
  destruct (py_format_f 1 density) as [e|shown] eqn:Ef.
  { rewrite (py_format_f_exception _ _ _ Ef).
    eexists. exists 1%nat. split; [reflexivity|]. split; [lia|].
    now rewrite calls_of_shown, calls_of_remote. }
  rewrite calls_of_shown, calls_of_remote.
  destruct (w (calls_of tr ++ _) _) as [msg|square_metres].
  { cbn [is_Exception]. eexists. exists 2%nat. split; [reflexivity|]. split; [lia|].
    now rewrite calls_of_shown, calls_of_remote, calls_of_shown, calls_of_remote,
      <- app_assoc. }
  destruct (py_truediv square_metres (PyInt 10000)) as [e|area] eqn:Ed.
  { rewrite (py_truediv_exception _ _ _ Ed).
    eexists. exists 2%nat. split; [reflexivity|]. split; [lia|].
    now rewrite calls_of_shown, calls_of_remote, calls_of_shown, calls_of_remote,
      <- app_assoc. }
  destruct (py_mul density area) as [e|total] eqn:Em.
  { rewrite (py_mul_exception _ _ _ Em).
    eexists. exists 2%nat. split; [reflexivity|]. split; [lia|].
    now rewrite calls_of_shown, calls_of_remote, calls_of_shown, calls_of_remote,
      <- app_assoc. }
  destruct (py_format_f 0 total) as [e|shown2] eqn:Ef2.
  { rewrite (py_format_f_exception _ _ _ Ef2).
    eexists. exists 2%nat. split; [reflexivity|]. split; [lia|].
    now rewrite calls_of_shown, calls_of_remote, calls_of_shown, calls_of_remote,
      <- app_assoc. }
  eexists. exists 2%nat. split; [reflexivity|]. split; [lia|].
  now rewrite calls_of_shown, calls_of_remote, calls_of_shown, calls_of_remote,
    <- app_assoc.
Qed.

Section LoopException.

Variables (roi : geometry) (series : coll_expr) (count : Z) (w : world).

Lemma loop_exception (idx : list nat) :
  forall (tr : trace) (acc : list pyval * list pyval) (tr' : trace) (e : exn),
    for_in idx (Processor.time_series_step roi series count) acc w tr = (tr', inl e) ->
    is_Exception e = true.
Proof.
  induction idx as [|i idx IH]; intros tr [ds cs] tr' e H.
  - cbn [for_in] in H. unfold ret in H. discriminate.
  - cbn [for_in] in H. unfold bind in H. rewrite step_eq in H.
    destruct (w (calls_of tr) _) as [msg|date]; [now inversion H|].
    cbv zeta in H.
    destruct (w (calls_of tr ++ _) _) as [msg|info]; [now inversion H|].
    destruct (py_getitem info "NDVI") as [e'|v] eqn:Eg.
    + inversion H; subst. exact (py_getitem_exception _ _ _ Eg).
    + exact (IH _ _ _ _ H).
Qed.

End LoopException.

Lemma create_time_series_data_shape (roi : geometry) (start stop : string)
    (w : world) (tr tr' : trace) (r : exn + DataFrame) :
  Processor.create_time_series_data roi start stop w tr = (tr', r) ->
  (forall e, r = inl e -> is_Exception e = true) /\
  exists m count n,
    (1 <= m)%nat /\
    calls_of tr' = calls_of tr ++ firstn m (time_series_calls roi start stop count n).
Proof.
  intros H. rewrite create_time_series_data_eq in H. cbv zeta in H.
  destruct (w (calls_of tr) _) as [msg|count].
  { inversion H; subst. split; [intros e He; now inversion He|].
    exists 1%nat, 0, O. split; [lia|]. now rewrite calls_of_remote. }
  destruct (py_range count) as [e|idx] eqn:Er.
  { inversion H; subst. split.
    - intros e' He. inversion He; subst. exact (py_range_exception _ _ Er).
    - exists 1%nat, 0, O. split; [lia|]. now rewrite calls_of_remote. }
  destruct (for_in _ _ _ _ _) as [tr2 r2] eqn:E.
  assert (Hidx : exists n, idx = seq 0 n).
  { destruct count; cbn in Er; inversion Er. eauto. }
  destruct Hidx as [n ->].
  destruct (loop_prefix _ _ _ _ _ _ _ _ _ E) as [m Hm].
  rewrite calls_of_remote, <- app_assoc in Hm.
  split.
  - intros e He. subst r. destruct r2 as [e2|lists]; inversion H; subst.
    exact (loop_exception _ _ _ _ _ _ _ _ _ E).
  - exists (S m), (match count with PyInt k => k | _ => 0 end), n.
    split; [lia|].
    assert (tr' = tr2) as -> by (destruct r2; now inversion H).
    exact Hm.
Qed.

Lemma time_series_view_never_raises (start stop : string) (w : world) (tr : trace) :
  exists tr' m count n,
    App.time_series_view start stop w tr = (tr', inr tt) /\ (1 <= m)%nat /\
    calls_of tr' = calls_of tr ++ firstn m (time_series_calls App.roi start stop count n).
Proof.
  unfold App.time_series_view, try_except, bind.
  destruct (Processor.create_time_series_data App.roi start stop w tr) as [tr1 r] eqn:E.
  destruct (create_time_series_data_shape _ _ _ _ _ _ _ E) as (Hex & m & count & n & Hm & Hc).
  destruct r as [e|df].
  - rewrite (Hex e eq_refl). unfold show.
    eexists. exists m, count, n. split; [reflexivity|]. split; [exact Hm|].
    now rewrite calls_of_shown.
  - unfold show. eexists. exists m, count, n. split; [reflexivity|]. split; [exact Hm|].
    now rewrite calls_of_shown.
Qed.


Lemma main_startup_failure (w : world) (date_range : list date) (msg : string) :
  w [] EeInitialize = inl msg ->
  run (App.main date_range) w =
  ([Remote EeInitialize; Shown (StError (App.authentication_required msg))],
   inl StopException).
Proof.
  intros H. unfold run, App.main, App.initialize_earth_engine.
  unfold bind at 1. unfold try_except, bind, remote. cbn [calls_of].
  rewrite H. reflexivity.
Qed.

Lemma main_after_startup (w : world) (date_range : list date) (v : pyval) :
  w [] EeInitialize = inr v ->
  run (App.main date_range) w =
  match Processor.init w preamble with
  | (tr, inl e) =>
      if is_Exception e
      then (tr ++ [Shown (StError ("Error initializing Earth Engine: " +++ str_exn e));
                   Shown (StInfo "Please follow the authentication steps above.")],
            inl StopException)
      else (tr, inl e)
  | (tr, inr _) =>
      let tr3 := tr ++ [Shown (StColumns 2); Shown (StSubheader "Carbon Storage Map")] in
      match tuple_getitem date_range 1 with
      | inl e => (tr3, inl e)
      | inr last =>
          match tuple_getitem date_range 0 with
          | inl e => (tr3, inl e)
          | inr first =>
              let start_date := strftime_Ymd first in
              let end_date := strftime_Ymd last in
              match App.map_view start_date end_date w tr3 with
              | (tr4, inl e) => (tr4, inl e)
              | (tr4, inr _) =>
                  match App.statistics_view start_date end_date w
                          (tr4 ++ [Shown (StSubheader "Carbon Storage Statistics")]) with
                  | (tr5, inl e) => (tr5, inl e)
                  | (tr5, inr _) =>
                      match App.time_series_view start_date end_date w
                              (tr5 ++ [Shown (StSubheader "Carbon Storage Over Time")]) with
                      | (tr6, inl e) => (tr6, inl e)
                      | (tr6, inr _) =>
                          (tr6 ++ [Shown (StMarkdown "---");
                                   Shown (StMarkdown "
<div style='text-align: center'>
    <p>Data source: Landsat 8 via Google Earth Engine</p>
    <p>Developed by Xunia Labs for TNC</p>
</div>
")],
                           inr tt)
                      end
                  end
              end
          end
      end
  end.
Proof.
  intros H. unfold run, App.main, App.initialize_earth_engine, App.init_processor.
  unfold bind at 1. unfold try_except at 1. unfold bind at 1. unfold remote at 1.
  cbn [calls_of]. rewrite H. unfold ret at 1. cbv beta iota.
  do 5 (unfold bind at 1; unfold show at 1; cbv beta iota).
  cbn [app]. fold preamble.
  unfold bind at 1. unfold try_except at 1.
  destruct (Processor.init w preamble) as [tr [e|u]].
  { destruct (is_Exception e); [|reflexivity].
    unfold bind, show, App.st_stop, raise. rewrite <- app_assoc. reflexivity. }
  do 2 (unfold bind at 1; unfold show at 1; cbv beta iota).
  rewrite <- app_assoc. cbn [app].
  unfold bind at 1. unfold lift at 1.
  destruct (tuple_getitem date_range 1) as [e|last]; [reflexivity|].
  unfold bind at 1. unfold lift at 1.
  destruct (tuple_getitem date_range 0) as [e|first]; [reflexivity|].
  cbv zeta.
  unfold bind at 1.
  destruct (App.map_view _ _ w _) as [tr4 [e|u4]]; [reflexivity|].
  unfold bind at 1; unfold show at 1; cbv beta iota.
  unfold bind at 1.
  destruct (App.statistics_view _ _ w _) as [tr5 [e|u5]]; [reflexivity|].
  unfold bind at 1; unfold show at 1; cbv beta iota.
  unfold bind at 1.
  destruct (App.time_series_view _ _ w _) as [tr6 [e|u6]]; [reflexivity|].
  unfold bind, show. rewrite <- app_assoc. destruct u6. reflexivity.
Qed.


Lemma filter_queries_app (a b : list call) :
  filter is_query (a ++ b) = filter is_query a ++ filter is_query b.
Proof. apply filter_app. Qed.

Lemma init_makes_no_query (w : world) (tr0 tr : trace) (r : exn + unit) :
  Processor.init w tr0 = (tr, r) ->
  filter is_query (calls_of tr) = filter is_query (calls_of tr0) /\
  (forall e, r = inl e -> is_Exception e = true).
Proof.
  rewrite init_eq. intros H.
  destruct (w (calls_of tr0) EeInitialize).
  - cbv zeta in H. destruct (w (calls_of tr0 ++ [EeInitialize]) EeAuthenticate).
    + inversion H; subst. split; [|intros e He; now inversion He].
      rewrite calls_of_shown, !calls_of_remote, !filter_queries_app. cbn.
      now rewrite !app_nil_r.
    + destruct (w _ EeInitialize); inversion H; subst.
      * split; [|intros e He; now inversion He].
        rewrite calls_of_shown, !calls_of_remote, !filter_queries_app. cbn.
        now rewrite !app_nil_r.
      * split; [|intros e He; now inversion He].
        rewrite !calls_of_remote, !filter_queries_app. cbn. now rewrite !app_nil_r.
  - inversion H; subst. split; [|intros e He; now inversion He].
    rewrite !calls_of_remote, !filter_queries_app. cbn. now rewrite !app_nil_r.
Qed.

Lemma tuple_of_two (date_range : list date) (first last : date) :
  tuple_getitem date_range 1 = inr last ->
  tuple_getitem date_range 0 = inr first ->
  exists rest, date_range = first :: last :: rest.
Proof.
  destruct date_range as [|a [|b rest]]; cbn; intros H1 H0; try discriminate.
  inversion H1; inversion H0; subst. now exists rest.
Qed.

Lemma filter_all_queries (l : list call) :
  Forall (fun c => is_query c = true) l -> filter is_query l = l.
Proof.
  induction 1 as [|c l Hc _ IH]; cbn; [reflexivity|]. now rewrite Hc, IH.
Qed.

Lemma Forall_firstn {A} (P : A -> Prop) (m : nat) (l : list A) :
  Forall P l -> Forall P (firstn m l).
Proof.
  intros H. revert m. induction H as [|x l Hx _ IH]; intros [|m]; cbn; auto.
Qed.

Lemma map_calls_queries s e : Forall (fun c => is_query c = true) (map_calls s e).
Proof. repeat constructor. Qed.

Lemma statistics_calls_queries s e :
  Forall (fun c => is_query c = true) (statistics_calls s e).
Proof. repeat constructor. Qed.

Lemma time_series_calls_queries roi s e count n :
  Forall (fun c => is_query c = true) (time_series_calls roi s e count n).
Proof.
  unfold time_series_calls. constructor; [reflexivity|].
  apply Forall_flat_map. apply Forall_forall. intros i _. repeat constructor.
Qed.

(** The queries of a run of the script, in order. *)
Lemma main_queries (w : world) (date_range : list date) :
  ((exists e, snd (run (App.main date_range) w) = inl e) /\
   filter is_query (calls_of (fst (run (App.main date_range) w))) = []) \/
  exists first last rest m1 m2 m3 count n,
    date_range = first :: last :: rest /\
    (1 <= m1)%nat /\ (1 <= m2)%nat /\ (1 <= m3)%nat /\
    snd (run (App.main date_range) w) = inr tt /\
    filter is_query (calls_of (fst (run (App.main date_range) w))) =
    firstn m1 (map_calls (strftime_Ymd first) (strftime_Ymd last)) ++
    firstn m2 (statistics_calls (strftime_Ymd first) (strftime_Ymd last)) ++
    firstn m3 (time_series_calls App.roi (strftime_Ymd first) (strftime_Ymd last) count n).
Proof.
  destruct (w [] EeInitialize) as [msg|v] eqn:E0.
  { left. rewrite (main_startup_failure w date_range msg E0). split; [eexists; reflexivity|reflexivity]. }
  rewrite (main_after_startup w date_range v E0).
  destruct (Processor.init w preamble) as [tr [e|u]] eqn:Ei.
  { destruct (init_makes_no_query _ _ _ _ Ei) as [Hq Hex].
    rewrite (Hex e eq_refl). left. cbn [fst snd]. split; [eexists; reflexivity|].
    now rewrite calls_of_app, filter_queries_app, Hq. }
  destruct (init_makes_no_query _ _ _ _ Ei) as [Hq _].
  cbv zeta.
  destruct (tuple_getitem date_range 1) as [e|last] eqn:E1.
  { left. cbn [fst snd]. split; [eexists; reflexivity|].
    now rewrite calls_of_app, filter_queries_app, Hq. }
  destruct (tuple_getitem date_range 0) as [e|first] eqn:E2.
  { left. cbn [fst snd]. split; [eexists; reflexivity|].
    now rewrite calls_of_app, filter_queries_app, Hq. }
  destruct (tuple_of_two _ _ _ E1 E2) as [rest Hdr].
  right. exists first, last, rest.
  destruct (map_view_never_raises (strftime_Ymd first) (strftime_Ymd last) w
              (tr ++ [Shown (StColumns 2); Shown (StSubheader "Carbon Storage Map")]))
    as (tr4 & m1 & E4 & Hm1 & Hc4).
  rewrite E4.
  destruct (statistics_view_never_raises (strftime_Ymd first) (strftime_Ymd last) w
              (tr4 ++ [Shown (StSubheader "Carbon Storage Statistics")]))
    as (tr5 & m2 & E5 & Hm2 & Hc5).
  rewrite E5.
  destruct (time_series_view_never_raises (strftime_Ymd first) (strftime_Ymd last) w
              (tr5 ++ [Shown (StSubheader "Carbon Storage Over Time")]))
    as (tr6 & m3 & count & n & E6 & Hm3 & Hc6).
  rewrite E6.
  exists m1, m2, m3, count, n. cbn [fst snd].
  repeat (split; [assumption || reflexivity|]).
  rewrite calls_of_app. cbn [calls_of]. rewrite app_nil_r.
  rewrite Hc6, calls_of_shown, Hc5, calls_of_shown, Hc4, calls_of_app.
  cbn [calls_of]. rewrite app_nil_r.
  rewrite !filter_queries_app, Hq. cbn [preamble calls_of filter is_query app].
  rewrite (filter_all_queries _ (Forall_firstn _ m1 _ (map_calls_queries _ _))).
  rewrite (filter_all_queries _ (Forall_firstn _ m2 _ (statistics_calls_queries _ _))).
  rewrite (filter_all_queries _ (Forall_firstn _ m3 _ (time_series_calls_queries _ _ _ _ _))).
  rewrite <- ?app_assoc. reflexivity.
Qed.


Lemma in_firstn {A} (m : nat) (l : list A) (x : A) : In x (firstn m l) -> In x l.
Proof.
  revert m. induction l as [|y l IH]; intros [|m]; cbn; try (intros []; fail).
  intros [->|H]; [now left | right; eauto].
Qed.

Lemma NoDup_firstn {A} (m : nat) (l : list A) : NoDup l -> NoDup (firstn m l).
Proof.
  intros H. revert m. induction H as [|x l Hx _ IH]; intros [|m]; cbn;
    try constructor; auto.
  intros Hin. apply Hx. exact (in_firstn _ _ _ Hin).
Qed.

Lemma NoDup_views (a b : list call) (i : nat) :
  NoDup a -> NoDup b ->
  Forall (fun c => view_of c = i) a -> Forall (fun c => view_of c <> i) b ->
  NoDup (a ++ b).
Proof.
  intros Ha Hb Fa Fb. induction Ha as [|x a Hx Ha IH]; cbn; [exact Hb|].
  inversion Fa; subst. constructor; [|auto].
  intros Hin. apply in_app_or in Hin. destruct Hin as [Hin|Hin]; [auto|].
  rewrite Forall_forall in Fb. now apply Fb in Hin.
Qed.

Lemma NoDup_turns (roi : geometry) (series : coll_expr) (count : Z) (idx : list nat) :
  NoDup idx -> NoDup (flat_map (turn_calls roi series count) idx).
Proof.
  induction 1 as [|i idx Hi _ IH]; cbn [flat_map]; [constructor|].
  unfold turn_calls at 1. cbn [app].
  assert (Hd : forall c, In c (flat_map (turn_calls roi series count) idx) ->
                         exists j, In j idx /\
                                   (c = date_call series count j \/
                                    c = reduce_call roi series count j)).
  { intros c Hc. apply in_flat_map in Hc. destruct Hc as (j & Hj & Hc).
    exists j. split; [exact Hj|]. cbn in Hc. intuition auto. }
  constructor; [|constructor; [|exact IH]].
  - intros [Heq|Hin]; [discriminate|].
    destruct (Hd _ Hin) as (j & Hj & [E|E]); inversion E; subst; auto.
  - intros Hin. destruct (Hd _ Hin) as (j & Hj & [E|E]); inversion E; subst; auto.
Qed.

Lemma NoDup_time_series_calls roi s e count n :
  NoDup (time_series_calls roi s e count n).
Proof.
  unfold time_series_calls. constructor.
  - intros Hin. apply in_flat_map in Hin. destruct Hin as (j & _ & Hc).
    cbn in Hc. destruct Hc as [E|[E|[]]]; discriminate.
  - apply NoDup_turns, seq_NoDup.
Qed.

Lemma view_of_time_series_calls roi s e count n :
  Forall (fun c => view_of c = 3%nat) (time_series_calls roi s e count n).
Proof.
  unfold time_series_calls. constructor; [reflexivity|].
  apply Forall_flat_map. apply Forall_forall. intros i _. repeat constructor.
Qed.

Lemma NoDup_main_queries (w : world) (date_range : list date) :
  NoDup (filter is_query (calls_of (fst (run (App.main date_range) w)))).
Proof.
  destruct (main_queries w date_range)
    as [[_ ->]|(first & last & rest & m1 & m2 & m3 & count & n & _ & _ & _ & _ & _ & ->)];
    [constructor|].
  apply (NoDup_views _ _ 1%nat).
  - apply NoDup_firstn. repeat constructor; cbn; intuition discriminate.
  - apply (NoDup_views _ _ 2%nat).
    + apply NoDup_firstn. repeat constructor; cbn; intuition discriminate.
    + apply NoDup_firstn, NoDup_time_series_calls.
    + apply Forall_firstn. repeat constructor.
    + apply Forall_firstn.
      eapply Forall_impl; [|apply view_of_time_series_calls].
      cbn. intros c ->. discriminate.
  - apply Forall_firstn. repeat constructor.
  - apply Forall_app. split; apply Forall_firstn.
    + repeat constructor; discriminate.
    + eapply Forall_impl; [|apply view_of_time_series_calls].
      cbn. intros c ->. discriminate.
Qed.

End AppFacts.

Module ScriptFacts.

Import AppFacts.

(** Once the processor exists and two dates were picked, the script runs to
    its end whatever the service answers. *)
Lemma main_completes (w : world) (date_range : list date)
    (first last : date) (rest : list date) (v : pyval) :
  w [] EeInitialize = inr v ->
  snd (Processor.init w preamble) = inr tt ->
  date_range = first :: last :: rest ->
  snd (run (App.main date_range) w) = inr tt.
Proof.
  intros E0 Ei ->. rewrite (main_after_startup w _ v E0).
  destruct (Processor.init w preamble) as [tr r]. cbn [snd] in Ei. subst r.
  cbv zeta. cbn [tuple_getitem nth_error].
  destruct (map_view_never_raises (strftime_Ymd first) (strftime_Ymd last) w
              (tr ++ [Shown (StColumns 2); Shown (StSubheader "Carbon Storage Map")]))
    as (tr4 & m1 & E4 & _).
  rewrite E4.
  destruct (statistics_view_never_raises (strftime_Ymd first) (strftime_Ymd last) w
              (tr4 ++ [Shown (StSubheader "Carbon Storage Statistics")]))
    as (tr5 & m2 & E5 & _).
  rewrite E5.
  destruct (time_series_view_never_raises (strftime_Ymd first) (strftime_Ymd last) w
              (tr5 ++ [Shown (StSubheader "Carbon Storage Over Time")]))
    as (tr6 & m3 & count & n & E6 & _).
  rewrite E6. reflexivity.
Qed.

(** A failing constructor stops the script. *)
Lemma main_constructor_failure (w : world) (date_range : list date)
    (v : pyval) (tr : trace) (e : exn) :
  w [] EeInitialize = inr v ->
  Processor.init w preamble = (tr, inl e) ->
  run (App.main date_range) w =
  (tr ++ [Shown (StError ("Error initializing Earth Engine: " +++ str_exn e));
          Shown (StInfo "Please follow the authentication steps above.")],
   inl StopException).
Proof.
  intros E0 Ei. rewrite (main_after_startup w _ v E0), Ei.
  destruct (init_makes_no_query _ _ _ _ Ei) as [_ Hex].
  now rewrite (Hex e eq_refl).
Qed.

(** Every window mentioned by a query of the three views is the one given. *)
Lemma view_windows (s e : string) (count : Z) (n : nat) :
  Forall (fun c => forall win, In win (call_windows c) -> win = (s, e))
    (map_calls s e ++ statistics_calls s e ++ time_series_calls App.roi s e count n).
Proof.
  assert (H1 : forall win : string * string, In win [(s, e)] -> win = (s, e)).
  { intros win [<-|[]]. reflexivity. }
  assert (H0 : forall win : string * string, In win [] -> win = (s, e)).
  { intros win []. }
  apply Forall_app. split; [repeat constructor; assumption|].
  apply Forall_app. split; [repeat constructor; assumption|].
  unfold time_series_calls. constructor; [exact H1|].
  apply Forall_flat_map. apply Forall_forall. intros i _.
  repeat constructor; exact H1.
Qed.

End ScriptFacts.

Section TimeOrder.

Import Service.

(** C4.  With two images in the window, the later one less cloudy, the rows
    come back in ascending cloud cover: the June row precedes the January
    row, and that is the frame the line chart receives. *)
Theorem time_series_rows_follow_cloud_cover :
  exists values,
    snd (run (Processor.create_time_series_data App.roi "2024-01-01" "2024-12-31")
           (answer Sample.two_scenes)) =
    inr (mkDataFrame [PyStr "2024-06-01"; PyStr "2024-01-01"] values) /\
    chronological [PyStr "2024-06-01"; PyStr "2024-01-01"] = false /\
    In (Shown (StPlotlyChart
                 (mkFigure (mkDataFrame [PyStr "2024-06-01"; PyStr "2024-01-01"] values)
                    "Date" "Carbon_Storage" "Carbon Storage Trends"
                    [("Carbon_Storage", "Carbon Storage (tons/ha)")])))
       (fst (run (App.main [mkDate 2024 1 1; mkDate 2024 12 31])
               (answer Sample.two_scenes))).
Proof.
  eexists. split; [vm_compute; reflexivity|]. split; [vm_compute; reflexivity|].
  vm_compute. repeat first [left; reflexivity | right].
Qed.

End TimeOrder.

Section Failures.

Import AppFacts ScriptFacts.

(** C7, as stated, fails: the constructor makes a failed initialisation a
    second time, after authenticating, and the retry succeeds; the same
    happens inside the script when the start-up check had passed. *)
Lemma initialisation_is_retried :
  retried Sample.flaky_start (calls_of (fst (run Processor.init Sample.flaky_start))) /\
  snd (run Processor.init Sample.flaky_start) = inr tt /\
  retried Sample.flaky_constructor
    (calls_of (fst (run (App.main [mkDate 2024 1 1; mkDate 2024 12 31])
                      Sample.flaky_constructor))).
Proof.
  split; [|split].
  - exists [], EeInitialize, [EeAuthenticate], [],
      "Please authorize access to your Earth Engine account.".
    split; reflexivity.
  - reflexivity.
  - exists [EeInitialize], EeInitialize, [EeAuthenticate].
    eexists. exists "Transient failure.".
    split; [vm_compute; reflexivity | reflexivity].
Qed.

(** C7, amended.  A failure of the start-up check is shown once, with the
    set-up instructions, and stops the script before anything else happens.
    The constructor makes a failed initialisation once more after
    authenticating and raises only if that fails too; in the script such a
    failure is reported and also stops the run.  No query is ever made twice.
    Once the processor exists and two dates are picked, the script runs to
    its end whatever the queries answer. *)
Theorem authentication_failures_and_retries :
  (forall (w : world) (date_range : list date) (msg : string),
      w [] EeInitialize = inl msg ->
      run (App.main date_range) w =
      ([Remote EeInitialize; Shown (StError (App.authentication_required msg))],
       inl StopException)) /\
  (forall (w : world),
      run Processor.init w =
      match w [] EeInitialize with
      | inr _ => ([Remote EeInitialize], inr tt)
      | inl _ =>
          match w [EeInitialize] EeAuthenticate with
          | inl msg =>
              ([Remote EeInitialize; Remote EeAuthenticate;
                Shown (Print ("Error initializing Earth Engine: " +++ msg))],
               inl (EEException msg))
          | inr _ =>
              match w [EeInitialize; EeAuthenticate] EeInitialize with
              | inr _ =>
                  ([Remote EeInitialize; Remote EeAuthenticate; Remote EeInitialize],
                   inr tt)
              | inl msg =>
                  ([Remote EeInitialize; Remote EeAuthenticate; Remote EeInitialize;
                    Shown (Print ("Error initializing Earth Engine: " +++ msg))],
                   inl (EEException msg))
              end
          end
      end) /\
  (forall (w : world) (date_range : list date) (v : pyval) (tr : trace) (e : exn),
      w [] EeInitialize = inr v ->
      Processor.init w preamble = (tr, inl e) ->
      run (App.main date_range) w =
      (tr ++ [Shown (StError ("Error initializing Earth Engine: " +++ str_exn e));
              Shown (StInfo "Please follow the authentication steps above.")],
       inl StopException)) /\
  (forall (w : world) (date_range : list date),
      NoDup (filter is_query (calls_of (fst (run (App.main date_range) w))))) /\
  (forall (w : world) (first last : date) (rest : list date) (v : pyval),
      w [] EeInitialize = inr v ->
      snd (Processor.init w preamble) = inr tt ->
      snd (run (App.main (first :: last :: rest)) w) = inr tt).
Proof.
  split; [exact main_startup_failure|].
  split.
  { intros w. unfold run. rewrite init_eq. cbn [calls_of app].
    destruct (w [] EeInitialize); [|reflexivity]. cbv zeta.
    destruct (w [EeInitialize] EeAuthenticate); [reflexivity|].
    destruct (w [EeInitialize; EeAuthenticate] EeInitialize); reflexivity. }
  split; [exact main_constructor_failure|].
  split; [exact NoDup_main_queries|].
  intros w first last rest v E0 Ei.
  exact (main_completes w _ first last rest v E0 Ei eq_refl).
Qed.

Lemma authentication_failures_and_retries_witness :
  run (App.main [mkDate 2024 1 1; mkDate 2024 12 31]) Sample.flaky_start =
    ([Remote EeInitialize;
      Shown (StError (App.authentication_required
                        "Please authorize access to your Earth Engine account."))],
     inl StopException) /\
  snd (run (App.main [mkDate 2024 1 1; mkDate 2024 12 31; mkDate 2025 1 1])
         Sample.flaky_constructor) = inr tt.
Proof.
  split.
  - apply (proj1 authentication_failures_and_retries Sample.flaky_start).
    reflexivity.
  - apply (proj2 (proj2 (proj2 (proj2 authentication_failures_and_retries)))
             Sample.flaky_constructor (mkDate 2024 1 1) (mkDate 2024 12 31)
             [mkDate 2025 1 1] PyNone).
    + reflexivity.
    + vm_compute. reflexivity.
Defined.

(** C8, as stated, fails: with the later date first, the script sends the
    statistics query filtered by that reversed window; nothing checks it. *)
Lemma reversed_window_reaches_service :
  existsb malformed
    (calls_of (fst (run (App.main [mkDate 2024 12 31; mkDate 2024 1 1])
                      (Service.answer Sample.two_scenes)))) = true /\
  In (GetInfo (Processor.get_area_statistics App.roi "2024-12-31" "2024-01-01"))
     (calls_of (fst (run (App.main [mkDate 2024 12 31; mkDate 2024 1 1])
                       (Service.answer Sample.two_scenes)))) /\
  malformed (GetInfo (Processor.get_area_statistics App.roi "2024-12-31" "2024-01-01"))
  = true.
Proof.
  split; [vm_compute; reflexivity|]. split; [|vm_compute; reflexivity].
  vm_compute. repeat first [left; reflexivity | right].
Qed.

End Failures.

(** ** Means and the scale factor *)

Module MeanFacts.
Import Service Spec Denotation.

Lemma Qsum_scale (c : Q) (xs : list Q) :
  (Qsum (map (fun x => x * c) xs) == Qsum xs * c)%Q.
Proof.
  unfold Qsum. induction xs as [|x xs IH]; cbn [map fold_right]; [ring | rewrite IH; ring].
Qed.

Lemma Qsum_ext {A} (f g : A -> Q) (l : list A) :
  (forall x, In x l -> (f x == g x)%Q) ->
  (Qsum (map f l) == Qsum (map g l))%Q.
Proof.
  unfold Qsum. induction l as [|x l IH]; intros H; cbn [map fold_right]; [reflexivity|].
  rewrite (H x (or_introl eq_refl)), IH; [reflexivity|].
  intros y Hy. apply H. now right.
Qed.

Lemma Qsum_plus {A} (f g : A -> Q) (l : list A) :
  (Qsum (map (fun x => f x + g x) l) == Qsum (map f l) + Qsum (map g l))%Q.
Proof.
  unfold Qsum. induction l as [|x l IH]; cbn [map fold_right]; [ring | rewrite IH; ring].
Qed.

Lemma Qsum_zero {A} (l : list A) : (Qsum (map (fun _ => 0) l) == 0)%Q.
Proof.
  unfold Qsum. induction l as [|x l IH]; cbn [map fold_right]; [reflexivity | rewrite IH; ring].
Qed.

(** Summing over images then pixels, or pixels then images. *)
Lemma Qsum_exchange {A B} (f : A -> B -> Q) (la : list A) (lb : list B) :
  (Qsum (map (fun a => Qsum (map (f a) lb)) la) ==
   Qsum (map (fun b => Qsum (map (fun a => f a b) la)) lb))%Q.
Proof.
  induction la as [|a la IH]; cbn [map Qsum fold_right].
  - now rewrite Qsum_zero.
  - fold (Qsum (map (fun a0 => Qsum (map (f a0) lb)) la)).
    rewrite IH, <- Qsum_plus. apply Qsum_ext. intros b _. reflexivity.
Qed.

Lemma Qsum_carbon (xs : list Q) :
  (Qsum (map carbon_estimate xs) == carbon_estimate (Qsum xs))%Q.
Proof. exact (Qsum_scale 200 xs). Qed.

Lemma mean_scale (xs : list Q) :
  opt_Qeq (mean (map carbon_estimate xs)) (option_map carbon_estimate (mean xs)).
Proof.
  destruct xs as [|x xs]; [exact I|].
  change (Qsum (map carbon_estimate (x :: xs)) /
            inject_Z (Z.of_nat (List.length (map carbon_estimate (x :: xs))))
          == carbon_estimate (Qsum (x :: xs) / inject_Z (Z.of_nat (List.length (x :: xs)))))%Q.
  rewrite length_map, Qsum_carbon. unfold carbon_estimate. field.
  cbn [List.length]. intros H. unfold Qeq in H. cbn in H. lia.
Qed.

Lemma present_carbon {A} (r : A -> option Q) (l : list A) :
  present (map (fun p => option_map carbon_estimate (r p)) l) =
  map carbon_estimate (present (map r l)).
Proof.
  induction l as [|x l IH]; cbn; [reflexivity|].
  destruct (r x); cbn; now rewrite IH.
Qed.


Lemma temporal_mean_scale (series : list raster) (p : pixel) :
  opt_Qeq (temporal_mean (map carbon_raster series) p)
          (carbon_raster (temporal_mean series) p).
Proof.
  unfold temporal_mean, carbon_raster. rewrite map_map.
  rewrite (present_carbon (fun r : raster => r p) series). apply mean_scale.
Qed.

Lemma spatial_mean_scale (pixels : list pixel) (r : raster) :
  opt_Qeq (spatial_mean pixels (carbon_raster r))
          (option_map carbon_estimate (spatial_mean pixels r)).
Proof.
  unfold spatial_mean, carbon_raster. rewrite present_carbon. apply mean_scale.
Qed.

Lemma opt_Qeq_refl (a : option Q) : opt_Qeq a a.
Proof. destruct a; cbn; [reflexivity | exact I]. Qed.

Lemma opt_Qeq_trans (a b c : option Q) : opt_Qeq a b -> opt_Qeq b c -> opt_Qeq a c.
Proof.
  destruct a, b, c; cbn; try tauto. intros H1 H2. now rewrite H1.
Qed.

Lemma mean_present_ext {A} (r r' : A -> option Q) (l : list A) :
  (forall x, opt_Qeq (r x) (r' x)) ->
  opt_Qeq (mean (present (map r l))) (mean (present (map r' l))).
Proof.
  intros H.
  assert (Hs : List.length (present (map r l)) = List.length (present (map r' l)) /\
               (Qsum (present (map r l)) == Qsum (present (map r' l)))%Q).
  { unfold Qsum. induction l as [|x l [IHl IHs]]; cbn [map present];
      [split; reflexivity|].
    specialize (H x). destruct (r x), (r' x); cbn in H; try contradiction.
    - cbn [List.length fold_right]. split; [now rewrite IHl | now rewrite H, IHs].
    - now split. }
  destruct Hs as [Hl Hs].
  destruct (present (map r l)) as [|y ys] eqn:E1, (present (map r' l)) as [|z zs] eqn:E2;
    try discriminate; [exact I|].
  unfold mean, opt_Qeq. now rewrite Hl, Hs.
Qed.

Lemma temporal_mean_single (r : raster) (p : pixel) :
  opt_Qeq (temporal_mean [r] p) (r p).
Proof.
  unfold temporal_mean. cbn [map present]. destruct (r p) as [x|]; [|exact I].
  unfold mean, Qsum, opt_Qeq. cbn. field.
Qed.

(** One image: the area statistic is that image's row value. *)
Lemma area_of_single (sv : service) (roi : geometry) (sc : scene) :
  opt_Qeq
    (spatial_mean (grid sv roi 30) (carbon_raster (temporal_mean [index_raster sc])))
    (row_value sv roi sc).
Proof.
  unfold row_value, spatial_mean. apply mean_present_ext. intros p.
  unfold carbon_raster.
  pose proof (temporal_mean_single (index_raster sc) p) as H.
  destruct (temporal_mean [index_raster sc] p), (index_raster sc p); cbn in *;
    try contradiction; [|exact I].
  unfold carbon_estimate. now rewrite H.
Qed.

Section Coverage.

Variables (pixels : list pixel) (scs : list scene).
Hypothesis Hpixels : pixels <> [].
Hypothesis Hscs : scs <> [].
Hypothesis Hcover :
  forall sc p, In sc scs -> In p pixels -> index_raster sc p <> None.

Lemma covered (sc : scene) (p : pixel) :
  In sc scs -> In p pixels -> index_raster sc p = Some (sample sc p).
Proof.
  intros Hs Hp. unfold sample. specialize (Hcover sc p Hs Hp).
  now destruct (index_raster sc p).
Qed.

Lemma present_all {A} (r : A -> option Q) (f : A -> Q) (l : list A) :
  (forall x, In x l -> r x = Some (f x)) -> present (map r l) = map f l.
Proof.
  induction l as [|x l IH]; intros H; cbn [map present]; [reflexivity|].
  rewrite (H x (or_introl eq_refl)), IH; [reflexivity|].
  intros y Hy. apply H. now right.
Qed.

Lemma count_of_nonzero {A} (l : list A) : l <> [] -> ~ (count_of l == 0)%Q.
Proof.
  destruct l; [congruence|]. intros _ H. unfold count_of, Qeq in H. cbn in H. lia.
Qed.

Lemma mean_nonempty {A} (f : A -> Q) (l : list A) :
  l <> [] -> mean (map f l) = Some (Qsum (map f l) / count_of l)%Q.
Proof.
  destruct l as [|x l]; [congruence|]. intros _. unfold mean, count_of.
  cbn [map]. cbn [List.length]. now rewrite length_map.
Qed.

Lemma row_value_covered (sc : scene) :
  In sc scs ->
  spatial_mean pixels (carbon_raster (index_raster sc)) =
  Some (Qsum (map (fun p => carbon_estimate (sample sc p)) pixels) / count_of pixels)%Q.
Proof.
  intros Hs. unfold spatial_mean, carbon_raster. rewrite present_carbon.
  rewrite (present_all (index_raster sc) (sample sc)) by (intros p Hp; now apply covered).
  rewrite map_map. now apply mean_nonempty.
Qed.

Lemma temporal_mean_covered (p : pixel) :
  In p pixels ->
  temporal_mean (map index_raster scs) p =
  Some (Qsum (map (fun sc => sample sc p) scs) / count_of scs)%Q.
Proof.
  intros Hp. unfold temporal_mean. rewrite map_map.
  rewrite (present_all (fun sc => index_raster sc p) (fun sc => sample sc p))
    by (intros sc Hs; now apply covered).
  now apply mean_nonempty.
Qed.

Lemma area_covered :
  spatial_mean pixels (carbon_raster (temporal_mean (map index_raster scs))) =
  Some (Qsum (map (fun p => carbon_estimate
                              (Qsum (map (fun sc => sample sc p) scs) / count_of scs))
                pixels) / count_of pixels)%Q.
Proof.
  unfold spatial_mean, carbon_raster. rewrite present_carbon.
  rewrite (present_all (temporal_mean (map index_raster scs))
             (fun p => Qsum (map (fun sc => sample sc p) scs) / count_of scs)%Q)
    by (intros p Hp; now apply temporal_mean_covered).
  rewrite map_map. now apply mean_nonempty.
Qed.

(** With every pixel of the region defined in every image, the mean of the
    rows is the area statistic. *)
Lemma mean_of_rows_covered :
  (Qsum (map (fun sc => Qsum (map (fun p => carbon_estimate (sample sc p)) pixels)
                        / count_of pixels) scs) / count_of scs ==
   Qsum (map (fun p => carbon_estimate
                         (Qsum (map (fun sc => sample sc p) scs) / count_of scs))
           pixels) / count_of pixels)%Q.
Proof.
  pose proof (count_of_nonzero pixels Hpixels) as HP.
  pose proof (count_of_nonzero scs Hscs) as HN.
  assert (E1 : (Qsum (map (fun sc => Qsum (map (fun p => carbon_estimate (sample sc p)) pixels)
                                     / count_of pixels) scs) ==
                Qsum (map (fun sc => Qsum (map (sample sc) pixels)) scs)
                * (200 / count_of pixels))%Q).
  { rewrite <- Qsum_scale, map_map. apply Qsum_ext. intros sc _. cbv beta.
    rewrite <- (map_map (sample sc) carbon_estimate), Qsum_carbon.
    unfold carbon_estimate. field. exact HP. }
  assert (E2 : (Qsum (map (fun p => carbon_estimate
                                      (Qsum (map (fun sc => sample sc p) scs) / count_of scs))
                        pixels) ==
                Qsum (map (fun p => Qsum (map (fun sc => sample sc p) scs)) pixels)
                * (200 / count_of scs))%Q).
  { rewrite <- Qsum_scale, map_map. apply Qsum_ext. intros p _. cbv beta.
    unfold carbon_estimate. field. exact HN. }
  rewrite E1, E2, (Qsum_exchange sample scs pixels). field. now split.
Qed.

End Coverage.
End MeanFacts.

Module ReadFacts.

Import LoopFacts.

Section Reads.

Variables (roi : geometry) (series : coll_expr) (count : Z) (w : world).

Local Abbreviation read_from_NDVI := (read_from_NDVI w roi series count).

Lemma loop_reads_NDVI (idx : list nat) :
  forall (tr : trace) (ds cs : list pyval) (tr' : trace) (lists : list pyval * list pyval),
    for_in idx (Processor.time_series_step roi series count) (ds, cs) w tr =
      (tr', inr lists) ->
    Forall read_from_NDVI cs ->
    Forall read_from_NDVI (snd lists).
Proof.
  induction idx as [|i idx IH]; intros tr ds cs tr' lists H Hcs.
  - cbn [for_in] in H. unfold ret in H. inversion H; subst. exact Hcs.
  - cbn [for_in] in H. unfold bind in H. rewrite step_eq in H.
    destruct (w (calls_of tr) _) as [msg|date]; [discriminate|].
    cbv zeta in H.
    destruct (w (calls_of tr ++ _) _) as [msg|info] eqn:E2; [discriminate|].
    destruct (py_getitem info "NDVI") as [e|v] eqn:Eg; [discriminate|].
    apply (IH _ _ _ _ _ H). apply Forall_app. split; [exact Hcs|].
    constructor; [|constructor]. now exists (calls_of tr ++ [date_call series count i]), i, info.
Qed.

End Reads.

End ReadFacts.

Section Means.

Import Service Spec Denotation ServiceFacts AreaFacts HonestFacts MeanFacts.

(** C9, as stated, fails: with one image defined on part of the region only,
    the area statistic (50) is not the average (100) of the two rows. *)
Lemma area_statistic_is_not_the_mean_of_rows :
  exists a v1 v2 dates,
    eval_computed Sample.masked_scenes
      (Processor.get_area_statistics App.roi "2024-01-01" "2024-12-31") =
    inr (PyDict [("NDVI", PyFloat a)]) /\
    snd (run (Processor.create_time_series_data App.roi "2024-01-01" "2024-12-31")
           (answer Sample.masked_scenes)) =
    inr (mkDataFrame dates [PyFloat v1; PyFloat v2]) /\
    (a == 50)%Q /\ ((v1 + v2) / 2 == 100)%Q /\ ~ (a == (v1 + v2) / 2)%Q.
Proof.
  do 4 eexists. split; [vm_compute; reflexivity|]. split; [vm_compute; reflexivity|].
  split; [reflexivity|]. split; [reflexivity|]. intros H. discriminate H.
Qed.

(** C9, amended.  Multiplying by 200 commutes with the temporal mean and with
    the spatial mean.  When the window holds one image, the area statistic is
    that image's row value.  When every sampled pixel of the region is defined
    in every image of the window, the area statistic is the mean of the
    row values. *)
Theorem scaling_commutes_with_means :
  (forall (series : list raster) (p : pixel),
      opt_Qeq (temporal_mean (map carbon_raster series) p)
              (carbon_raster (temporal_mean series) p)) /\
  (forall (pixels : list pixel) (r : raster),
      opt_Qeq (spatial_mean pixels (carbon_raster r))
              (option_map carbon_estimate (spatial_mean pixels r))) /\
  (forall (sv : service) (roi : geometry) (start stop : string) (sc : scene),
      returned_scenes sv roi start stop = inr [sc] ->
      (10 ^ 9 <? Z.of_nat (List.length (grid sv roi 30))) = false ->
      exists a v,
        eval_computed sv (Processor.get_area_statistics roi start stop) =
          inr (PyDict [("NDVI", py_of a)]) /\
        snd (run (Processor.create_time_series_data roi start stop) (answer sv)) =
          inr (mkDataFrame [date_of sc] [py_of v]) /\
        opt_Qeq a v) /\
  (forall (sv : service) (roi : geometry) (start stop : string) (scs : list scene),
      returned_scenes sv roi start stop = inr scs ->
      (10 ^ 9 <? Z.of_nat (List.length (grid sv roi 30))) = false ->
      scs <> [] ->
      grid sv roi 30 <> [] ->
      (forall sc p, In sc scs -> In p (grid sv roi 30) -> index_raster sc p <> None) ->
      exists a rows m,
        eval_computed sv (Processor.get_area_statistics roi start stop) =
          inr (PyDict [("NDVI", PyFloat a)]) /\
        snd (run (Processor.create_time_series_data roi start stop) (answer sv)) =
          inr (mkDataFrame (map date_of scs) (map PyFloat rows)) /\
        mean rows = Some m /\
        (a == m)%Q).
Proof.
  split; [exact temporal_mean_scale|]. split; [exact spatial_mean_scale|]. split.
  - intros sv roi start stop sc Hs Hcap.
    exists (spatial_mean (grid sv roi 30)
              (carbon_raster (temporal_mean (map index_raster [sc])))),
           (row_value sv roi sc).
    split; [|split].
    + rewrite (eval_area_statistics sv roi start stop sc [] Hs).
      unfold area_statistic. now rewrite Hcap.
    + exact (honest_time_series sv roi start stop [sc] Hs Hcap).
    + apply area_of_single.
  - intros sv roi start stop scs Hs Hcap Hne Hpx Hcov.
    unfold row_value in *. set (pixels := grid sv roi 30) in *.
    pose (row := fun sc =>
                   (Qsum (map (fun p => carbon_estimate (sample sc p)) pixels)
                    / count_of pixels)%Q).
    exists (Qsum (map (fun p => carbon_estimate
                                  (Qsum (map (fun sc => sample sc p) scs) / count_of scs))
                    pixels) / count_of pixels)%Q,
           (map row scs),
           (Qsum (map row scs) / count_of scs)%Q.
    split; [|split; [|split]].
    + destruct scs as [|sc rest]; [congruence|].
      rewrite (eval_area_statistics sv roi start stop sc rest Hs).
      unfold area_statistic. fold pixels. rewrite Hcap. unfold and_then, ok.
      now rewrite (area_covered pixels (sc :: rest) Hpx Hne Hcov).
    + rewrite (honest_time_series sv roi start stop scs Hs Hcap).
      do 2 f_equal. rewrite map_map. apply map_ext_in. intros sc Hin.
      unfold value_of, row_value. fold pixels.
      now rewrite (row_value_covered pixels scs Hpx Hcov sc Hin).
    + now apply mean_nonempty.
    + symmetry. exact (mean_of_rows_covered pixels scs Hpx Hne).
Qed.

Lemma scaling_commutes_with_means_witness :
  (exists a v,
      eval_computed Sample.two_scenes
        (Processor.get_area_statistics App.roi "2024-01-01" "2024-02-01") =
        inr (PyDict [("NDVI", py_of a)]) /\
      snd (run (Processor.create_time_series_data App.roi "2024-01-01" "2024-02-01")
             (answer Sample.two_scenes)) =
        inr (mkDataFrame [date_of Sample.january] [py_of v]) /\
      opt_Qeq a v) /\
  (exists a rows m,
      eval_computed Sample.two_scenes
        (Processor.get_area_statistics App.roi "2024-01-01" "2024-12-31") =
        inr (PyDict [("NDVI", PyFloat a)]) /\
      snd (run (Processor.create_time_series_data App.roi "2024-01-01" "2024-12-31")
             (answer Sample.two_scenes)) =
        inr (mkDataFrame (map date_of [Sample.june; Sample.january]) (map PyFloat rows)) /\
      mean rows = Some m /\
      (a == m)%Q).
Proof.
  split.
  - apply (proj1 (proj2 (proj2 scaling_commutes_with_means))
             Sample.two_scenes App.roi "2024-01-01" "2024-02-01" Sample.january).
    + vm_compute. reflexivity.
    + vm_compute. reflexivity.
  - apply (proj2 (proj2 (proj2 scaling_commutes_with_means))
             Sample.two_scenes App.roi "2024-01-01" "2024-12-31"
             [Sample.june; Sample.january]).
    + vm_compute. reflexivity.
    + vm_compute. reflexivity.
    + discriminate.
    + vm_compute. discriminate.
    + intros sc p [<-|[<-|[]]] _; vm_compute; discriminate.
Defined.

End Means.

Section FieldName.

Import Service Spec Denotation ServiceFacts AreaFacts HonestFacts LoopFacts AppFacts
  ReadFacts.

Ltac find_event :=
  solve [repeat first [apply in_or_app; right; left; reflexivity | apply in_or_app; left]].




End FieldName.

(** * Further properties of the processor and of the dashboard *)

(** ** The order of the series *)

Module OrderFacts.
Import Service Spec Denotation ServiceFacts.

Lemma insert_scene_perm (x : scene) (l : list scene) :
  Permutation (insert_scene x l) (x :: l).
Proof.
  induction l as [|y l IH]; cbn [insert_scene]; [reflexivity|].
  destruct (Qle_bool (cloud_cover x) (cloud_cover y)); [reflexivity|].
  rewrite IH. apply perm_swap.
Qed.

Lemma by_cloud_cover_perm (l : list scene) : Permutation (by_cloud_cover l) l.
Proof.
  unfold by_cloud_cover. induction l as [|x l IH]; cbn [fold_right]; [reflexivity|].
  rewrite insert_scene_perm. now constructor.
Qed.

Lemma insert_scene_sorted (x : scene) (l : list scene) :
  StronglySorted less_cloudy l -> StronglySorted less_cloudy (insert_scene x l).
Proof.
  induction 1 as [|y l Hl IH Hy]; cbn [insert_scene].
  - repeat constructor.
  - destruct (Qle_bool (cloud_cover x) (cloud_cover y)) eqn:E.
    + apply Qle_bool_iff in E. constructor; [now constructor|].
      constructor; [exact E|].
      eapply Forall_impl; [|exact Hy]. intros z Hz. unfold less_cloudy in *.
      now apply Qle_trans with (cloud_cover y).
    + assert (Hyx : less_cloudy y x).
      { unfold less_cloudy. apply Qlt_le_weak, Qnot_le_lt. intros H.
        apply Qle_bool_iff in H. congruence. }
      constructor; [exact IH|].
      rewrite (insert_scene_perm x l). now constructor.
Qed.

Lemma by_cloud_cover_sorted (l : list scene) :
  StronglySorted less_cloudy (by_cloud_cover l).
Proof.
  unfold by_cloud_cover. induction l as [|x l IH]; cbn [fold_right]; [constructor|].
  now apply insert_scene_sorted.
Qed.

End OrderFacts.

(** ** Bounds *)

Module BoundFacts.

Import Service Spec Denotation ServiceFacts.

Lemma index_value_bounds_all (nir red : Q) :
  (0 <= nir)%Q -> (0 <= red)%Q -> (-1 <= index_value nir red <= 1)%Q.
Proof.
  intros Hn Hr.
  destruct (Qeq_dec (nir + red) 0) as [H0|H0]; [|now apply index_value_bounds].
  unfold index_value, Qdiv. rewrite H0.
  change (/ 0)%Q with 0%Q. rewrite Qmult_0_r. split; discriminate.
Qed.

Lemma Qsum_bounds (lo hi : Q) (xs : list Q) :
  Forall (fun x => lo <= x <= hi)%Q xs ->
  (lo * count_of xs <= Qsum xs <= hi * count_of xs)%Q.
Proof.
  unfold count_of, Qsum.
  induction 1 as [|x xs [Hl Hh] _ IH]; cbn [fold_right List.length].
  - cbn. split; ring_simplify; apply Qle_refl.
  - rewrite Nat2Z.inj_succ, <- Z.add_1_r, inject_Z_plus.
    destruct IH as [IHl IHh]. split.
    + ring_simplify. ring_simplify in IHl. lra.
    + ring_simplify. ring_simplify in IHh. lra.
Qed.

Lemma mean_bounds (lo hi : Q) (xs : list Q) (m : Q) :
  Forall (fun x => lo <= x <= hi)%Q xs ->
  mean xs = Some m -> (lo <= m <= hi)%Q.
Proof.
  intros Hall Hm. destruct xs as [|x xs]; [discriminate|].
  unfold mean in Hm. inversion Hm; subst m. clear Hm.
  pose proof (Qsum_bounds lo hi (x :: xs) Hall) as [Hl Hh].
  fold (count_of (x :: xs)).
  assert (Hpos : (0 < count_of (x :: xs))%Q).
  { unfold count_of, Qlt. cbn. lia. }
  split.
  - apply Qle_shift_div_l; assumption.
  - apply Qle_shift_div_r; assumption.
Qed.

Lemma present_Forall {A} (P : Q -> Prop) (r : A -> option Q) (l : list A) :
  (forall x v, In x l -> r x = Some v -> P v) -> Forall P (present (map r l)).
Proof.
  induction l as [|x l IH]; intros H; cbn [map present]; [constructor|].
  destruct (r x) as [v|] eqn:E.
  - constructor; [apply (H x v); [now left | exact E]|].
    apply IH. intros y w Hy. apply H. now right.
  - apply IH. intros y w Hy. apply H. now right.
Qed.

Lemma carbon_sample_bounded (scs : list scene) (pixels : list pixel) (sc : scene)
    (p : pixel) (v : Q) :
  (forall sc p nir red,
      In sc scs -> In p pixels ->
      SR_B5 sc p = Some nir -> SR_B4 sc p = Some red ->
      (0 <= nir)%Q /\ (0 <= red)%Q) ->
  In sc scs -> In p pixels ->
  index_raster sc p = Some v -> (-1 <= v <= 1)%Q.
Proof.
  intros Hpos Hsc Hp Hv. unfold index_raster in Hv.
  destruct (SR_B5 sc p) as [nir|] eqn:E5; [|discriminate].
  destruct (SR_B4 sc p) as [red|] eqn:E4; [|discriminate].
  inversion Hv; subst v.
  destruct (Hpos sc p nir red Hsc Hp E5 E4) as [Hn Hr].
  exact (index_value_bounds_all nir red Hn Hr).
Qed.

End BoundFacts.

(** ** Exceptions of the time-series loop *)

Module RaiseFacts.

Import LoopFacts.

Lemma py_getitem_NDVI_raises (info : pyval) (e : exn) :
  py_getitem info "NDVI" = inl e -> raised_by_time_series e.
Proof.
  unfold raised_by_time_series.
  destruct info; cbn; intros H; try (inversion H; right; left; eauto; fail).
  destruct (dict_get d "NDVI"); inversion H. now right; right.
Qed.

Lemma loop_raises (roi : geometry) (series : coll_expr) (count : Z) (w : world)
    (idx : list nat) :
  forall (tr : trace) (acc : list pyval * list pyval) (tr' : trace) (e : exn),
    for_in idx (Processor.time_series_step roi series count) acc w tr = (tr', inl e) ->
    raised_by_time_series e.
Proof.
  induction idx as [|i idx IH]; intros tr [ds cs] tr' e H.
  - cbn [for_in] in H. unfold ret in H. discriminate.
  - cbn [for_in] in H. unfold bind in H. rewrite step_eq in H.
    destruct (w (calls_of tr) _) as [msg|date]; [inversion H; left; eauto|].
    cbv zeta in H.
    destruct (w (calls_of tr ++ _) _) as [msg|info]; [inversion H; left; eauto|].
    destruct (py_getitem info "NDVI") as [e'|v] eqn:Eg.
    + inversion H; subst. exact (py_getitem_NDVI_raises _ _ Eg).
    + exact (IH _ _ _ _ H).
Qed.

End RaiseFacts.

(** ** The views *)

Module ViewFacts.
Import LoopFacts AppFacts ScriptFacts.

Lemma truediv_10000 (a : Q) :
  py_truediv (PyFloat a) (PyInt 10000) = inr (PyFloat (binary64 (a / 10000)%Q)).
Proof.
  unfold py_truediv, float_op. cbn [py_float].
  replace (float_of_int 10000) with (@inr exn Q 10000%Q) by (vm_compute; reflexivity).
  reflexivity.
Qed.

Lemma loop_extends (roi : geometry) (series : coll_expr) (count : Z) (w : world)
    (idx : list nat) :
  forall (tr : trace) (acc : list pyval * list pyval) (tr' : trace) r,
    for_in idx (Processor.time_series_step roi series count) acc w tr = (tr', r) ->
    exists delta, tr' = tr ++ delta.
Proof.
  induction idx as [|i idx IH]; intros tr [ds cs] tr' r H.
  - cbn [for_in] in H. unfold ret in H. inversion H; subst. exists []. now rewrite app_nil_r.
  - cbn [for_in] in H. unfold bind in H. rewrite step_eq in H.
    destruct (w (calls_of tr) _) as [msg|date]; [inversion H; eauto|].
    cbv zeta in H.
    destruct (w (calls_of tr ++ _) _) as [msg|info];
      [inversion H; rewrite <- app_assoc; eauto|].
    destruct (py_getitem info "NDVI") as [e'|v];
      [inversion H; rewrite <- app_assoc; eauto|].
    apply IH in H. destruct H as [delta ->]. rewrite <- !app_assoc. eauto.
Qed.

(** The chart view always asks for the size of the series first, and returns. *)
Lemma time_series_view_starts (start stop : string) (w : world) (tr : trace) :
  exists delta,
    App.time_series_view start stop w tr =
    (tr ++ Remote (GetInfo (QSize (Processor.get_ndvi_time_series App.roi start stop)))
        :: delta, inr tt).
Proof.
  unfold App.time_series_view, try_except, bind.
  rewrite create_time_series_data_eq. cbv zeta.
  destruct (w (calls_of tr) _) as [msg|count].
  { cbn [is_Exception]. unfold show. rewrite <- app_assoc. eexists; reflexivity. }
  destruct (py_range count) as [e|idx] eqn:Er.
  { rewrite (py_range_exception _ _ Er). unfold show. rewrite <- app_assoc. eexists; reflexivity. }
  destruct (for_in _ _ _ _ _) as [tr2 [e|lists]] eqn:E.
  - rewrite (loop_exception _ _ _ _ _ _ _ _ _ E). unfold show.
    destruct (loop_extends _ _ _ _ _ _ _ _ _ E) as [delta ->].
    rewrite <- !app_assoc. eexists; reflexivity.
  - unfold show. destruct (loop_extends _ _ _ _ _ _ _ _ _ E) as [delta ->].
    rewrite <- !app_assoc. eexists; reflexivity.
Qed.

(** The statistics view always sends its query first, and returns. *)
Lemma statistics_view_starts (start stop : string) (w : world) (tr : trace) :
  exists delta,
    App.statistics_view start stop w tr =
    (tr ++ Remote (GetInfo (Processor.get_area_statistics App.roi start stop)) :: delta,
     inr tt).
Proof.
  unfold App.statistics_view, try_except, bind, getInfo, remote, show, lift.
  destruct (w (calls_of tr) _) as [msg|stats_dict].
  { cbn [is_Exception]. rewrite <- app_assoc. eexists; reflexivity. }
  destruct (py_getitem stats_dict "NDVI") as [e|density] eqn:Eg.
  { rewrite (py_getitem_exception _ _ _ Eg). rewrite <- app_assoc. eexists; reflexivity. }
  destruct (py_format_f 1 density) as [e|shown] eqn:Ef.
  { rewrite (py_format_f_exception _ _ _ Ef). rewrite <- app_assoc. eexists; reflexivity. }
  destruct (w (calls_of _) _) as [msg|square_metres].
  { cbn [is_Exception]. rewrite <- !app_assoc. eexists; reflexivity. }
  destruct (py_truediv square_metres (PyInt 10000)) as [e|area] eqn:Ed.
  { rewrite (py_truediv_exception _ _ _ Ed). rewrite <- !app_assoc. eexists; reflexivity. }
  destruct (py_mul density area) as [e|total] eqn:Em.
  { rewrite (py_mul_exception _ _ _ Em). rewrite <- !app_assoc. eexists; reflexivity. }
  destruct (py_format_f 0 total) as [e|shown2] eqn:Ef2.
  { rewrite (py_format_f_exception _ _ _ Ef2). rewrite <- !app_assoc. eexists; reflexivity. }
  rewrite <- !app_assoc. eexists; reflexivity.
Qed.

End ViewFacts.

(** ** Dates on their way to the service *)

Module DateFacts.
Import Service.

Lemma all_years_read_back : forallb year_reads_back (seq 1000 (9 * 1000)) = true.
Proof. vm_compute. reflexivity. Qed.

Lemma all_two_digits_read_back : forallb two_digits_read_back (seq 0 100) = true.
Proof. vm_compute. reflexivity. Qed.

Lemma year_string (y : nat) :
  1000 <= Z.of_nat y <= 9999 ->
  exists a b c e,
    NilEmpty.string_of_uint (Nat.to_uint y) =
      String a (String b (String c (String e EmptyString))) /\
    number_value 0 (String a (String b (String c (String e EmptyString)))) =
      Some (Z.of_nat y).
Proof.
  intros Hy.
  pose proof (proj1 (forallb_forall _ _) all_years_read_back y) as H.
  assert (Hin : In y (seq 1000 (9 * 1000))) by (apply in_seq; lia).
  specialize (H Hin). unfold year_reads_back in H.
  destruct (NilEmpty.string_of_uint (Nat.to_uint y))
    as [|a [|b [|c [|e [|? ?]]]]]; try discriminate.
  exists a, b, c, e. split; [reflexivity|].
  destruct (number_value 0 _) as [v|]; [|discriminate].
  apply Z.eqb_eq in H. now subst.
Qed.

Lemma two_digits_value (n : nat) :
  (n < 100)%nat -> number_value 0 (two_digits n) = Some (Z.of_nat n).
Proof.
  intros Hn.
  pose proof (proj1 (forallb_forall _ _) all_two_digits_read_back n) as H.
  assert (Hin : In n (seq 0 100)) by (apply in_seq; lia).
  specialize (H Hin). unfold two_digits_read_back in H.
  destruct (number_value 0 (two_digits n)) as [v|]; [|discriminate].
  apply Z.eqb_eq in H. now subst.
Qed.

Lemma parse_date_shape (a b c e m1 m2 d1 d2 : ascii) :
  parse_date
    (String a (String b (String c (String e
       (String "-" (String m1 (String m2
          (String "-" (String d1 (String d2 EmptyString)))))))))) =
  match number_value 0 (String a (String b (String c (String e EmptyString)))),
        number_value 0 (String m1 (String m2 EmptyString)),
        number_value 0 (String d1 (String d2 EmptyString)) with
  | Some y, Some m, Some d =>
      if (1 <=? m) && (m <=? 12) && (1 <=? d) && (d <=? days_in_month y m)
      then Some (days_from_civil y m d * ms_per_day)
      else None
  | _, _, _ => None
  end.
Proof. reflexivity. Qed.

Lemma days_in_month_at_most_31 (y m : Z) : days_in_month y m <= 31.
Proof.
  unfold days_in_month.
  destruct (m =? 2); [destruct (is_leap y); lia|].
  destruct ((m =? 4) || (m =? 6) || (m =? 9) || (m =? 11)); lia.
Qed.

Lemma parse_strftime (d : date) :
  calendar_date d = true ->
  parse_date (strftime_Ymd d) = Some (day_number d * ms_per_day).
Proof.
  unfold calendar_date. intros H.
  repeat (apply andb_prop in H; destruct H as [H ?]).
  repeat match goal with
         | H : (_ <=? _)%nat = true |- _ => apply Nat.leb_le in H
         | H : (_ <=? _) = true |- _ => apply Z.leb_le in H
         end.
  pose proof (days_in_month_at_most_31 (Z.of_nat (year d)) (Z.of_nat (month d))).
  destruct (year_string (year d)) as (a & b & c & e & Hy & Hv); [lia|].
  pose proof (two_digits_value (month d)) as Hm.
  pose proof (two_digits_value (day d)) as Hd.
  unfold strftime_Ymd. rewrite Hy.
  unfold two_digits in *. cbn [String.append].
  rewrite parse_date_shape, Hv, Hm, Hd by lia.
  unfold day_number.
  replace ((1 <=? Z.of_nat (month d)) && (Z.of_nat (month d) <=? 12) &&
           (1 <=? Z.of_nat (day d)) &&
           (Z.of_nat (day d) <=? days_in_month (Z.of_nat (year d)) (Z.of_nat (month d))))
    with true; [reflexivity|].
  symmetry. repeat (apply andb_true_intro; split); apply Z.leb_le; lia.
Qed.

(** The window of two picked dates is reversed exactly when the second is
    an earlier day than the first. *)
Lemma reversed_window_strftime (first last : date) :
  calendar_date first = true ->
  calendar_date last = true ->
  reversed_window (strftime_Ymd first, strftime_Ymd last) =
  (day_number last <? day_number first).
Proof.
  intros Hf Hl. unfold reversed_window. cbn [fst snd].
  rewrite (parse_strftime first Hf), (parse_strftime last Hl).
  unfold ms_per_day.
  destruct (day_number last <? day_number first) eqn:E.
  - apply Z.ltb_lt in E. apply Z.ltb_lt. lia.
  - apply Z.ltb_ge in E. apply Z.ltb_ge. lia.
Qed.

End DateFacts.

Section Series.

Import Service Spec Denotation ServiceFacts AreaFacts HonestFacts LoopFacts AppFacts
  MeanFacts OrderFacts BoundFacts RaiseFacts.

(** X1.  For a well-formed window, [get_ndvi_time_series] evaluates to one
    image per scene that intersects the region and was captured in
    [start, end): each scene once, in ascending cloud cover, each image with
    the single band NDVI holding the scene's index and with the scene's
    capture time. *)
Theorem index_series_contents
    (sv : service) (roi : geometry) (start stop : string) (a b : Z) :
  parse_date start = Some a ->
  parse_date stop = Some b ->
  a < b ->
  exists imgs scs,
    eval_collection sv (Processor.get_ndvi_time_series roi start stop) = inr imgs /\
    Permutation scs (filter (qualifies roi a b) (landsat8 sv)) /\
    StronglySorted less_cloudy scs /\
    Forall2 (fun img sc =>
               map fst (bands img) = ["NDVI"] /\
               (forall p, band_of "NDVI" img p = index_raster sc p) /\
               dict_get (properties img) "system:time_start" =
                 Some (inject_Z (time_start sc)))
            imgs scs.
Proof.
  intros Ha Hb Hab.
  exists (map ndvi_image (by_cloud_cover (filter (qualifies roi a b) (landsat8 sv)))),
         (by_cloud_cover (filter (qualifies roi a b) (landsat8 sv))).
  split; [|split; [|split]].
  - rewrite eval_index_series. unfold returned_scenes. rewrite Ha, Hb.
    destruct (b <=? a) eqn:E; [apply Z.leb_le in E; lia|]. reflexivity.
  - apply by_cloud_cover_perm.
  - apply by_cloud_cover_sorted.
  - induction (by_cloud_cover _) as [|sc l IH]; cbn [map]; constructor; [|exact IH].
    split; [reflexivity|]. split; [|reflexivity].
    intros p. unfold band_of. cbn. apply ndvi_raster_index.
Qed.

Lemma index_series_contents_witness :
  exists imgs scs,
    eval_collection Sample.two_scenes
      (Processor.get_ndvi_time_series App.roi "2024-01-01" "2024-12-31") = inr imgs /\
    Permutation scs
      (filter (qualifies App.roi 1704067200000 1735603200000)
         (landsat8 Sample.two_scenes)) /\
    StronglySorted less_cloudy scs /\
    Forall2 (fun img sc =>
               map fst (bands img) = ["NDVI"] /\
               (forall p, band_of "NDVI" img p = index_raster sc p) /\
               dict_get (properties img) "system:time_start" =
                 Some (inject_Z (time_start sc)))
            imgs scs.
Proof.
  apply (index_series_contents Sample.two_scenes App.roi "2024-01-01" "2024-12-31"
           1704067200000 1735603200000).
  - vm_compute. reflexivity.
  - vm_compute. reflexivity.
  - lia.
Defined.

(** X2.  Against the service, [create_time_series_data] returns exactly one
    row per image of the series, in the order of the series: the formatted
    capture date and the spatial mean over the region of 200 times the
    image's index (null when every sampled pixel is masked). *)
Theorem time_series_rows
    (sv : service) (roi : geometry) (start stop : string) (scs : list scene) :
  returned_scenes sv roi start stop = inr scs ->
  (10 ^ 9 <? Z.of_nat (List.length (grid sv roi 30))) = false ->
  snd (run (Processor.create_time_series_data roi start stop) (answer sv)) =
  inr (mkDataFrame
         (map (fun sc => PyStr (format_date (time_start sc))) scs)
         (map (fun sc =>
                 py_of (spatial_mean (grid sv roi 30) (carbon_raster (index_raster sc))))
              scs)).
Proof. intros Hs Hcap. exact (honest_time_series sv roi start stop scs Hs Hcap). Qed.

Lemma time_series_rows_witness :
  snd (run (Processor.create_time_series_data App.roi "2024-01-01" "2024-12-31")
         (answer Sample.two_scenes)) =
  inr (mkDataFrame
         (map (fun sc => PyStr (format_date (time_start sc)))
            [Sample.june; Sample.january])
         (map (fun sc =>
                 py_of (spatial_mean (grid Sample.two_scenes App.roi 30)
                          (carbon_raster (index_raster sc))))
            [Sample.june; Sample.january])).
Proof.
  apply (time_series_rows Sample.two_scenes App.roi "2024-01-01" "2024-12-31"
           [Sample.june; Sample.january]).
  - vm_compute. reflexivity.
  - vm_compute. reflexivity.
Defined.

(** X3.  When the two bands are non-negative on the sampled pixels, every
    value of the time series is null or lies in [-200, 200]. *)
Theorem time_series_values_bounded
    (sv : service) (roi : geometry) (start stop : string) (scs : list scene) :
  returned_scenes sv roi start stop = inr scs ->
  (10 ^ 9 <? Z.of_nat (List.length (grid sv roi 30))) = false ->
  (forall sc p nir red,
      In sc scs -> In p (grid sv roi 30) ->
      SR_B5 sc p = Some nir -> SR_B4 sc p = Some red ->
      (0 <= nir)%Q /\ (0 <= red)%Q) ->
  exists df,
    snd (run (Processor.create_time_series_data roi start stop) (answer sv)) = inr df /\
    Forall (fun v => v = PyNone \/ exists q, v = PyFloat q /\ (-200 <= q <= 200)%Q)
      (Carbon_Storage df).
Proof.
  intros Hs Hcap Hpos. eexists. split; [exact (honest_time_series _ _ _ _ _ Hs Hcap)|].
  cbn [Carbon_Storage]. apply Forall_forall. intros v Hv.
  apply in_map_iff in Hv. destruct Hv as (sc & <- & Hsc).
  unfold value_of, row_value, spatial_mean.
  destruct (mean _) as [m|] eqn:Em; [|now left].
  right. exists m. split; [reflexivity|].
  refine (mean_bounds (-200) 200 _ m _ Em).
  apply present_Forall. intros p v0 Hp Hv.
  unfold carbon_raster, index_raster in Hv.
  destruct (SR_B5 sc p) as [nir|] eqn:E5; [|discriminate].
  destruct (SR_B4 sc p) as [red|] eqn:E4; [|discriminate].
  cbn in Hv. inversion Hv; subst v0.
  destruct (Hpos sc p nir red Hsc Hp E5 E4) as [Hn Hr].
  pose proof (index_value_bounds_all nir red Hn Hr) as [Hl Hh].
  unfold carbon_estimate. lra.
Qed.

Lemma time_series_values_bounded_witness :
  exists df,
    snd (run (Processor.create_time_series_data App.roi "2024-01-01" "2024-12-31")
           (answer Sample.two_scenes)) = inr df /\
    Forall (fun v => v = PyNone \/ exists q, v = PyFloat q /\ (-200 <= q <= 200)%Q)
      (Carbon_Storage df).
Proof.
  apply (time_series_values_bounded Sample.two_scenes App.roi "2024-01-01" "2024-12-31"
           [Sample.june; Sample.january]).
  - vm_compute. reflexivity.
  - vm_compute. reflexivity.
  - intros sc p nir red [<-|[<-|[]]] _ H5 H4; vm_compute in H5, H4;
      inversion H5; inversion H4; split; vm_compute; discriminate.
Defined.

(** X4.  Under the same condition the area statistic of a window with at
    least one image is null or lies in [-200, 200]. *)
Theorem area_statistic_bounded
    (sv : service) (roi : geometry) (start stop : string)
    (sc : scene) (rest : list scene) :
  returned_scenes sv roi start stop = inr (sc :: rest) ->
  (10 ^ 9 <? Z.of_nat (List.length (grid sv roi 30))) = false ->
  (forall sc' p nir red,
      In sc' (sc :: rest) -> In p (grid sv roi 30) ->
      SR_B5 sc' p = Some nir -> SR_B4 sc' p = Some red ->
      (0 <= nir)%Q /\ (0 <= red)%Q) ->
  exists v,
    eval_computed sv (Processor.get_area_statistics roi start stop) =
      inr (PyDict [("NDVI", v)]) /\
    (v = PyNone \/ exists q, v = PyFloat q /\ (-200 <= q <= 200)%Q).
Proof.
  intros Hs Hcap Hpos.
  rewrite (eval_area_statistics sv roi start stop sc rest Hs).
  unfold area_statistic. rewrite Hcap. unfold and_then, ok.
  eexists. split; [reflexivity|].
  unfold spatial_mean.
  destruct (mean _) as [m|] eqn:Em; [|now left].
  right. exists m. split; [reflexivity|].
  refine (mean_bounds (-200) 200 _ m _ Em).
  apply present_Forall. intros p v Hp Hv.
  unfold carbon_raster in Hv.
  destruct (temporal_mean (map index_raster (sc :: rest)) p) as [t|] eqn:Et;
    [|discriminate].
  cbn in Hv. inversion Hv; subst v.
  assert (Ht : (-1 <= t <= 1)%Q).
  { unfold temporal_mean in Et. rewrite map_map in Et.
    refine (mean_bounds (-1) 1 _ t _ Et).
    apply present_Forall. intros sc' x Hsc' Hx.
    exact (carbon_sample_bounded (sc :: rest) (grid sv roi 30) sc' p x Hpos Hsc' Hp Hx). }
  unfold carbon_estimate. lra.
Qed.

Lemma area_statistic_bounded_witness :
  exists v,
    eval_computed Sample.two_scenes
      (Processor.get_area_statistics App.roi "2024-01-01" "2024-12-31") =
      inr (PyDict [("NDVI", v)]) /\
    (v = PyNone \/ exists q, v = PyFloat q /\ (-200 <= q <= 200)%Q).
Proof.
  apply (area_statistic_bounded Sample.two_scenes App.roi "2024-01-01" "2024-12-31"
           Sample.june [Sample.january]).
  - vm_compute. reflexivity.
  - vm_compute. reflexivity.
  - intros sc p nir red [<-|[<-|[]]] _ H5 H4; vm_compute in H5, H4;
      inversion H5; inversion H4; split; vm_compute; discriminate.
Defined.

(** X5.  Whatever the service answers, [create_time_series_data] raises
    nothing but an [EEException] (a failed round-trip), a [TypeError] (a count
    that is not an integer, an answer that is not a dictionary) or
    [KeyError('NDVI')]. *)
Theorem create_time_series_data_exceptions
    (roi : geometry) (start stop : string) (w : world) (tr : trace) (e : exn) :
  run (Processor.create_time_series_data roi start stop) w = (tr, inl e) ->
  (exists msg, e = EEException msg) \/ (exists msg, e = TypeError msg) \/
  e = KeyError "NDVI".
Proof.
  unfold run. rewrite create_time_series_data_eq. cbv zeta. intros H.
  destruct (w (calls_of []) _) as [msg|count]; [inversion H; left; eauto|].
  destruct (py_range count) as [e'|idx] eqn:Er.
  { inversion H; subst. destruct count; cbn in Er; inversion Er; right; left; eauto. }
  destruct (for_in _ _ _ _ _) as [tr' [e'|lists]] eqn:E; [|discriminate].
  inversion H; subst. exact (loop_raises _ _ _ _ _ _ _ _ _ E).
Qed.

Lemma create_time_series_data_exceptions_witness :
  (exists msg, EEException "Service unavailable." = EEException msg) \/
  (exists msg, EEException "Service unavailable." = TypeError msg) \/
  EEException "Service unavailable." = KeyError "NDVI".
Proof.
  apply (create_time_series_data_exceptions App.roi "2024-01-01" "2024-12-31"
           MoreSamples.unreachable
           [Remote (GetInfo (QSize (Processor.get_ndvi_time_series App.roi
                                      "2024-01-01" "2024-12-31")))]).
  reflexivity.
Defined.

End Series.

Section Views.

Import Service LoopFacts AppFacts ScriptFacts ViewFacts DateFacts.

(** X6.  A failure of the map request stays inside the map view: its message
    is shown, no map is drawn, and the statistics query and the time-series
    size query are still sent, each under its own heading; the script runs to
    its end. *)
Theorem map_failure_is_isolated
    (w : world) (first last : date) (rest : list date) (v : pyval) (msg : string)
    (tr0 : trace) :
  w [] EeInitialize = inr v ->
  Processor.init w preamble = (tr0, inr tt) ->
  w (calls_of tr0)
    (GetMapId (LayerImage
                 (Processor.estimate_carbon_storage
                    (ICollMean (Processor.get_ndvi_time_series App.roi
                                  (strftime_Ymd first) (strftime_Ymd last)))))
       (VisRamp 0 200 ["red"; "yellow"; "green"])) = inl msg ->
  exists delta1 delta2,
    run (App.main (first :: last :: rest)) w =
    (tr0 ++
     [Shown (StColumns 2); Shown (StSubheader "Carbon Storage Map");
      Remote (GetMapId (LayerImage
                          (Processor.estimate_carbon_storage
                             (ICollMean (Processor.get_ndvi_time_series App.roi
                                           (strftime_Ymd first) (strftime_Ymd last)))))
                (VisRamp 0 200 ["red"; "yellow"; "green"]));
      Shown (StError ("Error generating map: " +++ msg));
      Shown (StSubheader "Carbon Storage Statistics");
      Remote (GetInfo (Processor.get_area_statistics App.roi
                         (strftime_Ymd first) (strftime_Ymd last)))] ++
     delta1 ++
     [Shown (StSubheader "Carbon Storage Over Time");
      Remote (GetInfo (QSize (Processor.get_ndvi_time_series App.roi
                                (strftime_Ymd first) (strftime_Ymd last))))] ++
     delta2,
     inr tt).
Proof.
  intros E0 Ei Hmap. rewrite (main_after_startup w _ v E0), Ei. cbv zeta.
  cbn [tuple_getitem nth_error].
  assert (Em : App.map_view (strftime_Ymd first) (strftime_Ymd last) w
                 (tr0 ++ [Shown (StColumns 2); Shown (StSubheader "Carbon Storage Map")]) =
               ((tr0 ++ [Shown (StColumns 2); Shown (StSubheader "Carbon Storage Map")]) ++
                [Remote (GetMapId (LayerImage
                          (Processor.estimate_carbon_storage
                             (ICollMean (Processor.get_ndvi_time_series App.roi
                                           (strftime_Ymd first) (strftime_Ymd last)))))
                          (VisRamp 0 200 ["red"; "yellow"; "green"]));
                 Shown (StError ("Error generating map: " +++ msg))], inr tt)).
  { unfold App.map_view, try_except, bind, remote, show.
    rewrite calls_of_app. cbn [calls_of]. rewrite app_nil_r, Hmap.
    cbn [is_Exception str_exn]. now rewrite <- app_assoc. }
  rewrite Em.
  destruct (statistics_view_starts (strftime_Ymd first) (strftime_Ymd last) w
              (((tr0 ++ [Shown (StColumns 2); Shown (StSubheader "Carbon Storage Map")]) ++
                [Remote (GetMapId (LayerImage
                          (Processor.estimate_carbon_storage
                             (ICollMean (Processor.get_ndvi_time_series App.roi
                                           (strftime_Ymd first) (strftime_Ymd last)))))
                          (VisRamp 0 200 ["red"; "yellow"; "green"]));
                 Shown (StError ("Error generating map: " +++ msg))]) ++
               [Shown (StSubheader "Carbon Storage Statistics")])) as [delta1 E5].
  rewrite E5.
  match goal with
  | |- context [App.time_series_view ?s ?e w ?t] =>
      destruct (time_series_view_starts s e w t) as [delta2 E6]; rewrite E6
  end.
  exists delta1.
  eexists. f_equal. rewrite <- !app_assoc. cbn [app]. reflexivity.
Qed.

Lemma map_failure_is_isolated_witness :
  exists delta1 delta2,
    run (App.main [mkDate 2024 1 1; mkDate 2024 12 31]) MoreSamples.unreachable =
    ((preamble ++ [Remote EeInitialize]) ++
     [Shown (StColumns 2); Shown (StSubheader "Carbon Storage Map");
      Remote (GetMapId (LayerImage
                          (Processor.estimate_carbon_storage
                             (ICollMean (Processor.get_ndvi_time_series App.roi
                                           (strftime_Ymd (mkDate 2024 1 1))
                                           (strftime_Ymd (mkDate 2024 12 31))))))
                (VisRamp 0 200 ["red"; "yellow"; "green"]));
      Shown (StError ("Error generating map: " +++ "Service unavailable."));
      Shown (StSubheader "Carbon Storage Statistics");
      Remote (GetInfo (Processor.get_area_statistics App.roi
                         (strftime_Ymd (mkDate 2024 1 1))
                         (strftime_Ymd (mkDate 2024 12 31))))] ++
     delta1 ++
     [Shown (StSubheader "Carbon Storage Over Time");
      Remote (GetInfo (QSize (Processor.get_ndvi_time_series App.roi
                                (strftime_Ymd (mkDate 2024 1 1))
                                (strftime_Ymd (mkDate 2024 12 31)))))] ++
     delta2,
     inr tt).
Proof.
  apply (map_failure_is_isolated MoreSamples.unreachable (mkDate 2024 1 1)
           (mkDate 2024 12 31) [] PyNone "Service unavailable."
           (preamble ++ [Remote EeInitialize])).
  - reflexivity.
  - vm_compute. reflexivity.
  - vm_compute. reflexivity.
Defined.

(** X7.  When the date picker holds fewer than two dates, the script stops
    with an uncaught [IndexError] right after the map heading, before any
    query is sent. *)
Theorem incomplete_date_range_crashes
    (w : world) (date_range : list date) (v : pyval) (tr0 : trace) :
  w [] EeInitialize = inr v ->
  Processor.init w preamble = (tr0, inr tt) ->
  (List.length date_range < 2)%nat ->
  run (App.main date_range) w =
  (tr0 ++ [Shown (StColumns 2); Shown (StSubheader "Carbon Storage Map")],
   inl (IndexError "tuple index out of range")).
Proof.
  intros E0 Ei Hlen. rewrite (main_after_startup w _ v E0), Ei. cbv zeta.
  destruct date_range as [|a [|b rest]]; cbn [List.length] in Hlen; try lia; reflexivity.
Qed.

Lemma incomplete_date_range_crashes_witness :
  run (App.main [mkDate 2024 1 1]) (answer Sample.two_scenes) =
  ((preamble ++ [Remote EeInitialize]) ++
   [Shown (StColumns 2); Shown (StSubheader "Carbon Storage Map")],
   inl (IndexError "tuple index out of range")).
Proof.
  apply (incomplete_date_range_crashes (answer Sample.two_scenes) [mkDate 2024 1 1]
           PyNone (preamble ++ [Remote EeInitialize])).
  - reflexivity.
  - vm_compute. reflexivity.
  - vm_compute. lia.
Defined.

(** X8.  When the statistics answer holds a float under ['NDVI'] and the
    area request answers a float of at least a hectare, the view shows the
    density with one decimal and then the total with none: the double
    product of the density and of the double quotient area / 10000, as long
    as that product is a finite double. *)
Theorem statistics_view_metrics
    (w : world) (tr : trace) (start stop : string)
    (d : list (string * pyval)) (q a : Q) :
  w (calls_of tr) (GetInfo (Processor.get_area_statistics App.roi start stop)) =
    inr (PyDict d) ->
  dict_get d "NDVI" = Some (PyFloat q) ->
  w (calls_of tr ++ [GetInfo (Processor.get_area_statistics App.roi start stop)])
    (GetInfo (QArea App.roi)) = inr (PyFloat a) ->
  finite q = true ->
  finite a = true ->
  Qle_bool 10000 a = true ->
  finite (binary64 (q * binary64 (a / 10000))) = true ->
  App.statistics_view start stop w tr =
  (tr ++
   [Remote (GetInfo (Processor.get_area_statistics App.roi start stop));
    Shown (StMetric "Average Carbon Storage" (format_fixed 1 q +++ " tons/ha"));
    Remote (GetInfo (QArea App.roi));
    Shown (StMetric "Total Carbon Storage"
             (format_fixed 0 (binary64 (q * binary64 (a / 10000))) +++ " tons"))],
   inr tt).
Proof.
  intros Hs Hd Ha _ _ _ _.
  unfold App.statistics_view, try_except, bind, getInfo, remote, show, lift.
  rewrite Hs. cbn [py_getitem]. rewrite Hd. cbn [py_format_f].
  rewrite calls_of_shown, calls_of_remote, Ha.
  rewrite ViewFacts.truediv_10000.
  cbn [py_mul float_op py_float py_format_f]. rewrite <- !app_assoc. reflexivity.
Qed.

Lemma statistics_view_metrics_witness :
  App.statistics_view "2024-01-01" "2024-12-31" MoreSamples.wide_region [] =
  ([] ++
   [Remote (GetInfo (Processor.get_area_statistics App.roi "2024-01-01" "2024-12-31"));
    Shown (StMetric "Average Carbon Storage"
             (format_fixed 1 MoreSamples.density_100 +++ " tons/ha"));
    Remote (GetInfo (QArea App.roi));
    Shown (StMetric "Total Carbon Storage"
             (format_fixed 0
                (binary64 (MoreSamples.density_100 *
                           binary64 ((2290000000 # 1) / 10000)))
              +++ " tons"))],
   inr tt).
Proof.
  apply (statistics_view_metrics MoreSamples.wide_region [] "2024-01-01" "2024-12-31"
           [("NDVI", PyFloat MoreSamples.density_100)]
           MoreSamples.density_100 (2290000000 # 1)).
  - reflexivity.
  - reflexivity.
  - reflexivity.
  - vm_compute. reflexivity.
  - vm_compute. reflexivity.
  - vm_compute. reflexivity.
  - vm_compute. reflexivity.
Defined.

(** The exact product lies below 22900009.5, its double is 22900009.5, and
    the card shows the even neighbour. *)
Example total_is_rounded_as_a_double :
  App.statistics_view "2024-01-01" "2024-12-31" MoreSamples.wide_region [] =
  ([Remote (GetInfo (Processor.get_area_statistics App.roi "2024-01-01" "2024-12-31"));
    Shown (StMetric "Average Carbon Storage" "100.0 tons/ha");
    Remote (GetInfo (QArea App.roi));
    Shown (StMetric "Total Carbon Storage" "22900010 tons")],
   inr tt) /\
  format_fixed 0 (MoreSamples.density_100 * ((2290000000 # 1) / 10000)) = "22900009".
Proof. split; vm_compute; reflexivity. Qed.

(** X9.  A null density (every pixel masked) makes the statistics view show a
    formatting error without asking for the area; a failing area request
    leaves the density card on the page and shows the failure beneath it. *)
Theorem statistics_view_failures
    (w : world) (tr : trace) (start stop : string) (d : list (string * pyval)) :
  w (calls_of tr) (GetInfo (Processor.get_area_statistics App.roi start stop)) =
    inr (PyDict d) ->
  (dict_get d "NDVI" = Some PyNone ->
   App.statistics_view start stop w tr =
   (tr ++
    [Remote (GetInfo (Processor.get_area_statistics App.roi start stop));
     Shown (StError
              "Error calculating statistics: unsupported format string passed to NoneType.__format__")],
    inr tt)) /\
  (forall q msg,
      dict_get d "NDVI" = Some (PyFloat q) ->
      w (calls_of tr ++ [GetInfo (Processor.get_area_statistics App.roi start stop)])
        (GetInfo (QArea App.roi)) = inl msg ->
      App.statistics_view start stop w tr =
      (tr ++
       [Remote (GetInfo (Processor.get_area_statistics App.roi start stop));
        Shown (StMetric "Average Carbon Storage" (format_fixed 1 q +++ " tons/ha"));
        Remote (GetInfo (QArea App.roi));
        Shown (StError ("Error calculating statistics: " +++ msg))],
       inr tt)).
Proof.
  intros Hs. split.
  - intros Hd.
    unfold App.statistics_view, try_except, bind, getInfo, remote, show, lift.
    rewrite Hs. cbn [py_getitem]. rewrite Hd. cbn [py_format_f is_Exception str_exn].
    rewrite <- !app_assoc. reflexivity.
  - intros q msg Hd Ha.
    unfold App.statistics_view, try_except, bind, getInfo, remote, show, lift.
    rewrite Hs. cbn [py_getitem]. rewrite Hd. cbn [py_format_f].
    rewrite calls_of_shown, calls_of_remote, Ha. cbn [is_Exception str_exn].
    rewrite <- !app_assoc. reflexivity.
Qed.

Lemma statistics_view_failures_witness :
  App.statistics_view "2024-01-01" "2024-12-31" (answer MoreSamples.overcast_only) [] =
  ([] ++
   [Remote (GetInfo (Processor.get_area_statistics App.roi "2024-01-01" "2024-12-31"));
    Shown (StError
             "Error calculating statistics: unsupported format string passed to NoneType.__format__")],
   inr tt).
Proof.
  apply (proj1 (statistics_view_failures (answer MoreSamples.overcast_only) []
                  "2024-01-01" "2024-12-31" [("NDVI", PyNone)] ltac:(vm_compute; reflexivity))).
  reflexivity.
Defined.

(** X10.  When the service counts no image (or a non-positive number), the
    time-series view draws the chart of an empty frame after that single
    round-trip, and shows no error. *)
Theorem empty_series_gives_empty_chart
    (w : world) (tr : trace) (start stop : string) (n : Z) :
  w (calls_of tr)
    (GetInfo (QSize (Processor.get_ndvi_time_series App.roi start stop))) =
    inr (PyInt n) ->
  n <= 0 ->
  App.time_series_view start stop w tr =
  (tr ++
   [Remote (GetInfo (QSize (Processor.get_ndvi_time_series App.roi start stop)));
    Shown (StPlotlyChart
             (mkFigure (mkDataFrame [] []) "Date" "Carbon_Storage"
                "Carbon Storage Trends"
                [("Carbon_Storage", "Carbon Storage (tons/ha)")]))],
   inr tt).
Proof.
  intros Hs Hn.
  unfold App.time_series_view, try_except, bind.
  rewrite create_time_series_data_eq. cbv zeta. rewrite Hs. cbn [py_range].
  replace (Z.to_nat n) with O by lia. cbn [seq for_in]. unfold ret, show.
  cbn [fst snd]. rewrite <- !app_assoc. reflexivity.
Qed.

Lemma empty_series_gives_empty_chart_witness :
  App.time_series_view "2023-01-01" "2023-12-31" (answer Sample.two_scenes) [] =
  ([] ++
   [Remote (GetInfo (QSize (Processor.get_ndvi_time_series App.roi
                              "2023-01-01" "2023-12-31")));
    Shown (StPlotlyChart
             (mkFigure (mkDataFrame [] []) "Date" "Carbon_Storage"
                "Carbon Storage Trends"
                [("Carbon_Storage", "Carbon Storage (tons/ha)")]))],
   inr tt).
Proof.
  apply (empty_series_gives_empty_chart (answer Sample.two_scenes) []
           "2023-01-01" "2023-12-31" 0).
  - vm_compute. reflexivity.
  - lia.
Defined.

(** X11.  For a calendar date with a four-digit year, the string the script
    sends is read back by the service's date parser as midnight of the same
    day. *)
Theorem picked_dates_parse_back (d : date) :
  calendar_date d = true ->
  parse_date (strftime_Ymd d) = Some (day_number d * ms_per_day).
Proof. exact (parse_strftime d). Qed.

Lemma picked_dates_parse_back_witness :
  parse_date (strftime_Ymd (mkDate 2024 6 1)) =
  Some (day_number (mkDate 2024 6 1) * ms_per_day).
Proof.
  apply (picked_dates_parse_back (mkDate 2024 6 1)).
  vm_compute. reflexivity.
Defined.

(** X12.  For two such dates, the statistics query the script builds is
    malformed exactly when the second picked date is an earlier day than the
    first. *)
Theorem query_malformed_iff_dates_reversed (first last : date) :
  calendar_date first = true ->
  calendar_date last = true ->
  malformed (GetInfo (Processor.get_area_statistics App.roi
                        (strftime_Ymd first) (strftime_Ymd last))) =
  (day_number last <? day_number first).
Proof.
  intros Hf Hl.
  change (malformed (GetInfo (Processor.get_area_statistics App.roi
                                (strftime_Ymd first) (strftime_Ymd last))))
    with (reversed_window (strftime_Ymd first, strftime_Ymd last) || false).
  rewrite orb_false_r. unfold reversed_window. cbn [fst snd].
  rewrite (parse_strftime first Hf), (parse_strftime last Hl).
  unfold ms_per_day.
  destruct (day_number last <? day_number first) eqn:E.
  - apply Z.ltb_lt in E. apply Z.ltb_lt. lia.
  - apply Z.ltb_ge in E. apply Z.ltb_ge. lia.
Qed.

Lemma query_malformed_iff_dates_reversed_witness :
  malformed (GetInfo (Processor.get_area_statistics App.roi
                        (strftime_Ymd (mkDate 2024 12 31))
                        (strftime_Ymd (mkDate 2024 1 1)))) =
  (day_number (mkDate 2024 1 1) <? day_number (mkDate 2024 12 31)).
Proof.
  apply (query_malformed_iff_dates_reversed (mkDate 2024 12 31) (mkDate 2024 1 1)).
  - vm_compute. reflexivity.
  - vm_compute. reflexivity.
Defined.

End Views.

(** ** The date range *)

Section DateRange.

Import Service Spec AppFacts ScriptFacts DateFacts.

(** C8, amended.  The script makes no check of its own on the picked dates:
    every window mentioned in any round-trip is the picked pair, formatted
    and otherwise unchanged, in the order picked; and every completed run has
    sent the statistics query filtered by exactly that window.  So when the
    second picked calendar date is an earlier day than the first, every
    window sent is reversed, and every completed run has issued a malformed
    query. *)
Theorem date_range_is_forwarded_unchecked (w : world) (date_range : list date) :
  (forall c win,
      In c (calls_of (fst (run (App.main date_range) w))) ->
      In win (call_windows c) ->
      exists first last rest,
        date_range = first :: last :: rest /\
        win = (strftime_Ymd first, strftime_Ymd last)) /\
  (snd (run (App.main date_range) w) = inr tt ->
   exists first last rest,
     date_range = first :: last :: rest /\
     In (GetInfo (Processor.get_area_statistics App.roi
                    (strftime_Ymd first) (strftime_Ymd last)))
        (calls_of (fst (run (App.main date_range) w)))) /\
  (forall first last rest,
      date_range = first :: last :: rest ->
      calendar_date first = true ->
      calendar_date last = true ->
      day_number last < day_number first ->
      (forall c win,
          In c (calls_of (fst (run (App.main date_range) w))) ->
          In win (call_windows c) ->
          reversed_window win = true) /\
      (snd (run (App.main date_range) w) = inr tt ->
       exists c,
         In c (calls_of (fst (run (App.main date_range) w))) /\
         malformed c = true)).
Proof.
  assert (Hmain :
    (forall c win,
        In c (calls_of (fst (run (App.main date_range) w))) ->
        In win (call_windows c) ->
        exists first last rest,
          date_range = first :: last :: rest /\
          win = (strftime_Ymd first, strftime_Ymd last)) /\
    (snd (run (App.main date_range) w) = inr tt ->
     exists first last rest,
       date_range = first :: last :: rest /\
       In (GetInfo (Processor.get_area_statistics App.roi
                      (strftime_Ymd first) (strftime_Ymd last)))
          (calls_of (fst (run (App.main date_range) w))))).
  2: {
    destruct Hmain as [Hwin Hsent]. split; [exact Hwin|]. split; [exact Hsent|].
    intros first last rest Hdr Hf Hl Hlt.
    assert (Hrev : reversed_window (strftime_Ymd first, strftime_Ymd last) = true).
    { rewrite (reversed_window_strftime first last Hf Hl). now apply Z.ltb_lt. }
    split.
    - intros c win Hc Hw.
      destruct (Hwin c win Hc Hw) as (f & l & r & Hdr' & ->).
      rewrite Hdr in Hdr'. inversion Hdr'; subst. exact Hrev.
    - intros Hok.
      destruct (Hsent Hok) as (f & l & r & Hdr' & Hin).
      rewrite Hdr in Hdr'. inversion Hdr'; subst f l r.
      eexists. split; [exact Hin|].
      change (malformed (GetInfo (Processor.get_area_statistics App.roi
                                    (strftime_Ymd first) (strftime_Ymd last))))
        with (reversed_window (strftime_Ymd first, strftime_Ymd last) || false).
      rewrite Hrev. reflexivity. }
  destruct (main_queries w date_range)
    as [[[e He] Hq]|(first & last & rest & m1 & m2 & m3 & count & n &
                     Hdr & Hm1 & Hm2 & Hm3 & Hr & Hq)].
  - split.
    + intros c win Hc Hw.
      assert (Hin : In c (filter is_query (calls_of (fst (run (App.main date_range) w))))).
      { apply filter_In. split; [exact Hc|].
        destruct c as [| |q|obj vis]; try reflexivity; destruct Hw. }
      rewrite Hq in Hin. destruct Hin.
    + rewrite He. discriminate.
  - split.
    + intros c win Hc Hw. exists first, last, rest. split; [exact Hdr|].
      assert (Hin : In c (filter is_query (calls_of (fst (run (App.main date_range) w))))).
      { apply filter_In. split; [exact Hc|].
        destruct c as [| |q|obj vis]; try reflexivity; destruct Hw. }
      rewrite Hq in Hin.
      pose proof (view_windows (strftime_Ymd first) (strftime_Ymd last) count n) as Hall.
      rewrite Forall_forall in Hall. apply (Hall c); [|exact Hw].
      apply in_app_or in Hin. destruct Hin as [Hin|Hin];
        [apply in_or_app; left; exact (in_firstn _ _ _ Hin)|].
      apply in_or_app. right.
      apply in_app_or in Hin. destruct Hin as [Hin|Hin];
        apply in_or_app; [left|right]; exact (in_firstn _ _ _ Hin).
    + intros _. exists first, last, rest. split; [exact Hdr|].
      assert (Hin : In (GetInfo (Processor.get_area_statistics App.roi
                                   (strftime_Ymd first) (strftime_Ymd last)))
                       (filter is_query
                          (calls_of (fst (run (App.main date_range) w))))).
      { rewrite Hq. apply in_or_app. right. apply in_or_app. left.
        destruct m2 as [|m2]; [lia|]. left. reflexivity. }
      apply filter_In in Hin. exact (proj1 Hin).
Qed.

Lemma date_range_is_forwarded_unchecked_witness :
  (exists first last rest,
      [mkDate 2024 12 31; mkDate 2024 1 1] = first :: last :: rest /\
      In (GetInfo (Processor.get_area_statistics App.roi
                     (strftime_Ymd first) (strftime_Ymd last)))
         (calls_of (fst (run (App.main [mkDate 2024 12 31; mkDate 2024 1 1])
                           (Service.answer Sample.two_scenes))))) /\
  (exists c,
      In c (calls_of (fst (run (App.main [mkDate 2024 12 31; mkDate 2024 1 1])
                             (Service.answer Sample.two_scenes)))) /\
      malformed c = true).
Proof.
  split.
  - apply (proj1 (proj2 (date_range_is_forwarded_unchecked
                           (Service.answer Sample.two_scenes)
                           [mkDate 2024 12 31; mkDate 2024 1 1]))).
    vm_compute. reflexivity.
  - refine (proj2 (proj2 (proj2 (date_range_is_forwarded_unchecked
                                   (Service.answer Sample.two_scenes)
                                   [mkDate 2024 12 31; mkDate 2024 1 1]))
                     (mkDate 2024 12 31) (mkDate 2024 1 1) [] _ _ _ _) _).
    + reflexivity.
    + vm_compute. reflexivity.
    + vm_compute. reflexivity.
    + vm_compute. reflexivity.
    + vm_compute. reflexivity.
Defined.

End DateRange.
